(** * Checkout subsystem: cart reducer and booking creation

    Shallow embedding of
      - src/src/context/CartContext.js  (client-side cart store),
      - src/models/Booking.js           (Booking schema and its pre-save hook),
      - src/routes/user.js              (POST /api/user/bookings),
      - the Cart panel component        (the store's caller),
      - src/middleware/auth.js          (the token check in front of the route),
      - src/src/utils/api.js            (the HTTP client's interceptors).

    JavaScript numbers are IEEE-754 binary64 values; they are modelled by
    Rocq's primitive floats, whose operations are the IEEE ones. *)

From Stdlib Require Import ZArith List String Ascii Bool Floats Lia.
Import ListNotations.

Set Implicit Arguments.
Set Warnings "-inexact-float".

(** ** JavaScript built-ins used by the sources *)

Module JS.

Definition number := float.

Definition add (a b : number) : number := PrimFloat.add a b.
Definition mul (a b : number) : number := PrimFloat.mul a b.

(** [a > b], [a >= b], [a < b] on numbers. *)
Definition gt (a b : number) : bool := PrimFloat.ltb b a.
Definition ge (a b : number) : bool := PrimFloat.leb b a.
Definition lt (a b : number) : bool := PrimFloat.ltb a b.

(** [a === b] on numbers: IEEE equality (NaN differs from itself,
    +0 equals -0). *)
Definition strict_eq (a b : number) : bool := PrimFloat.eqb a b.

Definition is_neg_zero (a : number) : bool :=
  match Prim2SF a with
  | S754_zero true => true
  | _ => false
  end.

(** [Math.max(a, b)]: NaN if either argument is NaN, otherwise the larger
    one, +0 counting as larger than -0. *)
Definition Math_max (a b : number) : number :=
  if PrimFloat.is_nan a || PrimFloat.is_nan b then nan
  else if PrimFloat.ltb a b then b
  else if PrimFloat.ltb b a then a
  else if is_neg_zero a then b else a.

(** [Number.isFinite(v)]. *)
Definition Number_isFinite (v : number) : bool :=
  match Prim2SF v with
  | S754_zero _ | S754_finite _ _ _ => true
  | _ => false
  end.

(** [Number.isInteger(v)]. *)
Definition Number_isInteger (v : number) : bool :=
  match Prim2SF v with
  | S754_zero _ => true
  | S754_finite _ m e =>
      (0 <=? e)%Z || (Z.pos m mod 2 ^ (- e) =? 0)%Z
  | _ => false
  end.

(** The text produced by [x.toFixed(2)], kept as the number it denotes:
    a sign and a count of hundredths, or the text of [String(x)] for the
    values that [toFixed] hands over to [ToString]. *)
Inductive fixed2 : Type :=
| FxNaN
| FxInfinity (neg : bool)
| FxDecimal (neg : bool) (hundredths : Z)
| FxToString (x : number).

(** The integer [n] for which [n / 100] is closest to [m * 2^e], the
    larger one when two are equally close. *)
Definition nearest_hundredths (m : positive) (e : Z) : Z :=
  if (0 <=? e)%Z then Z.pos m * 2 ^ e * 100
  else (2 * (Z.pos m * 100) + 2 ^ (- e)) / 2 ^ (- e + 1).

Definition toFixed2 (x : number) : fixed2 :=
  match Prim2SF x with
  | S754_nan => FxNaN
  | S754_infinity s => FxInfinity s
  | S754_zero _ => FxDecimal false 0
  | S754_finite s m e =>
      if PrimFloat.leb 1e21 (PrimFloat.abs x) then FxToString x
      else FxDecimal s (nearest_hundredths m e)
  end.

(** [parseFloat] on such a text: the double nearest to the decimal. *)
Definition parseFloat (t : fixed2) : number :=
  match t with
  | FxNaN => nan
  | FxInfinity s => if s then neg_infinity else infinity
  | FxToString x => x
  | FxDecimal s n =>
      match n with
      | Z.pos p =>
          SF2Prim (SFdiv prec emax (S754_finite s p 0) (S754_finite false 100 0))
      | _ => if s then (-0)%float else 0%float
      end
  end.

End JS.


(** ** Array helpers, as [Array.prototype] has them *)

Section ArrayOps.
Context {A B : Type}.

Fixpoint findIndex_from (f : A -> bool) (l : list A) (i : Z) : Z :=
  match l with
  | [] => (-1)%Z
  | x :: t => if f x then i else findIndex_from f t (i + 1)%Z
  end.

(** [l.findIndex(f)]: index of the first element satisfying [f], or -1. *)
Definition findIndex (f : A -> bool) (l : list A) : Z := findIndex_from f l 0%Z.

(** [l.find(f)]: first element satisfying [f], or undefined. *)
Definition find_first (f : A -> bool) (l : list A) : option A := List.find f l.

Fixpoint mapi_from (f : A -> Z -> B) (l : list A) (i : Z) : list B :=
  match l with
  | [] => []
  | x :: t => f x i :: mapi_from f t (i + 1)%Z
  end.

(** [l.map((item, index) => ...)]. *)
Definition mapi (f : A -> Z -> B) (l : list A) : list B := mapi_from f l 0%Z.

(** [l.reduce(f, init)]. *)
Definition reduce (f : B -> A -> B) (l : list A) (init : B) : B :=
  fold_left f l init.
End ArrayOps.

(** Replace the first element satisfying [f] by its image under [g]: what
    mapping with the index returned by [findIndex] amounts to. *)
Fixpoint update_first {A : Type} (f : A -> bool) (g : A -> A) (l : list A) : list A :=
  match l with
  | [] => []
  | x :: t => if f x then g x :: t else x :: update_first f g t
  end.

(** ** The cart store: src/src/context/CartContext.js *)

Module Product.
(** A catalog item as the client receives it. *)
Record t : Type := mk
  { _id : string;
    name : string;
    image : string;
    category : string;
    price : JS.number }.
End Product.

Module CartLine.
Record t : Type := mk
  { product : Product.t;
    quantity : JS.number;
    price : JS.number }.

(** [{ ...item, quantity: q }] *)
Definition with_quantity (item : t) (q : JS.number) : t :=
  {| product := product item; quantity := q; price := price item |}.
End CartLine.

Module Cart.

Record CartState : Type := mkState
  { items : list CartLine.t;
    totalItems : JS.number;
    totalAmount : JS.number;
    loading : bool;
    error : option string }.

Definition initialState : CartState :=
  {| items := [];
     totalItems := 0%float;
     totalAmount := 0%float;
     loading := false;
     error := None |}.

(** The object parsed from local storage: any of the fields may be
    missing. *)
Record CartData : Type := mkData
  { d_items : option (list CartLine.t);
    d_totalItems : option JS.number;
    d_totalAmount : option JS.number;
    d_loading : option bool;
    d_error : option (option string) }.

Inductive Action : Type :=
| ADD_ITEM (product : Product.t) (quantity : JS.number)
| REMOVE_ITEM (productId : string)
| UPDATE_QUANTITY (productId : string) (quantity : JS.number)
| CLEAR_CART
| SET_LOADING (payload : bool)
| SET_ERROR (payload : string)
| CLEAR_ERROR
| LOAD_CART (payload : CartData).

(** [items.reduce((sum, item) => sum + item.quantity, 0)] *)
Definition sumQuantity (l : list CartLine.t) : JS.number :=
  reduce (fun sum item => JS.add sum (CartLine.quantity item)) l 0%float.

(** [items.reduce((sum, item) => sum + (item.price * item.quantity), 0)] *)
Definition sumAmount (l : list CartLine.t) : JS.number :=
  reduce (fun sum item =>
            JS.add sum (JS.mul (CartLine.price item) (CartLine.quantity item)))
         l 0%float.

(** [parseFloat(totalAmount.toFixed(2))] *)
Definition round2 (x : JS.number) : JS.number := JS.parseFloat (JS.toFixed2 x).

Definition has_id (productId : string) (item : CartLine.t) : bool :=
  String.eqb (Product._id (CartLine.product item)) productId.

Definition cartReducer (state : CartState) (action : Action) : CartState :=
  match action with
  | ADD_ITEM product quantity =>
      let existingItemIndex := findIndex (has_id (Product._id product)) (items state) in
      let newItems :=
        if (existingItemIndex >=? 0)%Z then
          mapi (fun item index =>
                  if (index =? existingItemIndex)%Z
                  then CartLine.with_quantity item (JS.add (CartLine.quantity item) quantity)
                  else item)
               (items state)
        else
          items state ++
            [ {| CartLine.product := product;
                 CartLine.quantity := quantity;
                 CartLine.price := Product.price product |} ] in
      {| items := newItems;
         totalItems := sumQuantity newItems;
         totalAmount := round2 (sumAmount newItems);
         loading := loading state;
         error := None |}
  | REMOVE_ITEM productId =>
      let newItems := filter (fun item => negb (has_id productId item)) (items state) in
      {| items := newItems;
         totalItems := sumQuantity newItems;
         totalAmount := round2 (sumAmount newItems);
         loading := loading state;
         error := error state |}
  | UPDATE_QUANTITY productId quantity =>
      let newItems :=
        filter (fun item => JS.gt (CartLine.quantity item) 0%float)
          (map (fun item =>
                  if has_id productId item
                  then CartLine.with_quantity item (JS.Math_max 0%float quantity)
                  else item)
               (items state)) in
      {| items := newItems;
         totalItems := sumQuantity newItems;
         totalAmount := round2 (sumAmount newItems);
         loading := loading state;
         error := error state |}
  | CLEAR_CART =>
      {| items := [];
         totalItems := 0%float;
         totalAmount := 0%float;
         loading := loading state;
         error := error state |}
  | SET_LOADING payload =>
      {| items := items state;
         totalItems := totalItems state;
         totalAmount := totalAmount state;
         loading := payload;
         error := error state |}
  | SET_ERROR payload =>
      {| items := items state;
         totalItems := totalItems state;
         totalAmount := totalAmount state;
         loading := false;
         error := Some payload |}
  | CLEAR_ERROR =>
      {| items := items state;
         totalItems := totalItems state;
         totalAmount := totalAmount state;
         loading := loading state;
         error := None |}
  | LOAD_CART payload =>
      {| items := match d_items payload with Some v => v | None => items state end;
         totalItems := match d_totalItems payload with Some v => v | None => totalItems state end;
         totalAmount := match d_totalAmount payload with Some v => v | None => totalAmount state end;
         loading := match d_loading payload with Some v => v | None => loading state end;
         error := match d_error payload with Some v => v | None => error state end |}
  end.

(** The mutation functions the provider exposes; each dispatches one
    action.  [addToCart]'s quantity defaults to 1. *)
Definition addToCart (product : Product.t) (quantity : option JS.number) : Action :=
  ADD_ITEM product (match quantity with Some q => q | None => 1%float end).
Definition removeFromCart (productId : string) : Action := REMOVE_ITEM productId.
Definition updateQuantity (productId : string) (quantity : JS.number) : Action :=
  UPDATE_QUANTITY productId quantity.
Definition clearCart : Action := CLEAR_CART.
Definition clearError : Action := CLEAR_ERROR.

End Cart.

(** ** Vocabulary for stating the cart's properties *)

Module CartSpec.
Import Cart.

(** The lines of a cart that belong to one product id. *)
Definition lines_for (productId : string) (l : list CartLine.t) : list CartLine.t :=
  filter (has_id productId) l.

(** The lines of a cart that belong to other products. *)
Definition lines_besides (productId : string) (l : list CartLine.t) : list CartLine.t :=
  filter (fun item => negb (has_id productId item)) l.

(** The data-model invariant: at most one line per product id. *)
Fixpoint unique_lines (l : list CartLine.t) : bool :=
  match l with
  | [] => true
  | x :: t =>
      negb (existsb (has_id (Product._id (CartLine.product x))) t) && unique_lines t
  end.

Definition newLine (product : Product.t) (quantity : JS.number) : CartLine.t :=
  {| CartLine.product := product;
     CartLine.quantity := quantity;
     CartLine.price := Product.price product |}.

Definition merged (quantity : JS.number) (item : CartLine.t) : CartLine.t :=
  CartLine.with_quantity item (JS.add (CartLine.quantity item) quantity).

(** The three mutations a user of the cart can make. *)
Inductive CartOp : Type :=
| OpAdd (product : Product.t) (quantity : option JS.number)
| OpRemove (productId : string)
| OpUpdate (productId : string) (quantity : JS.number).

Definition op_action (op : CartOp) : Action :=
  match op with
  | OpAdd p q => addToCart p q
  | OpRemove i => removeFromCart i
  | OpUpdate i q => updateQuantity i q
  end.

(** The state after a sequence of calls, starting from the empty cart. *)
Definition run (ops : list CartOp) : CartState :=
  fold_left cartReducer (map op_action ops) initialState.

End CartSpec.

(** ** The booking request sent by the cart store to the booking service *)

Module BookingRequest.
(** One entry of [products]; [price] is what the client declares, if
    anything. *)
Record line : Type := mkLine
  { productId : string;
    quantity : JS.number;
    price : option JS.number }.

Record t : Type := mk
  { products : list line;
    totalAmount : option JS.number }.
End BookingRequest.

(** ** Checkout on the client: [createBooking] of CartContext.js *)

Module Checkout.
Import Cart.

(** The rejection value of the HTTP client, as far as
    [error.response?.data?.error?.message] looks into it. *)
Record ErrorInfo : Type := { message : option string }.
Record ErrorBody : Type := { body_error : option ErrorInfo }.
Record ErrorResponse : Type := { response_data : option ErrorBody }.
Record RequestError : Type := { response : option ErrorResponse }.

Inductive ApiResult (D : Type) : Type :=
| Resolved (data : D)
| Rejected (error : RequestError).
Arguments Resolved {D} data.
Arguments Rejected {D} error.

Inductive Exception : Type :=
| CartIsEmpty                      (* new Error('Cart is empty') *)
| Rethrown (error : RequestError).

(** How the promise of an [async] function settles: fulfilled with what
    the body returns, or rejected with what it throws. *)
Inductive Settlement (D : Type) : Type :=
| FulfilledWith (data : D)
| RejectedWith (e : Exception).
Arguments FulfilledWith {D} data.
Arguments RejectedWith {D} e.

(** What a call hands to its caller at once: an exception thrown
    synchronously, or a promise.  Calling an [async] function always gives
    a promise. *)
Inductive Completion (D : Type) : Type :=
| ThrowsSync (e : Exception)
| ReturnsPromise (settles : Settlement D).
Arguments ThrowsSync {D} e.
Arguments ReturnsPromise {D} settles.

(** What a run of [createBooking] can change or leave behind: the
    reducer's state and the requests that went out on the network. *)
Record World : Type := mkWorld
  { store : CartState;
    network : list BookingRequest.t }.

Definition dispatch (a : Action) (w : World) : World :=
  {| store := cartReducer (store w) a; network := network w |}.

Definition send (request : BookingRequest.t) (w : World) : World :=
  {| store := store w; network := network w ++ [request] |}.

(** [a?.b]: undefined when [a] is. *)
Definition opt_chain {X Y : Type} (a : option X) (f : X -> option Y) : option Y :=
  match a with
  | Some x => f x
  | None => None
  end.

(** [s || fallback] for a string or undefined [s]: the empty string is
    falsy. *)
Definition or_else (s : option string) (fallback : string) : string :=
  match s with
  | Some EmptyString | None => fallback
  | Some v => v
  end.

Definition errorMessage (error : RequestError) : string :=
  or_else
    (opt_chain (opt_chain (opt_chain (response error) response_data) body_error) message)
    "Failed to create booking".

Definition bookingData (state : CartState) : BookingRequest.t :=
  {| BookingRequest.products :=
       map (fun item =>
              {| BookingRequest.productId := Product._id (CartLine.product item);
                 BookingRequest.quantity := CartLine.quantity item;
                 BookingRequest.price := Some (CartLine.price item) |})
           (items state);
     BookingRequest.totalAmount := Some (totalAmount state) |}.

(** [createBooking], an [async] function; [api] is
    [userAPI.createBooking]. *)
Definition createBooking {D : Type}
    (api : BookingRequest.t -> ApiResult D) (w : World) : World * Completion D :=
  let state := store w in
  if (List.length (items state) =? 0)%nat
  then (w, ReturnsPromise (RejectedWith CartIsEmpty))
  else
    let w := dispatch (SET_LOADING true) w in
    let request := bookingData state in
    let w := send request w in
    match api request with
    | Resolved data =>
        let w := dispatch CLEAR_CART w in
        let w := dispatch (SET_LOADING false) w in       (* finally *)
        (w, ReturnsPromise (FulfilledWith data))
    | Rejected error =>
        let w := dispatch (SET_ERROR (errorMessage error)) w in
        let w := dispatch (SET_LOADING false) w in       (* finally *)
        (w, ReturnsPromise (RejectedWith (Rethrown error)))
    end.

End Checkout.

(** ** Document identifiers *)

Module ObjectId.
(** An ObjectId, kept as its canonical text (what [toString] returns). *)
Definition t := string.

Definition is_hex (c : ascii) : bool :=
  let n := nat_of_ascii c in
  ((48 <=? n) && (n <=? 57)) || ((97 <=? n) && (n <=? 102)) || ((65 <=? n) && (n <=? 70)).

Definition lower (c : ascii) : ascii :=
  let n := nat_of_ascii c in
  if (65 <=? n) && (n <=? 90) then ascii_of_nat (n + 32) else c.

Fixpoint all_hex (s : string) : bool :=
  match s with
  | EmptyString => true
  | String c r => is_hex c && all_hex r
  end.

Fixpoint lowercase (s : string) : string :=
  match s with
  | EmptyString => EmptyString
  | String c r => String (lower c) (lowercase r)
  end.

(** The texts that can be cast to an ObjectId: 24 hexadecimal characters. *)
Definition isHex24 (s : string) : bool :=
  (String.length s =? 24) && all_hex s.

(** Casting a request text to an ObjectId: hexadecimal digits are read
    without regard to case.  [None] is the cast error. *)
Definition cast (s : string) : option t :=
  if isHex24 s then Some (lowercase s) else None.

Definition toString (o : t) : string := o.
Definition eqb (a b : t) : bool := String.eqb a b.
End ObjectId.

(** ** The request validators (validator.js, behind express-validator) *)

Module Validator.

(** A text of one hexadecimal digit or more. *)
Definition hex_digits (s : string) : bool :=
  match s with
  | EmptyString => false
  | String _ _ => ObjectId.all_hex s
  end.

(** [isHexadecimal(str)]: the pattern [/^(0x|0h)?[0-9A-F]+$/i], that is,
    hexadecimal digits, or [0x] or [0h] (in either case) followed by
    hexadecimal digits. *)
Definition isHexadecimal (str : string) : bool :=
  hex_digits str
  || match str with
     | String "0" (String c rest) =>
         (Ascii.eqb c "x" || Ascii.eqb c "X" || Ascii.eqb c "h" || Ascii.eqb c "H")
         && hex_digits rest
     | _ => false
     end.

(** [isMongoId(str)]: [isHexadecimal(str) && str.length === 24]. *)
Definition isMongoId (str : string) : bool :=
  isHexadecimal str && (String.length str =? 24).

End Validator.

(** ** The catalog: Product documents *)

Module ProductDoc.
Record t : Type := mk
  { _id : ObjectId.t;
    name : string;
    price : JS.number;
    inStock : bool }.
End ProductDoc.

(** ** src/models/Booking.js *)

Module Booking.

Inductive Status : Type := pending | confirmed | completed | cancelled.

Record line : Type := mkLine
  { productId : option ObjectId.t;   (* None: missing, or not castable *)
    quantity : JS.number;
    price : JS.number }.

Record t : Type := mk
  { userId : option ObjectId.t;
    products : list line;
    totalAmount : option JS.number;
    status : Status }.

(** What [new Booking({...})] is given. *)
Record input_line : Type := mkInputLine
  { in_productId : string;
    in_quantity : JS.number;
    in_price : JS.number }.

(** [new Booking({ userId, products, totalAmount })]: identifiers are
    cast, [status] takes its default. *)
Definition new (userId : option string) (products : list input_line)
    (totalAmount : option JS.number) : t :=
  {| userId := match userId with Some u => ObjectId.cast u | None => None end;
     products :=
       map (fun p => {| productId := ObjectId.cast (in_productId p);
                        quantity := in_quantity p;
                        price := in_price p |})
           products;
     totalAmount := totalAmount;
     status := pending |}.

(** The schema's validators. *)
Definition valid_quantity (q : JS.number) : bool :=
  JS.ge q 1%float && JS.Number_isInteger q.

Definition valid_amount (v : JS.number) : bool :=
  JS.ge v 0%float && (JS.Number_isFinite v && JS.ge v 0%float).

Definition valid_line (l : line) : bool :=
  match productId l with Some _ => true | None => false end
  && valid_quantity (quantity l)
  && valid_amount (price l).

Definition validate (b : t) : bool :=
  match userId b with Some _ => true | None => false end
  && forallb valid_line (products b)
  && match totalAmount b with Some v => valid_amount v | None => true end
  && (0 <? List.length (products b))%nat.

(** [this.products.reduce((total, product) =>
       total + (product.price * product.quantity), 0)] *)
Definition linesTotal (ls : list line) : JS.number :=
  reduce (fun total product => JS.add total (JS.mul (price product) (quantity product)))
         ls 0%float.

(** The virtual [totalItems]. *)
Definition totalItems (b : t) : JS.number :=
  reduce (fun total product => JS.add total (quantity product)) (products b) 0%float.

(** [bookingSchema.pre('save', ...)] *)
Definition preSave (b : t) : t :=
  if (0 <? List.length (products b))%nat then
    {| userId := userId b;
       products := products b;
       totalAmount := Some (linesTotal (products b));
       status := status b |}
  else b.

(** [booking.save()] against the stored bookings: validation runs first,
    then the pre-save hook, then the document is written.  [None] is a
    rejected save; nothing is written then. *)
Definition save (b : t) (stored : list t) : option (t * list t) :=
  if validate b then
    let b' := preSave b in Some (b', stored ++ [b'])
  else None.

End Booking.

(** ** src/routes/user.js: POST /api/user/bookings *)

Module UserRoutes.

Record Database : Type := mkDb
  { catalog : list ProductDoc.t;     (* the Product collection *)
    bookings : list Booking.t }.     (* the Booking collection *)

Inductive ErrorCode : Type :=
| VALIDATION_ERROR
| PRODUCTS_NOT_AVAILABLE
| BOOKING_CREATE_ERROR.

Inductive Body : Type :=
| Success (booking : Booking.t) (message : string)
| Failure (message : string) (code : ErrorCode).

Record Response : Type := json { http_status : Z; body : Body }.

(** [isInt({ min: 1 })]: the value's text is a plain run of digits and
    the integer is at least 1. *)
Definition isInt_min1 (q : JS.number) : bool :=
  JS.Number_isInteger q && JS.ge q 1%float && JS.lt q 1e21%float.

(** The validation chain of the route. *)
Definition validationPasses (req : BookingRequest.t) : bool :=
  (1 <=? List.length (BookingRequest.products req))%nat
  && forallb (fun p => Validator.isMongoId (BookingRequest.productId p))
             (BookingRequest.products req)
  && forallb (fun p => isInt_min1 (BookingRequest.quantity p))
             (BookingRequest.products req).

(** Casting the ids of an [$in] query, as the query does before it runs;
    [None] is the CastError of an id that cannot be cast. *)
Fixpoint castIds (ids : list string) : option (list ObjectId.t) :=
  match ids with
  | [] => Some []
  | id :: rest =>
      match ObjectId.cast id, castIds rest with
      | Some o, Some os => Some (o :: os)
      | _, _ => None
      end
  end.

(** [Product.find({ _id: { $in: productIds }, inStock: true })] *)
Definition Product_find_inStock (productIds : list string) (catalog : list ProductDoc.t)
    : list ProductDoc.t :=
  filter (fun p =>
            existsb (fun id => match ObjectId.cast id with
                               | Some o => ObjectId.eqb o (ProductDoc._id p)
                               | None => false
                               end) productIds
            && ProductDoc.inStock p)
         catalog.

(** [products.map(orderProduct => ...)]; [None] when [find] comes back
    undefined for some line, so that reading [product.price] throws. *)
Fixpoint bookingProducts (products : list BookingRequest.line)
    (existingProducts : list ProductDoc.t) : option (list Booking.input_line) :=
  match products with
  | [] => Some []
  | orderProduct :: rest =>
      match find_first
              (fun p => String.eqb (ObjectId.toString (ProductDoc._id p))
                                   (BookingRequest.productId orderProduct))
              existingProducts with
      | None => None
      | Some product =>
          match bookingProducts rest existingProducts with
          | None => None
          | Some lines =>
              Some ({| Booking.in_productId := BookingRequest.productId orderProduct;
                       Booking.in_quantity := BookingRequest.quantity orderProduct;
                       Booking.in_price := ProductDoc.price product |} :: lines)
          end
      end
  end.

Definition serverError (db : Database) : Response * Database :=
  (json 500 (Failure "Failed to create booking" BOOKING_CREATE_ERROR), db).

(** The store operations the handler awaits may reject (storage
    unavailable, ...); this says which of them do. *)
Record StoreFaults : Type := mkFaults
  { find_rejects : bool;        (* Product.find(...) *)
    save_rejects : bool;        (* booking.save() *)
    populate_rejects : bool }.  (* booking.populate(...) *)

Definition noFaults : StoreFaults :=
  {| find_rejects := false; save_rejects := false; populate_rejects := false |}.

(** The handler; [userId] is [req.user.userId], [req] is [req.body].
    Whatever is thrown or rejected inside the [try] ends in the [catch]
    block, which answers 500 and leaves what was written as it is.  The
    booking in the reply is shown with its product references as stored;
    their expansion by [populate] changes nothing that is written. *)
Definition createBookingWith (faults : StoreFaults)
    (userId : string) (req : BookingRequest.t) (db : Database)
    : Response * Database :=
  if negb (validationPasses req) then
    (json 400 (Failure "Validation failed" VALIDATION_ERROR), db)
  else
    let products := BookingRequest.products req in
    let productIds := map BookingRequest.productId products in
    match castIds productIds with
    | None => serverError db
    | Some _ =>
        if find_rejects faults then serverError db
        else
          let existingProducts := Product_find_inStock productIds (catalog db) in
          if negb (List.length existingProducts =? List.length productIds)%nat then
            (json 400 (Failure "One or more products are not available"
                               PRODUCTS_NOT_AVAILABLE), db)
          else
            match bookingProducts products existingProducts with
            | None => serverError db
            | Some lines =>
                let booking := Booking.new (Some userId) lines None in
                if save_rejects faults then serverError db
                else
                  match Booking.save booking (bookings db) with
                  | None => serverError db
                  | Some (saved, stored) =>
                      let written := {| catalog := catalog db; bookings := stored |} in
                      if populate_rejects faults then serverError written
                      else (json 201 (Success saved "Booking created successfully"),
                            written)
                  end
            end
    end.

(** The handler over a store whose operations all complete. *)
Definition createBooking (userId : string) (req : BookingRequest.t) (db : Database)
    : Response * Database :=
  createBookingWith noFaults userId req db.

End UserRoutes.

(** ** Vocabulary for stating the booking service's properties *)

Module BookingSpec.

(** What the service reads of a requested line: the product id and the
    quantity.  The declared price is not part of it. *)
Definition requested (r : BookingRequest.line) : string * JS.number :=
  (BookingRequest.productId r, BookingRequest.quantity r).

(** A requested id is available when an in-stock catalog product carries
    it. *)
Definition available (catalog : list ProductDoc.t) (id : string) : bool :=
  existsb (fun p => match ObjectId.cast id with
                    | Some o => ObjectId.eqb o (ProductDoc._id p) && ProductDoc.inStock p
                    | None => false
                    end) catalog.

(** The distinct ids among the requested ones. *)
Definition distinct_ids (ids : list string) : list string :=
  nodup string_dec (map ObjectId.lowercase ids).

(** [{ ...booking, totalAmount: v }] *)
Definition with_totalAmount (b : Booking.t) (v : option JS.number) : Booking.t :=
  {| Booking.userId := Booking.userId b;
     Booking.products := Booking.products b;
     Booking.totalAmount := v;
     Booking.status := Booking.status b |}.

(** How a stored line relates to the requested line it was built from. *)
Definition snapshot_of (existing : list ProductDoc.t) (r : BookingRequest.line)
    (l : Booking.input_line) : Prop :=
  Booking.in_productId l = BookingRequest.productId r
  /\ Booking.in_quantity l = BookingRequest.quantity r
  /\ exists product,
       find_first (fun p => String.eqb (ObjectId.toString (ProductDoc._id p))
                                       (BookingRequest.productId r)) existing
         = Some product
       /\ Booking.in_price l = ProductDoc.price product.

(** How a persisted line relates to the requested line it answers:
    [fetched] is what the catalog query returned. *)
Definition stored_snapshot (catalog fetched : list ProductDoc.t)
    (r : BookingRequest.line) (l : Booking.line) : Prop :=
  Booking.productId l = ObjectId.cast (BookingRequest.productId r)
  /\ Booking.quantity l = BookingRequest.quantity r
  /\ exists product,
       In product catalog
       /\ ProductDoc.inStock product = true
       /\ ObjectId.toString (ProductDoc._id product) = BookingRequest.productId r
       /\ find_first (fun p => String.eqb (ObjectId.toString (ProductDoc._id p))
                                          (BookingRequest.productId r)) fetched
          = Some product
       /\ Booking.price l = ProductDoc.price product.

(** Document ids are unique within the Product collection. *)
Definition unique_catalog (catalog : list ProductDoc.t) : Prop :=
  NoDup (map ProductDoc._id catalog).

(** The reply to a request that fails the availability check. *)
Definition notAvailable : UserRoutes.Response :=
  UserRoutes.json 400
    (UserRoutes.Failure "One or more products are not available"
                        UserRoutes.PRODUCTS_NOT_AVAILABLE).

End BookingSpec.

(** ** Sample data: the scenarios of the test suites *)

Module Samples.
Open Scope string_scope.
Open Scope float_scope.

Definition productA : Product.t :=
  {| Product._id := "1"; Product.name := "Product A"; Product.image := "";
     Product.category := "test"; Product.price := 10 |}.

Definition productB : Product.t :=
  {| Product._id := "2"; Product.name := "Product B"; Product.image := "";
     Product.category := "test"; Product.price := 15.5 |}.

Definition lineA : CartLine.t :=
  {| CartLine.product := productA; CartLine.quantity := 2; CartLine.price := 10 |}.

Definition lineA_default : CartLine.t :=
  {| CartLine.product := productA; CartLine.quantity := 1; CartLine.price := 10 |}.

Definition lineB : CartLine.t :=
  {| CartLine.product := productB; CartLine.quantity := 1; CartLine.price := 15.5 |}.

(** The cart [A x 2, B x 1]. *)
Definition cartAB : Cart.CartState :=
  CartSpec.run [CartSpec.OpAdd productA (Some 2); CartSpec.OpAdd productB None].

Definition idA : string := "507f1f77bcf86cd799439011".
Definition idB : string := "507f1f77bcf86cd799439012".
Definition idC : string := "507f1f77bcf86cd799439013".
Definition userId : string := "507f1f77bcf86cd799439099".

(** A catalog: A costs 25.99 and B 15.50, both in stock; C is out of
    stock. *)
Definition db : UserRoutes.Database :=
  {| UserRoutes.catalog :=
       [ {| ProductDoc._id := idA; ProductDoc.name := "A";
            ProductDoc.price := 25.99; ProductDoc.inStock := true |};
         {| ProductDoc._id := idB; ProductDoc.name := "B";
            ProductDoc.price := 15.5; ProductDoc.inStock := true |};
         {| ProductDoc._id := idC; ProductDoc.name := "C";
            ProductDoc.price := 15; ProductDoc.inStock := false |} ];
     UserRoutes.bookings := [] |}.

Definition order (id : string) (quantity : JS.number) (price : option JS.number)
    : BookingRequest.line :=
  {| BookingRequest.productId := id;
     BookingRequest.quantity := quantity;
     BookingRequest.price := price |}.

(** Product A at a forged price of 0.01, with a forged total. *)
Definition forgedRequest : BookingRequest.t :=
  {| BookingRequest.products := [order idA 1 (Some 0.01)];
     BookingRequest.totalAmount := Some 0.01 |}.

(** Product A on two lines. *)
Definition repeatedRequest : BookingRequest.t :=
  {| BookingRequest.products := [order idA 1 None; order idA 2 None];
     BookingRequest.totalAmount := None |}.

(** The out-of-stock product C. *)
Definition outOfStockRequest : BookingRequest.t :=
  {| BookingRequest.products := [order idA 1 None; order idC 1 None];
     BookingRequest.totalAmount := None |}.

(** A booking of two lines, quantities 2 and 1 at 10.00 and 15.50, with a
    total of 0 supplied by the caller. *)
Definition bookingAB : Booking.t :=
  Booking.new (Some userId)
    [ {| Booking.in_productId := idA; Booking.in_quantity := 2; Booking.in_price := 10 |};
      {| Booking.in_productId := idB; Booking.in_quantity := 1; Booking.in_price := 15.5 |} ]
    (Some 0).

(** What the forged request leaves in the Booking collection. *)
Definition savedForged : Booking.t :=
  {| Booking.userId := Some userId;
     Booking.products :=
       [ {| Booking.productId := Some idA; Booking.quantity := 1; Booking.price := 25.99 |} ];
     Booking.totalAmount := Some 25.99;
     Booking.status := Booking.pending |}.

Definition emptyWorld : Checkout.World :=
  {| Checkout.store := Cart.initialState; Checkout.network := [] |}.

Definition worldAB : Checkout.World :=
  {| Checkout.store := cartAB; Checkout.network := [] |}.

Definition noApi : BookingRequest.t -> Checkout.ApiResult unit :=
  fun _ => Checkout.Resolved tt.

(** A service that answers every request with the 400 reply for products
    that are not available. *)
Definition failingApi : BookingRequest.t -> Checkout.ApiResult unit :=
  fun _ =>
    Checkout.Rejected
      {| Checkout.response :=
           Some {| Checkout.response_data :=
                     Some {| Checkout.body_error :=
                               Some {| Checkout.message :=
                                         Some "One or more products are not available" |} |} |} |}.

(** A service that cannot be reached: the rejection has no response. *)
Definition unreachableApi : BookingRequest.t -> Checkout.ApiResult unit :=
  fun _ => Checkout.Rejected {| Checkout.response := None |}.

End Samples.

(** ** More built-ins: text *)

Module JSString.

(** [s.startsWith(prefix)] *)
Fixpoint startsWith (s prefix : string) : bool :=
  match prefix, s with
  | EmptyString, _ => true
  | String c p, String d r => Ascii.eqb c d && startsWith r p
  | String _ _, EmptyString => false
  end.

(** [s.slice(n)] for [0 <= n]. *)
Fixpoint slice_from (n : nat) (s : string) : string :=
  match n, s with
  | O, _ => s
  | S k, String _ r => slice_from k r
  | S _, EmptyString => EmptyString
  end.

(** [s.replace(pattern, replacement)] for a text [pattern] and a
    [replacement] without dollar signs: the first occurrence is replaced,
    nothing else. *)
Fixpoint replace (s pattern replacement : string) : string :=
  if startsWith s pattern
  then String.append replacement (slice_from (String.length pattern) s)
  else match s with
       | EmptyString => EmptyString
       | String c r => String c (replace r pattern replacement)
       end.

(** A text is truthy unless it is empty. *)
Definition truthy (s : string) : bool :=
  match s with
  | EmptyString => false
  | String _ _ => true
  end.

End JSString.

(** ** The Cart panel: the component that renders the cart and calls the store *)

Module CartPanel.
Import Cart Checkout.

(** [handleQuantityChange(productId, newQuantity)] *)
Definition handleQuantityChange (productId : string) (newQuantity : JS.number) : Action :=
  if JS.lt newQuantity 1%float
  then removeFromCart productId
  else updateQuantity productId newQuantity.

(** The panel's own state. *)
Record PanelState : Type := mkPanel
  { isCreatingBooking : bool;
    bookingSuccess : bool }.

(** [handleCreateBooking], up to the end of its [finally] block (the timer
    that later hides the success banner is left out). *)
Definition handleCreateBooking {D : Type} (isAuthenticated : bool)
    (api : BookingRequest.t -> ApiResult D) (w : World) (panel : PanelState)
    : World * PanelState :=
  if negb isAuthenticated then (w, panel)               (* alert(...); return *)
  else
    let panel := {| isCreatingBooking := true; bookingSuccess := bookingSuccess panel |} in
    match createBooking api w with                       (* try { await ... } *)
    | (w', ReturnsPromise (FulfilledWith _)) =>
        (w', {| isCreatingBooking := false; bookingSuccess := true |})
    | (w', ReturnsPromise (RejectedWith _))
    | (w', ThrowsSync _) =>                              (* catch: console.error *)
        (w', {| isCreatingBooking := false; bookingSuccess := bookingSuccess panel |})
    end.

End CartPanel.

(** ** src/middleware/auth.js *)

Module Auth.

(** The payload of a verified token, as far as the routes read it. *)
Record TokenPayload : Type := mkPayload
  { userId : string;
    email : string }.

(** [jwt.verify(token, secret)]: the decoded payload, or an error thrown,
    told apart by its [name]. *)
Inductive VerifyResult : Type :=
| Decoded (payload : TokenPayload)
| Throws (name : string).

Inductive AuthCode : Type :=
| NO_TOKEN
| TOKEN_BLACKLISTED
| INVALID_TOKEN
| TOKEN_EXPIRED
| AUTH_ERROR.

(** [res.status(status).json({ success: false, error: { message, code } })] *)
Record Denial : Type := deny
  { status : Z;
    message : string;
    code : AuthCode }.

Inductive Outcome : Type :=
| Next (user : TokenPayload)                       (* req.user = decoded; next() *)
| Reply (denial : Denial).

Definition auth (verify : string -> VerifyResult) (tokenBlacklist : list string)
    (authHeader : option string) : Outcome :=
  match authHeader with
  | None => Reply (deny 401 "Access denied. No token provided." NO_TOKEN)
  | Some authHeader =>
      if negb (JSString.truthy authHeader) || negb (JSString.startsWith authHeader "Bearer ")
      then Reply (deny 401 "Access denied. No token provided." NO_TOKEN)
      else
        let token := JSString.replace authHeader "Bearer " "" in
        if existsb (String.eqb token) tokenBlacklist
        then Reply (deny 401 "Token has been invalidated" TOKEN_BLACKLISTED)
        else
          match verify token with
          | Decoded decoded => Next decoded
          | Throws name =>
              if String.eqb name "JsonWebTokenError"
              then Reply (deny 401 "Invalid token" INVALID_TOKEN)
              else if String.eqb name "TokenExpiredError"
              then Reply (deny 401 "Token has expired" TOKEN_EXPIRED)
              else Reply (deny 500 "Authentication failed" AUTH_ERROR)
          end
  end.

End Auth.

(** ** src/src/utils/api.js: the interceptors of the HTTP client *)

Module ApiClient.

(** The entries of local storage the client code uses. *)
Record LocalStorage : Type := mkStorage
  { token : option string;
    user : option string;
    cart : option string }.

(** The request interceptor: the [Authorization] header it sets, if any. *)
Definition authorizationHeader (storage : LocalStorage) : option string :=
  match token storage with
  | Some t => if JSString.truthy t then Some (String.append "Bearer " t) else None
  | None => None
  end.

(** The response interceptor's error branch: [status] is
    [error.response?.status]; the second component tells whether the page is
    sent to [/login]. *)
Definition onResponseError (status : option Z) (storage : LocalStorage)
    : LocalStorage * bool :=
  match status with
  | Some 401%Z => ({| token := None; user := None; cart := cart storage |}, true)
  | _ => (storage, false)
  end.

End ApiClient.

(** ** The user router: every route behind [router.use(auth)] *)

Module UserRouter.

(** POST /api/user/bookings as a client reaches it: the middleware's reply,
    or the handler's. *)
Definition postBookings (verify : string -> Auth.VerifyResult) (tokenBlacklist : list string)
    (authHeader : option string) (body : BookingRequest.t) (db : UserRoutes.Database)
    : (Auth.Denial + UserRoutes.Response) * UserRoutes.Database :=
  match Auth.auth verify tokenBlacklist authHeader with
  | Auth.Next user =>
      let (response, db') := UserRoutes.createBooking (Auth.userId user) body db in
      (inr response, db')
  | Auth.Reply denial => (inl denial, db)
  end.

End UserRouter.

(** ** Vocabulary for the cart's invariants *)

Module CartInvariant.
Import Cart.

Definition is_load (action : Action) : bool :=
  match action with
  | LOAD_CART _ => true
  | _ => false
  end.

(** The cached totals agree with the items. *)
Definition totals_agree (state : CartState) : Prop :=
  totalItems state = sumQuantity (items state)
  /\ totalAmount state = round2 (sumAmount (items state)).

End CartInvariant.

(** ** Vocabulary for the route's acceptance conditions *)

Module RouteSpec.

(** An id in the form the server prints: 24 hexadecimal digits, letters in
    lower case. *)
Definition canonical_id (id : string) : bool :=
  ObjectId.isHex24 id && String.eqb (ObjectId.lowercase id) id.

(** Every in-stock product of the catalog has a price the Booking schema
    accepts: finite and not negative, as the Product schema requires. *)
Definition priced_catalog (catalog : list ProductDoc.t) : bool :=
  forallb (fun p => negb (ProductDoc.inStock p) || Booking.valid_amount (ProductDoc.price p))
          catalog.

End RouteSpec.

(** ** Sample data for the whole path from cart to booking *)

Module Samples2.
Open Scope string_scope.
Open Scope float_scope.

(** Product A of the sample catalog, as the client receives it. *)
Definition catalogProductA : Product.t :=
  {| Product._id := Samples.idA; Product.name := "A"; Product.image := "";
     Product.category := "food"; Product.price := 25.99 |}.

(** A cart holding three of it. *)
Definition cartA3 : Cart.CartState :=
  CartSpec.run [CartSpec.OpAdd catalogProductA (Some 3)].

(** The booking the service writes for that cart. *)
Definition savedA3 : Booking.t :=
  {| Booking.userId := Some Samples.userId;
     Booking.products :=
       [ {| Booking.productId := Some Samples.idA; Booking.quantity := 3;
            Booking.price := 25.99 |} ];
     Booking.totalAmount := Some (25.99 * 3);
     Booking.status := Booking.pending |}.

Definition payload : Auth.TokenPayload :=
  {| Auth.userId := Samples.userId; Auth.email := "john@example.com" |}.

(** A verifier that knows one good token and one expired one. *)
Definition verify (token : string) : Auth.VerifyResult :=
  if String.eqb token "good" then Auth.Decoded payload
  else if String.eqb token "old" then Auth.Throws "TokenExpiredError"
  else Auth.Throws "JsonWebTokenError".

Definition storage : ApiClient.LocalStorage :=
  {| ApiClient.token := Some "good"; ApiClient.user := Some "{}";
     ApiClient.cart := Some "{}" |}.

End Samples2.

(** ** From the cart to the service and back *)

Module Wire.

(** A cart line the service's validation lets through: the product id in
    the form the server prints, the quantity a whole number of at least
    1. *)
Definition bookable_line (item : CartLine.t) : bool :=
  RouteSpec.canonical_id (Product._id (CartLine.product item))
  && UserRoutes.isInt_min1 (CartLine.quantity item).

Definition reply_status (reply : Auth.Denial + UserRoutes.Response) : Z :=
  match reply with
  | inl denial => Auth.status denial
  | inr response => UserRoutes.http_status response
  end.

(** [error.response.data] for a reply the HTTP client rejects with. *)
Definition reply_error (reply : Auth.Denial + UserRoutes.Response) : Checkout.ErrorBody :=
  match reply with
  | inl denial =>
      {| Checkout.body_error := Some {| Checkout.message := Some (Auth.message denial) |} |}
  | inr response =>
      match UserRoutes.body response with
      | UserRoutes.Failure message _ =>
          {| Checkout.body_error := Some {| Checkout.message := Some message |} |}
      | UserRoutes.Success _ _ => {| Checkout.body_error := None |}
      end
  end.

(** [userAPI.createBooking], i.e. [api.post('/user/bookings', bookingData)],
    against this server: the request interceptor sets the header, the user
    router answers, and the HTTP client resolves on a 2xx status and rejects
    on any other. *)
Definition userAPI_createBooking (verify : string -> Auth.VerifyResult)
    (tokenBlacklist : list string) (storage : ApiClient.LocalStorage)
    (db : UserRoutes.Database) (bookingData : BookingRequest.t)
    : Checkout.ApiResult (Auth.Denial + UserRoutes.Response) :=
  let reply :=
    fst (UserRouter.postBookings verify tokenBlacklist
           (ApiClient.authorizationHeader storage) bookingData db) in
  if (200 <=? reply_status reply)%Z && (reply_status reply <? 300)%Z
  then Checkout.Resolved reply
  else Checkout.Rejected
         {| Checkout.response := Some {| Checkout.response_data := Some (reply_error reply) |} |}.

End Wire.

(** ** Vocabulary for the catalog's ids *)

Module CatalogSpec.

(** Every document id of the catalog is in the printed form: letters in
    lower case. *)
Definition canonical_catalog (catalog : list ProductDoc.t) : bool :=
  forallb (fun p => String.eqb (ObjectId.lowercase (ProductDoc._id p)) (ProductDoc._id p))
          catalog.

End CatalogSpec.

(** ** What the totals mean *)

Module Meaning.

(** The sum of [f] over a list, taken in the list's order: the empty sum
    is 0, and the sum over a list that ends in [x] is the sum over what
    comes before, plus [f x]. *)
Definition sum_over {X : Type} (f : X -> JS.number) (l : list X) : JS.number :=
  fold_right (fun x before => JS.add before (f x)) 0%float (rev l).

(** The sum of the quantities of a cart's lines. *)
Definition quantity_sum (l : list CartLine.t) : JS.number :=
  sum_over CartLine.quantity l.

(** The sum of price times quantity over a cart's lines. *)
Definition amount_sum (l : list CartLine.t) : JS.number :=
  sum_over (fun item => JS.mul (CartLine.price item) (CartLine.quantity item)) l.

(** The sum of price times quantity over a booking's lines. *)
Definition lines_sum (l : list Booking.line) : JS.number :=
  sum_over (fun line => JS.mul (Booking.price line) (Booking.quantity line)) l.

(** [n] hundredths is the amount nearest to [m * 2^e]: [n] is a whole
    number with [n - 1/2 <= 100 * m * 2^e < n + 1/2], so that of two
    equally near ones it is the larger. *)
Definition nearest_hundredths_to (m : positive) (e : Z) (n : Z) : Prop :=
  if (0 <=? e)%Z then n = (100 * Z.pos m * 2 ^ e)%Z
  else ((2 * n - 1) * 2 ^ (- e) <= 200 * Z.pos m < (2 * n + 1) * 2 ^ (- e))%Z.

(** The number nearest to [n / 100], negated if [neg]. *)
Definition hundredths_as_number (neg : bool) (n : Z) : JS.number :=
  match n with
  | Z.pos p => SF2Prim (SFdiv prec emax (S754_finite neg p 0) (S754_finite false 100 0))
  | _ => if neg then (-0)%float else 0%float
  end.

(** [r] is [x] rounded to two decimals: for a finite [x] other than zero,
    of magnitude [m * 2^e], [r] is the number nearest to [n / 100] for the
    nearest count [n] of hundredths, with the sign of [x]; where [x] is a
    whole number ([0 <= e]) it may be taken as it is.  Zero rounds to 0;
    NaN and the infinities are left as they are. *)
Definition rounded_to_2_decimals (x r : JS.number) : Prop :=
  match Prim2SF x with
  | S754_nan => r = nan
  | S754_infinity _ => r = x
  | S754_zero _ => r = 0%float
  | S754_finite s m e =>
      exists n, nearest_hundredths_to m e n
                /\ (r = hundredths_as_number s n \/ ((0 <= e)%Z /\ r = x))
  end.

(** The cached totals of a cart state are what its items give. *)
Definition totals_recomputed (state : Cart.CartState) : Prop :=
  Cart.totalItems state = quantity_sum (Cart.items state)
  /\ rounded_to_2_decimals (amount_sum (Cart.items state)) (Cart.totalAmount state).

(** The message of the server's error envelope inside a rejection,
    [error.response.data.error.message], when every level is there. *)
Definition server_message (error : Checkout.RequestError) : option string :=
  match Checkout.response error with
  | Some {| Checkout.response_data :=
              Some {| Checkout.body_error := Some {| Checkout.message := Some text |} |} |} =>
      Some text
  | _ => None
  end.

(** A rejection that carries the envelope [{ error: { message: text } }]. *)
Definition rejection_with (text : option string) : Checkout.RequestError :=
  {| Checkout.response :=
       Some {| Checkout.response_data :=
                 Some {| Checkout.body_error := Some {| Checkout.message := text |} |} |} |}.

End Meaning.

(** * Properties *)

(** ** Facts about the number built-ins *)

Module JSFacts.
Import JS.

Lemma SFeqb_finite_refl s m e :
  SFeqb (S754_finite s m e) (S754_finite s m e) = true.
Proof.
  unfold SFeqb, SFcompare.
  destruct s; rewrite Z.compare_refl, Pos.compare_cont_refl; reflexivity.
Qed.

Lemma Prim2SF_zero : Prim2SF 0%float = S754_zero false.
Proof. reflexivity. Qed.

Lemma gt_zero_not_nan q : gt q 0%float = true -> PrimFloat.is_nan q = false.
Proof.
  unfold gt, PrimFloat.is_nan. rewrite ltb_spec, eqb_spec, Prim2SF_zero.
  destruct (Prim2SF q) as [s | s | | s m e]; intros H.
  - reflexivity.
  - destruct s; reflexivity.
  - discriminate H.
  - rewrite SFeqb_finite_refl. reflexivity.
Qed.

(** [Math.max(0, q)] is [q] itself for a positive [q]. *)
Lemma Math_max_pos q : gt q 0%float = true -> Math_max 0%float q = q.
Proof.
  intros H. unfold Math_max.
  rewrite (gt_zero_not_nan H).
  replace (PrimFloat.is_nan 0%float) with false by reflexivity.
  unfold gt in H. cbn [orb]. rewrite H. reflexivity.
Qed.

(** [Math.max(0, q)] is positive exactly when [q] is. *)
Lemma Math_max_gt_zero q : gt (Math_max 0%float q) 0%float = gt q 0%float.
Proof.
  destruct (gt q 0%float) eqn:H.
  - rewrite (Math_max_pos H). exact H.
  - unfold Math_max.
    replace (PrimFloat.is_nan 0%float) with false by reflexivity. cbn [orb].
    destruct (PrimFloat.is_nan q); [reflexivity |].
    unfold gt in H. rewrite H.
    destruct (PrimFloat.ltb q 0%float); [reflexivity |].
    replace (is_neg_zero 0%float) with false by reflexivity. reflexivity.
Qed.

(** A number equal to zero is not greater than zero. *)
Lemma eq_zero_not_gt x : strict_eq x 0%float = true -> gt x 0%float = false.
Proof.
  unfold strict_eq, gt. rewrite eqb_spec, ltb_spec, Prim2SF_zero.
  destruct (Prim2SF x) as [s | s | | s m e]; try reflexivity.
  - destruct s; discriminate.
  - unfold SFeqb, SFltb, SFcompare. destruct s; discriminate.
Qed.

(** For [q <= 0], [Math.max(0, q)] is [0]. *)
Lemma Math_max_nonpos q : PrimFloat.leb q 0%float = true -> Math_max 0%float q = 0%float.
Proof.
  intros H. unfold Math_max.
  replace (PrimFloat.is_nan 0%float) with false by reflexivity. cbn [orb].
  replace (is_neg_zero 0%float) with false by reflexivity.
  assert (Hn : PrimFloat.is_nan q = false /\ PrimFloat.ltb 0%float q = false).
  { unfold PrimFloat.is_nan. revert H.
    rewrite leb_spec, eqb_spec, ltb_spec, Prim2SF_zero.
    destruct (Prim2SF q) as [s | s | | s m e]; intros H.
    - split; reflexivity.
    - destruct s; [split; reflexivity | discriminate H].
    - discriminate H.
    - rewrite SFeqb_finite_refl. split; [reflexivity |].
      destruct s; [reflexivity | discriminate H]. }
  destruct Hn as [-> ->].
  destruct (PrimFloat.ltb q 0%float); reflexivity.
Qed.

End JSFacts.

(** ** The code's sums and rounding have the meaning above *)

Module MeaningFacts.
Import Meaning.

Lemma fold_left_is_sum_over {X : Type} (f : X -> JS.number) (l : list X) :
  fold_left (fun sum x => JS.add sum (f x)) l 0%float = sum_over f l.
Proof.
  unfold sum_over.
  exact (eq_sym (fold_left_rev_right (fun x before => JS.add before (f x)) l 0%float)).
Qed.

Lemma sumQuantity_is_quantity_sum (l : list CartLine.t) :
  Cart.sumQuantity l = quantity_sum l.
Proof. apply (fold_left_is_sum_over CartLine.quantity). Qed.

Lemma sumAmount_is_amount_sum (l : list CartLine.t) :
  Cart.sumAmount l = amount_sum l.
Proof.
  apply (fold_left_is_sum_over
           (fun item => JS.mul (CartLine.price item) (CartLine.quantity item))).
Qed.

Lemma linesTotal_is_lines_sum (l : list Booking.line) :
  Booking.linesTotal l = lines_sum l.
Proof.
  apply (fold_left_is_sum_over
           (fun line => JS.mul (Booking.price line) (Booking.quantity line))).
Qed.

(** The count of hundredths that [toFixed(2)] prints is the nearest
    one. *)
Lemma nearest_hundredths_is_nearest (m : positive) (e : Z) :
  nearest_hundredths_to m e (JS.nearest_hundredths m e).
Proof.
  unfold nearest_hundredths_to, JS.nearest_hundredths.
  destruct (0 <=? e)%Z eqn:He; [ring |].
  apply Z.leb_gt in He.
  assert (Hd : (0 < 2 ^ (- e))%Z) by (apply Z.pow_pos_nonneg; lia).
  replace (2 ^ (- e + 1))%Z with (2 * 2 ^ (- e))%Z
    by (rewrite Z.pow_add_r by lia; ring).
  set (d := (2 ^ (- e))%Z) in *.
  pose proof (Z.div_mod (2 * (Z.pos m * 100) + d) (2 * d) ltac:(lia)) as Hdm.
  pose proof (Z.mod_pos_bound (2 * (Z.pos m * 100) + d) (2 * d) ltac:(lia)) as Hmod.
  set (n := ((2 * (Z.pos m * 100) + d) / (2 * d))%Z) in *.
  nia.
Qed.

Lemma infinity_is_itself (x : float) (s : bool) :
  Prim2SF x = S754_infinity s -> (if s then neg_infinity else infinity) = x.
Proof.
  intros H. rewrite <- (SF2Prim_Prim2SF x), H. now destruct s.
Qed.

Lemma large_is_whole (x : float) (s : bool) (m : positive) (e : Z) :
  Prim2SF x = S754_finite s m e ->
  PrimFloat.leb 1e21 (PrimFloat.abs x) = true -> (0 <= e)%Z.
Proof.
  intros Hx. rewrite leb_spec, abs_spec, Hx.
  replace (Prim2SF 1e21) with (S754_finite false 7629394531250000 17) by reflexivity.
  cbn [SFabs]. unfold SFleb, SFcompare.
  destruct (Z.compare_spec 17 e) as [E | E | E]; intros H.
  - lia.
  - lia.
  - discriminate H.
Qed.

(** [parseFloat(x.toFixed(2))] is [x] rounded to two decimals. *)
Lemma round2_rounds (x : JS.number) : rounded_to_2_decimals x (Cart.round2 x).
Proof.
  unfold rounded_to_2_decimals, Cart.round2, JS.toFixed2.
  destruct (Prim2SF x) as [s | s | | s m e] eqn:Hx.
  - reflexivity.
  - cbn [JS.parseFloat]. exact (infinity_is_itself x Hx).
  - reflexivity.
  - destruct (PrimFloat.leb 1e21 (PrimFloat.abs x)) eqn:Hbig.
    + pose proof (large_is_whole Hx Hbig) as He.
      exists (100 * Z.pos m * 2 ^ e)%Z. split.
      * unfold nearest_hundredths_to.
        now destruct (Z.leb_spec 0 e); [| lia].
      * right. split; [exact He | reflexivity].
    + exists (JS.nearest_hundredths m e). split.
      * apply nearest_hundredths_is_nearest.
      * left. reflexivity.
Qed.

(** The rounding leaves no choice where it matters: 0.125 rounds to 0.13
    and to nothing else, and 1.005, which as a double lies below 1.005,
    rounds to 1. *)
Example rounding_scenarios (r : JS.number) :
  (rounded_to_2_decimals 0.125%float r -> r = 0.13%float)
  /\ (rounded_to_2_decimals 1.005%float r -> r = 1%float).
Proof.
  split; unfold rounded_to_2_decimals.
  - replace (Prim2SF 0.125%float) with (S754_finite false 4503599627370496 (-55)) by reflexivity.
    intros (n & Hn & Hr). unfold nearest_hundredths_to in Hn.
    change (0 <=? -55)%Z with false in Hn.
    change (2 ^ (- -55))%Z with 36028797018963968%Z in Hn. cbv iota in Hn.
    assert (n = 13%Z) by lia. subst n.
    destruct Hr as [-> | [He _]]; [reflexivity | lia].
  - replace (Prim2SF 1.005%float) with (S754_finite false 4526117625507348 (-52)) by reflexivity.
    intros (n & Hn & Hr). unfold nearest_hundredths_to in Hn.
    change (0 <=? -52)%Z with false in Hn.
    change (2 ^ (- -52))%Z with 4503599627370496%Z in Hn. cbv iota in Hn.
    assert (n = 100%Z) by lia. subst n.
    destruct Hr as [-> | [He _]]; [reflexivity | lia].
Qed.

End MeaningFacts.

(** ** Facts about the array helpers *)

Section ArrayFacts.
Context {A : Type}.
Variable f : A -> bool.

Lemma findIndex_from_none (l : list A) (i : Z) :
  existsb f l = false -> findIndex_from f l i = (-1)%Z.
Proof.
  revert i. induction l as [| x t IH]; intros i H; simpl in *.
  - reflexivity.
  - apply orb_false_iff in H. destruct H as [Hx Ht].
    rewrite Hx. now apply IH.
Qed.

Lemma findIndex_from_some (l : list A) (i : Z) :
  existsb f l = true -> (i <= findIndex_from f l i)%Z.
Proof.
  revert i. induction l as [| x t IH]; intros i H; simpl in *.
  - discriminate.
  - destruct (f x); [lia |].
    simpl in H. specialize (IH (i + 1)%Z H). lia.
Qed.

Lemma mapi_from_untouched (g : A -> A) (l : list A) (i k : Z) :
  (k < i)%Z ->
  mapi_from (fun item index => if (index =? k)%Z then g item else item) l i = l.
Proof.
  revert i. induction l as [| x t IH]; intros i H; simpl.
  - reflexivity.
  - destruct (Z.eqb_spec i k); [lia |].
    f_equal. apply IH. lia.
Qed.

(** Mapping with "the index found by [findIndex]" rewrites exactly the
    first match. *)
Lemma mapi_from_findIndex (g : A -> A) (l : list A) (i : Z) :
  existsb f l = true ->
  mapi_from (fun item index =>
               if (index =? findIndex_from f l i)%Z then g item else item) l i
  = update_first f g l.
Proof.
  revert i. induction l as [| x t IH]; intros i H; simpl in *.
  - discriminate.
  - destruct (f x) eqn:Hx.
    + rewrite Z.eqb_refl. f_equal. apply mapi_from_untouched. lia.
    + simpl in H. pose proof (findIndex_from_some t (i + 1) H) as Hle.
      destruct (Z.eqb_spec i (findIndex_from f t (i + 1))); [lia |].
      f_equal. now apply IH.
Qed.

Lemma update_first_length (g : A -> A) (l : list A) :
  List.length (update_first f g l) = List.length l.
Proof.
  induction l as [| x t IH]; simpl; [reflexivity |].
  destruct (f x); simpl; congruence.
Qed.
End ArrayFacts.

(** ** The cart reducer *)

Module CartFacts.
Import Cart CartSpec.

Lemma lines_for_none_iff productId l :
  lines_for productId l = [] <-> existsb (has_id productId) l = false.
Proof.
  unfold lines_for. induction l as [| x t IH]; simpl.
  - tauto.
  - destruct (has_id productId x); simpl.
    + split; discriminate.
    + exact IH.
Qed.

(** What ADD_ITEM does to [items], without indices. *)
Lemma ADD_ITEM_items state product quantity :
  items (cartReducer state (ADD_ITEM product quantity)) =
    if existsb (has_id (Product._id product)) (items state)
    then update_first (has_id (Product._id product)) (merged quantity) (items state)
    else items state ++ [newLine product quantity].
Proof.
  cbn [cartReducer items].
  destruct (existsb (has_id (Product._id product)) (items state)) eqn:E.
  - pose proof (findIndex_from_some _ _ 0 E) as Hle.
    unfold findIndex.
    destruct (Z.geb_spec (findIndex_from (has_id (Product._id product)) (items state) 0) 0);
      [| lia].
    unfold mapi. now rewrite (mapi_from_findIndex _ (merged quantity)).
  - unfold findIndex. rewrite (findIndex_from_none _ _ 0 E). reflexivity.
Qed.

Lemma has_id_same_product productId (a b : CartLine.t) :
  CartLine.product a = CartLine.product b -> has_id productId a = has_id productId b.
Proof. unfold has_id. now intros ->. Qed.

Lemma lines_for_update_first productId g l x :
  (forall item, CartLine.product (g item) = CartLine.product item) ->
  unique_lines l = true -> In x l -> has_id productId x = true ->
  lines_for productId (update_first (has_id productId) g l) = [g x]
  /\ lines_besides productId (update_first (has_id productId) g l)
     = lines_besides productId l.
Proof.
  intros Hg. unfold lines_for, lines_besides.
  induction l as [| y t IH]; intros Hu Hin Hx; simpl in *.
  - contradiction.
  - apply andb_true_iff in Hu. destruct Hu as [Hy Hu].
    apply negb_true_iff in Hy.
    destruct (has_id productId y) eqn:Ey.
    + assert (Eid : Product._id (CartLine.product y) = productId)
        by (now apply String.eqb_eq).
      rewrite Eid in Hy.
      assert (x = y) as ->.
      { destruct Hin as [-> | Hin]; [reflexivity |].
        exfalso. assert (existsb (has_id productId) t = true)
          by (apply existsb_exists; eauto). congruence. }
      simpl. rewrite (has_id_same_product productId (g y) y (Hg y)), Ey. simpl.
      split.
      * f_equal. apply lines_for_none_iff. exact Hy.
      * reflexivity.
    + simpl. rewrite Ey. simpl.
      destruct Hin as [-> | Hin]; [congruence |].
      destruct (IH Hu Hin Hx) as [IH1 IH2]. split; [exact IH1 | now f_equal].
Qed.

Lemma has_id_sym (a b : CartLine.t) :
  has_id (Product._id (CartLine.product a)) b = has_id (Product._id (CartLine.product b)) a.
Proof. unfold has_id. apply String.eqb_sym. Qed.

Lemma existsb_filter_false {X : Type} (p q : X -> bool) (l : list X) :
  existsb p l = false -> existsb p (filter q l) = false.
Proof.
  induction l as [| x t IH]; simpl; [reflexivity |].
  intros H. apply orb_false_iff in H. destruct H as [Hx Ht].
  destruct (q x); simpl; [rewrite Hx |]; auto.
Qed.

Lemma unique_lines_filter (q : CartLine.t -> bool) (l : list CartLine.t) :
  unique_lines l = true -> unique_lines (filter q l) = true.
Proof.
  induction l as [| x t IH]; simpl; [reflexivity |].
  intros H. apply andb_true_iff in H. destruct H as [Hx Ht].
  destruct (q x); simpl; [| auto].
  apply andb_true_iff. split; [| auto].
  apply negb_true_iff. apply existsb_filter_false. now apply negb_true_iff.
Qed.

Lemma existsb_has_id_map productId (g : CartLine.t -> CartLine.t) (l : list CartLine.t) :
  (forall item, CartLine.product (g item) = CartLine.product item) ->
  existsb (has_id productId) (map g l) = existsb (has_id productId) l.
Proof.
  intros Hg. induction l as [| x t IH]; simpl; [reflexivity |].
  now rewrite (has_id_same_product productId (g x) x (Hg x)), IH.
Qed.

Lemma unique_lines_map (g : CartLine.t -> CartLine.t) (l : list CartLine.t) :
  (forall item, CartLine.product (g item) = CartLine.product item) ->
  unique_lines (map g l) = unique_lines l.
Proof.
  intros Hg. induction l as [| x t IH]; simpl; [reflexivity |].
  now rewrite Hg, (existsb_has_id_map _ g t Hg), IH.
Qed.

Lemma update_first_as_map productId (g : CartLine.t -> CartLine.t) (l : list CartLine.t) :
  (forall item, CartLine.product (g item) = CartLine.product item) ->
  map CartLine.product (update_first (has_id productId) g l) = map CartLine.product l.
Proof.
  intros Hg. induction l as [| x t IH]; simpl; [reflexivity |].
  destruct (has_id productId x); simpl; [now rewrite Hg | now rewrite IH].
Qed.

Lemma unique_lines_products (l l' : list CartLine.t) :
  map CartLine.product l = map CartLine.product l' -> unique_lines l = unique_lines l'.
Proof.
  revert l'. induction l as [| x t IH]; intros [| x' t'] H; try discriminate; [reflexivity |].
  simpl in H. injection H as Hx Ht. simpl. rewrite Hx, (IH t' Ht). f_equal. f_equal.
  clear - Ht. revert t' Ht. induction t as [| y u IHu]; intros [| y' u'] Ht;
    try discriminate; [reflexivity |].
  simpl in Ht. injection Ht as Hy Hu. simpl.
  now rewrite (has_id_same_product _ y y' Hy), (IHu u' Hu).
Qed.

Lemma unique_lines_append (l : list CartLine.t) (x : CartLine.t) :
  unique_lines l = true ->
  existsb (has_id (Product._id (CartLine.product x))) l = false ->
  unique_lines (l ++ [x]) = true.
Proof.
  induction l as [| y t IH]; simpl; [reflexivity |].
  intros Hu Hx. apply andb_true_iff in Hu. destruct Hu as [Hy Ht].
  apply orb_false_iff in Hx. destruct Hx as [Hxy Hxt].
  apply andb_true_iff. split; [| auto].
  rewrite existsb_app. simpl. rewrite orb_false_r.
  apply negb_true_iff in Hy. rewrite Hy. simpl.
  rewrite has_id_sym, Hxy. reflexivity.
Qed.

Lemma op_keeps_unique_lines state op :
  unique_lines (items state) = true ->
  unique_lines (items (cartReducer state (op_action op))) = true.
Proof.
  intros Hu. destruct op as [product quantity | productId | productId quantity].
  - unfold op_action, addToCart. rewrite ADD_ITEM_items.
    destruct (existsb _ (items state)) eqn:E.
    + rewrite <- Hu. apply unique_lines_products. now apply update_first_as_map.
    + now apply unique_lines_append.
  - cbn [op_action removeFromCart cartReducer items]. now apply unique_lines_filter.
  - cbn [op_action updateQuantity cartReducer items]. apply unique_lines_filter.
    rewrite unique_lines_map; [exact Hu |].
    intros item. now destruct (has_id productId item).
Qed.

(** Every cart the three mutations can produce from the empty cart has at
    most one line per product id. *)
Lemma run_unique_lines (ops : list CartOp) : unique_lines (items (run ops)) = true.
Proof.
  unfold run. induction ops as [| op ops IH] using rev_ind.
  - reflexivity.
  - rewrite map_app, fold_left_app. cbn [map fold_left].
    now apply op_keeps_unique_lines.
Qed.

Lemma op_recomputes_totals state op :
  let state' := cartReducer state (op_action op) in
  totalItems state' = sumQuantity (items state')
  /\ totalAmount state' = round2 (sumAmount (items state')).
Proof. destruct op; split; reflexivity. Qed.

(** Totals computed by the reducer's sums and rounding are the sums and
    the rounding of the data model. *)
Lemma recomputed_totals_meaning (state : CartState) :
  totalItems state = sumQuantity (items state) ->
  totalAmount state = round2 (sumAmount (items state)) ->
  Meaning.totals_recomputed state.
Proof.
  intros Hi Ha. split.
  - rewrite Hi. apply MeaningFacts.sumQuantity_is_quantity_sum.
  - rewrite Ha, <- MeaningFacts.sumAmount_is_amount_sum. apply MeaningFacts.round2_rounds.
Qed.

(** C4: after any sequence of addToCart, removeFromCart and updateQuantity
    calls on the initial empty cart, [totalItems] is the sum of the lines'
    quantities and [totalAmount] is the sum of price times quantity over the
    lines, rounded to two decimals. *)
Theorem totals_recomputable_from_items (ops : list CartOp) :
  totalItems (run ops) = Meaning.quantity_sum (items (run ops))
  /\ Meaning.rounded_to_2_decimals (Meaning.amount_sum (items (run ops)))
                                   (totalAmount (run ops)).
Proof.
  apply recomputed_totals_meaning; unfold run;
    destruct ops as [| op ops] using rev_ind; try reflexivity;
    rewrite map_app, fold_left_app; cbn [map fold_left];
    apply op_recomputes_totals.
Qed.

(** C5: adding a product that already has a line merges into that line:
    the cart (one line per product id) ends with exactly one line for the
    id, its quantity the old one plus the added one, product and price
    untouched, every other line as before; adding an absent product
    appends one line priced at [product.price]; adding the same product
    twice to the empty cart, [a] then [b], leaves one line of quantity
    [a + b]. *)
Theorem addToCart_merges_or_appends
    (state : CartState) (product : Product.t) (quantity a b : JS.number) :
  let productId := Product._id product in
  let state' := cartReducer state (addToCart product (Some quantity)) in
  (forall existing,
      unique_lines (items state) = true ->
      In existing (items state) ->
      has_id productId existing = true ->
      lines_for productId (items state')
        = [ {| CartLine.product := CartLine.product existing;
               CartLine.quantity := JS.add (CartLine.quantity existing) quantity;
               CartLine.price := CartLine.price existing |} ]
      /\ lines_besides productId (items state') = lines_besides productId (items state)
      /\ List.length (items state') = List.length (items state))
  /\ (lines_for productId (items state) = [] ->
      items state'
        = items state ++ [ {| CartLine.product := product;
                              CartLine.quantity := quantity;
                              CartLine.price := Product.price product |} ])
  /\ items (cartReducer (cartReducer initialState (addToCart product (Some a)))
                        (addToCart product (Some b)))
     = [ {| CartLine.product := product;
            CartLine.quantity := JS.add a b;
            CartLine.price := Product.price product |} ].
Proof.
  intros productId state'. split; [| split].
  - intros existing Hu Hin Hid.
    subst state'. unfold addToCart. rewrite ADD_ITEM_items.
    assert (E : existsb (has_id productId) (items state) = true)
      by (apply existsb_exists; eauto).
    fold productId. rewrite E.
    destruct (lines_for_update_first productId (merged quantity) (items state) existing)
      as [L1 L2]; auto.
    split; [exact L1 | split; [exact L2 | apply update_first_length]].
  - intros Habsent. subst state'. unfold addToCart. rewrite ADD_ITEM_items.
    apply lines_for_none_iff in Habsent. fold productId. now rewrite Habsent.
  - unfold addToCart. rewrite !ADD_ITEM_items. cbn [initialState items existsb app].
    cbn [existsb update_first]. unfold has_id at 1 2. cbn [newLine CartLine.product].
    rewrite String.eqb_refl. reflexivity.
Qed.

Lemma addToCart_merges_or_appends_witness :
  unique_lines (items Samples.cartAB) = true
  /\ In Samples.lineA (items Samples.cartAB)
  /\ has_id "1" Samples.lineA = true
  /\ lines_for "1" (items (cartReducer Samples.cartAB (addToCart Samples.productA (Some 3%float))))
     = [ {| CartLine.product := Samples.productA;
            CartLine.quantity := 5%float;
            CartLine.price := 10%float |} ].
Proof.
  split; [reflexivity |]. split; [left; reflexivity |]. split; [reflexivity |].
  apply (proj1 (addToCart_merges_or_appends Samples.cartAB Samples.productA
                  3%float 0%float 0%float) Samples.lineA).
  - reflexivity.
  - left; reflexivity.
  - reflexivity.
Defined.

Lemma lines_for_after_update productId m l :
  lines_for productId
    (filter (fun item => JS.gt (CartLine.quantity item) 0%float)
       (map (fun item =>
               if has_id productId item then CartLine.with_quantity item m else item) l))
  = if JS.gt m 0%float
    then map (fun item => CartLine.with_quantity item m) (lines_for productId l)
    else [].
Proof.
  unfold lines_for. induction l as [| x t IH]; simpl.
  - now destruct (JS.gt m 0%float).
  - destruct (has_id productId x) eqn:Ex; simpl.
    + destruct (JS.gt m 0%float) eqn:Em; simpl.
      * rewrite (has_id_same_product productId (CartLine.with_quantity x m) x eq_refl), Ex.
        now f_equal.
      * exact IH.
    + destruct (JS.gt (CartLine.quantity x) 0%float); simpl; [rewrite Ex |]; exact IH.
Qed.

(** C6: updateQuantity sets the quantity of the product's line(s) to
    [Math.max(0, q)] and keeps them only if that is positive; for a
    positive [q] the line stays with quantity [q]; when the resulting
    quantity is 0, as it is for every [q <= 0], the line is gone; so it is
    for [q = 0] and [q = -1]. *)
Theorem updateQuantity_clamps_and_drops
    (state : CartState) (productId : string) (q : JS.number) :
  let m := JS.Math_max 0%float q in
  let after x := items (cartReducer state (updateQuantity productId x)) in
  lines_for productId (after q)
    = (if JS.gt m 0%float
       then map (fun item => CartLine.with_quantity item m) (lines_for productId (items state))
       else [])
  /\ (JS.gt q 0%float = true ->
      lines_for productId (after q)
        = map (fun item => CartLine.with_quantity item q) (lines_for productId (items state)))
  /\ (JS.strict_eq m 0%float = true -> lines_for productId (after q) = [])
  /\ (JS.ge 0%float q = true -> m = 0%float /\ lines_for productId (after q) = [])
  /\ lines_for productId (after 0%float) = []
  /\ lines_for productId (after (-1)%float) = [].
Proof.
  intros m after.
  assert (H : forall x, lines_for productId (after x)
              = if JS.gt (JS.Math_max 0%float x) 0%float
                then map (fun item => CartLine.with_quantity item (JS.Math_max 0%float x))
                         (lines_for productId (items state))
                else [])
    by (intros x; apply lines_for_after_update).
  split; [apply H |].
  split; [intros Hq; rewrite H, JSFacts.Math_max_gt_zero, Hq, (JSFacts.Math_max_pos Hq);
          reflexivity |].
  split; [intros Hm; rewrite H; fold m; now rewrite (JSFacts.eq_zero_not_gt Hm) |].
  split; [intros Hq; unfold m; rewrite H, (JSFacts.Math_max_nonpos Hq); split; reflexivity |].
  split; rewrite H; reflexivity.
Qed.

Lemma updateQuantity_clamps_and_drops_witness :
  JS.gt 5%float 0%float = true
  /\ lines_for "1" (items (cartReducer Samples.cartAB (updateQuantity "1" 5%float)))
     = map (fun item => CartLine.with_quantity item 5%float)
           (lines_for "1" (items Samples.cartAB)).
Proof.
  split; [reflexivity |].
  apply (proj1 (proj2 (updateQuantity_clamps_and_drops Samples.cartAB "1" 5%float))).
  reflexivity.
Defined.

(** C9: addToCart clears [error] and leaves [loading] alone;
    removeFromCart and updateQuantity leave both [error] and [loading]
    as they were. *)
Theorem mutations_frame
    (state : CartState) (product : Product.t) (quantity : option JS.number)
    (productId : string) (q : JS.number) :
  (error (cartReducer state (addToCart product quantity)) = None
   /\ loading (cartReducer state (addToCart product quantity)) = loading state)
  /\ (error (cartReducer state (removeFromCart productId)) = error state
      /\ loading (cartReducer state (removeFromCart productId)) = loading state)
  /\ (error (cartReducer state (updateQuantity productId q)) = error state
      /\ loading (cartReducer state (updateQuantity productId q)) = loading state).
Proof. repeat split. Qed.

(** C10: for a product with no line in the cart, addToCart appends a line
    carrying exactly the quantity it was given, whatever that is: nothing
    clamps it and nothing drops a non-positive line, so the new line has
    [quantity >= 1] exactly when the caller's quantity has. *)
Theorem addToCart_keeps_given_quantity
    (state : CartState) (product : Product.t) (quantity : JS.number) :
  lines_for (Product._id product) (items state) = [] ->
  let state' := cartReducer state (addToCart product (Some quantity)) in
  items state' = items state ++ [newLine product quantity]
  /\ lines_for (Product._id product) (items state') = [newLine product quantity]
  /\ CartLine.quantity (newLine product quantity) = quantity
  /\ forallb (fun item => JS.ge (CartLine.quantity item) 1%float) (items state')
     = forallb (fun item => JS.ge (CartLine.quantity item) 1%float) (items state)
       && JS.ge quantity 1%float.
Proof.
  intros Habsent state'.
  assert (E : items state' = items state ++ [newLine product quantity]).
  { subst state'. unfold addToCart. rewrite ADD_ITEM_items.
    apply lines_for_none_iff in Habsent. now rewrite Habsent. }
  repeat split.
  - exact E.
  - rewrite E. unfold lines_for in *. rewrite filter_app, Habsent. simpl.
    unfold has_id. cbn [newLine CartLine.product]. now rewrite String.eqb_refl.
  - rewrite E, forallb_app. simpl. now rewrite andb_true_r.
Qed.

Lemma addToCart_keeps_given_quantity_witness :
  lines_for "2" (items (cartReducer initialState (addToCart Samples.productA None))) = []
  /\ items (cartReducer (cartReducer initialState (addToCart Samples.productA None))
                        (addToCart Samples.productB (Some (-1)%float)))
     = [Samples.lineA_default; newLine Samples.productB (-1)%float].
Proof.
  split; [reflexivity |].
  apply (addToCart_keeps_given_quantity
           (cartReducer initialState (addToCart Samples.productA None))
           Samples.productB (-1)%float).
  reflexivity.
Defined.

(** The cart scenario: [A, price 10.00, x 2] and [B, price 15.50, x 1]
    total 3 items and 35.50. *)
Example cart_scenario :
  items Samples.cartAB = [Samples.lineA; Samples.lineB]
  /\ totalItems Samples.cartAB = 3%float
  /\ totalAmount Samples.cartAB = 35.5%float.
Proof. repeat split. Qed.

Example toFixed_scenarios :
  round2 35.5%float = 35.5%float
  /\ round2 (0.1 + 0.2)%float = 0.3%float
  /\ round2 0.125%float = 0.13%float
  /\ round2 1.005%float = 1%float.
Proof. repeat split. Qed.

End CartFacts.

(** ** Checkout on the client *)

Module CheckoutFacts.
Import Cart Checkout.

(** C7, as the code has it: with no items in the cart, createBooking, an
    async function, hands back a promise rejected with 'Cart is empty'; it
    does not throw synchronously.  Nothing is dispatched ([loading] is not
    set), no request goes out, and the cart state is what it was. *)
Theorem createBooking_empty_cart_rejects
    (D : Type) (api : BookingRequest.t -> ApiResult D) (w : World) :
  items (store w) = [] ->
  createBooking api w = (w, ReturnsPromise (RejectedWith CartIsEmpty))
  /\ network (fst (createBooking api w)) = network w
  /\ store (fst (createBooking api w)) = store w
  /\ loading (store (fst (createBooking api w))) = loading (store w).
Proof.
  intros Hempty. unfold createBooking. rewrite Hempty. cbn. repeat split.
Qed.

Lemma createBooking_empty_cart_rejects_witness :
  items (store Samples.emptyWorld) = []
  /\ createBooking Samples.noApi Samples.emptyWorld
     = (Samples.emptyWorld, ReturnsPromise (RejectedWith CartIsEmpty)).
Proof.
  split; [reflexivity |].
  apply (createBooking_empty_cart_rejects Samples.noApi Samples.emptyWorld). reflexivity.
Defined.

(** C7, as worded, fails on the empty initial cart: the call does not
    throw synchronously, it returns a promise (which is rejected). *)
Lemma createBooking_empty_cart_no_synchronous_throw :
  items (store Samples.emptyWorld) = []
  /\ snd (createBooking Samples.noApi Samples.emptyWorld)
     = ReturnsPromise (RejectedWith CartIsEmpty)
  /\ (forall e : Exception,
        snd (createBooking Samples.noApi Samples.emptyWorld) <> ThrowsSync e).
Proof.
  split; [reflexivity |]. split; [reflexivity |].
  intros e H. discriminate H.
Qed.

(** Calling createBooking never throws synchronously, whatever the cart. *)
Lemma createBooking_returns_promise
    (D : Type) (api : BookingRequest.t -> ApiResult D) (w : World) :
  exists settles, snd (createBooking api w) = ReturnsPromise settles.
Proof.
  unfold createBooking.
  destruct (List.length (items (store w)) =? 0)%nat; [now eexists |].
  destruct (api (bookingData (store w))); now eexists.
Qed.

(** C8: with a non-empty cart, exactly one request goes out.  If the
    service call succeeds, the cart ends with no items and both totals 0,
    and the promise is fulfilled with the response data; if it fails, items
    and totals are as before, [error] holds the message of the server's
    error envelope (the fallback 'Failed to create booking' when there is
    none, or when it is empty) and the promise is rejected with the same
    error.  [loading] ends false either way. *)
Theorem createBooking_success_and_failure
    (D : Type) (api : BookingRequest.t -> ApiResult D) (w : World) :
  items (store w) <> [] ->
  let w' := fst (createBooking api w) in
  let outcome := snd (createBooking api w) in
  network w' = network w ++ [bookingData (store w)]
  /\ loading (store w') = false
  /\ match api (bookingData (store w)) with
     | Resolved data =>
         outcome = ReturnsPromise (FulfilledWith data)
         /\ items (store w') = []
         /\ totalItems (store w') = 0%float
         /\ totalAmount (store w') = 0%float
     | Rejected error =>
         outcome = ReturnsPromise (RejectedWith (Rethrown error))
         /\ items (store w') = items (store w)
         /\ totalItems (store w') = totalItems (store w)
         /\ totalAmount (store w') = totalAmount (store w)
         /\ Cart.error (store w')
            = Some match Meaning.server_message error with
                   | Some text =>
                       if String.eqb text "" then "Failed to create booking"%string
                       else text
                   | None => "Failed to create booking"%string
                   end
     end.
Proof.
  intros Hne w' outcome. subst w' outcome. unfold createBooking.
  destruct (items (store w)) as [| x t] eqn:Hitems; [congruence |].
  cbn [List.length Nat.eqb].
  destruct (api (bookingData (store w))) as [data | error]; cbn.
  - repeat split.
  - rewrite Hitems. split; [reflexivity |]. split; [reflexivity |].
    split; [reflexivity |]. split; [reflexivity |]. split; [reflexivity |].
    split; [reflexivity |]. f_equal.
    unfold errorMessage, Meaning.server_message.
    destruct error as [r]. destruct r as [[d] |]; [| reflexivity].
    destruct d as [[be] |]; [| reflexivity].
    destruct be as [[m] |]; [| reflexivity].
    destruct m as [[| c text] |]; reflexivity.
Qed.

Lemma createBooking_success_and_failure_witness :
  items (store Samples.worldAB) <> []
  /\ (let w' := fst (createBooking Samples.failingApi Samples.worldAB) in
      network w' = [bookingData Samples.cartAB]
      /\ loading (store w') = false
      /\ items (store w') = items Samples.cartAB
      /\ Cart.error (store w') = Some "One or more products are not available"%string)
  /\ (let w' := fst (createBooking Samples.unreachableApi Samples.worldAB) in
      items (store w') = items Samples.cartAB
      /\ Cart.error (store w') = Some "Failed to create booking"%string)
  /\ (let w' := fst (createBooking Samples.noApi Samples.worldAB) in
      items (store w') = [] /\ totalAmount (store w') = 0%float).
Proof.
  assert (H : items (store Samples.worldAB) <> []) by (vm_compute; discriminate).
  split; [exact H |].
  pose proof (createBooking_success_and_failure Samples.failingApi Samples.worldAB H) as F.
  pose proof (createBooking_success_and_failure Samples.unreachableApi Samples.worldAB H) as U.
  pose proof (createBooking_success_and_failure Samples.noApi Samples.worldAB H) as S.
  cbv zeta in F, U, S.
  destruct F as (Fn & Fl & _ & Fi & _ & _ & Fe).
  destruct U as (_ & _ & _ & Ui & _ & _ & Ue).
  destruct S as (_ & _ & _ & Si & _ & Sa).
  split; [| split].
  - cbv zeta. split; [exact Fn |]. split; [exact Fl |]. split; [exact Fi | exact Fe].
  - cbv zeta. split; [exact Ui | exact Ue].
  - cbv zeta. split; [exact Si | exact Sa].
Defined.

End CheckoutFacts.

(** ** The Booking model *)

Module BookingFacts.
Import Booking BookingSpec.

Lemma preSave_products (b : Booking.t) : products (preSave b) = products b.
Proof. unfold preSave. now destruct (0 <? List.length (products b))%nat. Qed.

Lemma preSave_total (b : Booking.t) :
  products b <> [] -> totalAmount (preSave b) = Some (linesTotal (products b)).
Proof.
  unfold preSave. destruct (products b) as [| l ls]; [congruence | reflexivity].
Qed.

Lemma preSave_ignores_supplied (b : Booking.t) (v : option JS.number) :
  products b <> [] -> preSave (with_totalAmount b v) = preSave b.
Proof.
  unfold preSave, with_totalAmount. cbn [products userId status].
  destruct (products b) as [| l ls]; [congruence | reflexivity].
Qed.

Lemma save_inv (b saved : Booking.t) (stored stored' : list Booking.t) :
  save b stored = Some (saved, stored') ->
  validate b = true /\ saved = preSave b /\ stored' = stored ++ [saved].
Proof.
  unfold save. destruct (validate b); [| discriminate].
  intros [= <- <-]. auto.
Qed.

Lemma validate_nonempty (b : Booking.t) : validate b = true -> products b <> [].
Proof.
  unfold validate. intros H. apply andb_true_iff in H. destruct H as [_ H].
  destruct (products b); [discriminate | congruence].
Qed.

End BookingFacts.

(** ** The booking route *)

Module RouteFacts.
Import UserRoutes BookingSpec.

Lemma forallb_ids (l : list BookingRequest.line) :
  forallb (fun p => Validator.isMongoId (BookingRequest.productId p)) l
  = forallb (fun k => Validator.isMongoId (fst k)) (map requested l).
Proof. induction l as [| x t IH]; simpl; congruence. Qed.

(** The ids of a query can be cast exactly when each is 24 hexadecimal
    digits; they are cast to their lower-case text. *)
Lemma castIds_spec (ids : list string) :
  castIds ids
  = if forallb ObjectId.isHex24 ids then Some (map ObjectId.lowercase ids) else None.
Proof.
  induction ids as [| id rest IH]; [reflexivity |].
  cbn [castIds forallb map]. rewrite IH. unfold ObjectId.cast.
  destruct (ObjectId.isHex24 id); [| reflexivity].
  now destruct (forallb ObjectId.isHex24 rest).
Qed.

(** An id of 24 hexadecimal digits passes the request validator. *)
Lemma isHex24_isMongoId (s : string) :
  ObjectId.isHex24 s = true -> Validator.isMongoId s = true.
Proof.
  unfold ObjectId.isHex24, Validator.isMongoId, Validator.isHexadecimal, Validator.hex_digits.
  intros H. apply andb_true_iff in H. destruct H as [Hlen Hhex].
  rewrite Hlen, Hhex. destruct s; [discriminate Hlen | reflexivity].
Qed.

Lemma forallb_isHex24_isMongoId (ids : list string) :
  forallb ObjectId.isHex24 ids = true -> forallb Validator.isMongoId ids = true.
Proof.
  rewrite !forallb_forall. intros H id Hin. apply isHex24_isMongoId. now apply H.
Qed.

(** The handler's steps for a request that passes validation and whose
    ids can be cast, over a store whose operations all complete. *)
Lemma createBooking_steps (userId : string) (req : BookingRequest.t) db :
  validationPasses req = true ->
  forallb ObjectId.isHex24 (map BookingRequest.productId (BookingRequest.products req))
    = true ->
  createBooking userId req db
  = let products := BookingRequest.products req in
    let productIds := map BookingRequest.productId products in
    let existingProducts := Product_find_inStock productIds (catalog db) in
    if negb (List.length existingProducts =? List.length productIds)%nat then
      (notAvailable, db)
    else
      match bookingProducts products existingProducts with
      | None => serverError db
      | Some lines =>
          match Booking.save (Booking.new (Some userId) lines None) (bookings db) with
          | None => serverError db
          | Some (saved, stored) =>
              (json 201 (Success saved "Booking created successfully"),
               {| catalog := catalog db; bookings := stored |})
          end
      end.
Proof.
  intros Hv Hc. unfold createBooking, createBookingWith.
  rewrite Hv, castIds_spec, Hc. reflexivity.
Qed.

(** A request that passes validation with an id that cannot be cast ends
    in the catch block: the query throws. *)
Lemma createBooking_cast_error faults (userId : string) (req : BookingRequest.t) db :
  validationPasses req = true ->
  forallb ObjectId.isHex24 (map BookingRequest.productId (BookingRequest.products req))
    = false ->
  createBookingWith faults userId req db = serverError db.
Proof.
  intros Hv Hc. unfold createBookingWith.
  rewrite Hv, castIds_spec, Hc. reflexivity.
Qed.

Lemma forallb_quantities (l : list BookingRequest.line) :
  forallb (fun p => isInt_min1 (BookingRequest.quantity p)) l
  = forallb (fun k => isInt_min1 (snd k)) (map requested l).
Proof. induction l as [| x t IH]; simpl; congruence. Qed.

Lemma productIds_requested (l : list BookingRequest.line) :
  map BookingRequest.productId l = map fst (map requested l).
Proof. rewrite map_map. reflexivity. Qed.

Lemma validationPasses_requested (req req' : BookingRequest.t) :
  map requested (BookingRequest.products req) = map requested (BookingRequest.products req') ->
  validationPasses req = validationPasses req'.
Proof.
  intros H. unfold validationPasses.
  rewrite <- (length_map requested (BookingRequest.products req)).
  rewrite <- (length_map requested (BookingRequest.products req')).
  rewrite !forallb_ids, !forallb_quantities.
  now rewrite H.
Qed.

Lemma bookingProducts_requested (l l' : list BookingRequest.line) existing :
  map requested l = map requested l' ->
  bookingProducts l existing = bookingProducts l' existing.
Proof.
  revert l'. induction l as [| x t IH]; intros [| x' t'] H; try discriminate.
  - reflexivity.
  - cbn [map] in H. unfold requested at 1 3 in H. injection H as Hid Hq Ht.
    simpl. rewrite Hid, Hq, (IH t' Ht). reflexivity.
Qed.

(** The handler reads nothing of the request but the ids and quantities. *)
Lemma createBooking_requested (userId : string) (req req' : BookingRequest.t) db :
  map requested (BookingRequest.products req) = map requested (BookingRequest.products req') ->
  createBooking userId req db = createBooking userId req' db.
Proof.
  intros H. unfold createBooking, createBookingWith.
  rewrite (validationPasses_requested req req' H).
  rewrite !productIds_requested, H.
  rewrite (bookingProducts_requested _ _ _ H).
  reflexivity.
Qed.

Lemma bookingProducts_snapshot products existing lines :
  bookingProducts products existing = Some lines ->
  Forall2 (snapshot_of existing) products lines.
Proof.
  revert lines. induction products as [| r rest IH]; intros lines H; simpl in H.
  - injection H as <-. constructor.
  - destruct (find_first _ existing) as [product |] eqn:Ef; [| discriminate].
    destruct (bookingProducts rest existing) as [ls |]; [| discriminate].
    injection H as <-. constructor.
    + repeat split. exists product. split; [exact Ef | reflexivity].
    + now apply IH.
Qed.

Lemma Product_find_inStock_In ids catalog p :
  In p (Product_find_inStock ids catalog) -> In p catalog /\ ProductDoc.inStock p = true.
Proof.
  unfold Product_find_inStock. intros H. apply filter_In in H. destruct H as [Hin H].
  apply andb_true_iff in H. tauto.
Qed.

(** What an accepted request leaves behind. *)
Lemma createBooking_created userId req db saved message db' :
  createBooking userId req db = (json 201 (Success saved message), db') ->
  exists lines,
    bookingProducts (BookingRequest.products req)
      (Product_find_inStock (map BookingRequest.productId (BookingRequest.products req))
                            (catalog db)) = Some lines
    /\ saved = Booking.preSave (Booking.new (Some userId) lines None)
    /\ Booking.validate (Booking.new (Some userId) lines None) = true
    /\ db' = {| catalog := catalog db; bookings := bookings db ++ [saved] |}.
Proof.
  unfold createBooking, createBookingWith, serverError.
  destruct (validationPasses req); cbn [negb]; [| discriminate].
  destruct (castIds _); [| discriminate].
  cbn [find_rejects save_rejects populate_rejects noFaults].
  destruct (List.length _ =? List.length _)%nat; cbn [negb]; [| discriminate].
  destruct (bookingProducts _ _) as [lines |]; [| discriminate].
  destruct (Booking.save _ _) as [[saved' stored] |] eqn:Es; [| discriminate].
  intros [= <- _ <-]. apply BookingFacts.save_inv in Es.
  destruct Es as (Hv & -> & ->). exists lines. auto.
Qed.

Lemma Forall2_map_right {X Y Z : Type} (R : X -> Z -> Prop) (g : Y -> Z) l l' :
  Forall2 (fun a b => R a (g b)) l l' -> Forall2 R l (map g l').
Proof. induction 1; simpl; constructor; auto. Qed.

(** C2: when a booking request is accepted, each persisted line carries
    the requested id and quantity and the price of the in-stock catalog
    product with that id, as fetched at creation time; a request that asks
    for the same ids and quantities gets the same reply whatever prices or
    total it declares. *)
Theorem createBooking_stores_catalog_prices
    (userId : string) (req : BookingRequest.t) (db db' : Database)
    (saved : Booking.t) (message : string) :
  createBooking userId req db = (json 201 (Success saved message), db') ->
  Forall2 (stored_snapshot (catalog db)
             (Product_find_inStock
                (map BookingRequest.productId (BookingRequest.products req)) (catalog db)))
          (BookingRequest.products req) (Booking.products saved)
  /\ bookings db' = bookings db ++ [saved]
  /\ forall req',
       map requested (BookingRequest.products req')
         = map requested (BookingRequest.products req) ->
       createBooking userId req' db = (json 201 (Success saved message), db').
Proof.
  intros H. split; [| split].
  - apply createBooking_created in H. destruct H as (lines & Hl & -> & _ & _).
    rewrite BookingFacts.preSave_products. cbn [Booking.new Booking.products].
    apply Forall2_map_right.
    apply bookingProducts_snapshot in Hl.
    eapply Forall2_impl; [| exact Hl].
    intros r l (Hid & Hq & product & Hfind & Hprice).
    unfold stored_snapshot. cbn [Booking.productId Booking.quantity Booking.price].
    rewrite Hid. repeat split; [exact Hq |].
    exists product.
    pose proof (find_some _ _ Hfind) as [Hin Heq].
    apply Product_find_inStock_In in Hin. destruct Hin as [Hin Hstock].
    apply String.eqb_eq in Heq. auto.
  - apply createBooking_created in H. destruct H as (lines & _ & _ & _ & ->).
    reflexivity.
  - intros req' Hreq. rewrite <- H. now apply createBooking_requested.
Qed.

Lemma createBooking_stores_catalog_prices_witness :
  createBooking Samples.userId Samples.forgedRequest Samples.db
    = (json 201 (Success Samples.savedForged "Booking created successfully"),
       {| catalog := catalog Samples.db; bookings := [Samples.savedForged] |})
  /\ Forall2 (stored_snapshot (catalog Samples.db)
                (Product_find_inStock
                   (map BookingRequest.productId (BookingRequest.products Samples.forgedRequest))
                   (catalog Samples.db)))
             (BookingRequest.products Samples.forgedRequest)
             (Booking.products Samples.savedForged).
Proof.
  assert (H : createBooking Samples.userId Samples.forgedRequest Samples.db
              = (json 201 (Success Samples.savedForged "Booking created successfully"),
                 {| catalog := catalog Samples.db; bookings := [Samples.savedForged] |}))
    by (vm_compute; reflexivity).
  split; [exact H |].
  exact (proj1 (createBooking_stores_catalog_prices _ _ _ H)).
Defined.

Lemma validate_with_totalAmount (b : Booking.t) (supplied : option JS.number) :
  Booking.validate (with_totalAmount b supplied)
  = Booking.validate (with_totalAmount b None)
    && match supplied with Some v => Booking.valid_amount v | None => true end.
Proof.
  unfold Booking.validate, with_totalAmount.
  cbn [Booking.userId Booking.products Booking.totalAmount].
  destruct (Booking.userId b), (forallb Booking.valid_line (Booking.products b)),
    supplied as [v |], (0 <? List.length (Booking.products b))%nat;
    cbn; try reflexivity; now destruct (Booking.valid_amount v).
Qed.

Lemma valid_amount_iff (v : JS.number) :
  Booking.valid_amount v = true
  <-> JS.ge v 0%float = true /\ JS.Number_isFinite v = true.
Proof.
  unfold Booking.valid_amount. rewrite !andb_true_iff. tauto.
Qed.

(** C3, as the code has it: for a booking with at least one line, the
    pre-save hook sets [totalAmount] to the sum over the lines of price
    times quantity whatever value the caller supplied, and every booking
    that [save] writes carries that sum.  A supplied total is not ignored
    altogether: the schema validates it before the hook runs, so that a
    supplied total that is finite and not negative, or no supplied total,
    changes nothing in the result of [save], while a negative, infinite or
    NaN one makes [save] fail and nothing is written.  The route does not
    hand the client's total to the model: its reply does not depend on
    it. *)
Theorem save_recomputes_totalAmount
    (b : Booking.t) (supplied : option JS.number) (stored : list Booking.t) :
  Booking.products b <> [] ->
  Booking.totalAmount (Booking.preSave (with_totalAmount b supplied))
    = Some (Meaning.lines_sum (Booking.products b))
  /\ (forall saved stored',
        Booking.save (with_totalAmount b supplied) stored = Some (saved, stored') ->
        Booking.totalAmount saved = Some (Meaning.lines_sum (Booking.products b))
        /\ Booking.products saved = Booking.products b
        /\ stored' = stored ++ [saved])
  /\ (match supplied with
      | Some v => JS.ge v 0%float = true /\ JS.Number_isFinite v = true
      | None => True
      end ->
      Booking.save (with_totalAmount b supplied) stored
      = Booking.save (with_totalAmount b None) stored)
  /\ (forall v, supplied = Some v ->
        JS.ge v 0%float = false \/ JS.Number_isFinite v = false ->
        Booking.save (with_totalAmount b supplied) stored = None)
  /\ (forall userId req db total,
        createBooking userId
          {| BookingRequest.products := BookingRequest.products req;
             BookingRequest.totalAmount := total |} db
        = createBooking userId req db).
Proof.
  intros Hne.
  assert (Hhook : forall v,
             Booking.totalAmount (Booking.preSave (with_totalAmount b v))
             = Some (Meaning.lines_sum (Booking.products b))).
  { intros v. rewrite BookingFacts.preSave_ignores_supplied by exact Hne.
    rewrite <- MeaningFacts.linesTotal_is_lines_sum.
    now apply BookingFacts.preSave_total. }
  split; [apply Hhook |]. split; [| split; [| split]].
  - intros saved stored' Hs. apply BookingFacts.save_inv in Hs.
    destruct Hs as (_ & -> & ->).
    split; [apply Hhook |]. split; [| reflexivity].
    rewrite BookingFacts.preSave_products. reflexivity.
  - intros Hok. unfold Booking.save.
    rewrite (validate_with_totalAmount b supplied).
    rewrite !BookingFacts.preSave_ignores_supplied by exact Hne.
    destruct supplied as [v |]; [| now rewrite andb_true_r].
    apply valid_amount_iff in Hok. now rewrite Hok, andb_true_r.
  - intros v -> Hbad. unfold Booking.save.
    rewrite (validate_with_totalAmount b (Some v)).
    assert (E : Booking.valid_amount v = false).
    { apply not_true_is_false. intros Hv. apply valid_amount_iff in Hv.
      destruct Hv as [Hge Hfin]. destruct Hbad; congruence. }
    now rewrite E, andb_false_r.
  - intros userId req db total. now apply createBooking_requested.
Qed.

Lemma save_recomputes_totalAmount_witness :
  Booking.products Samples.bookingAB <> []
  /\ Booking.totalAmount (Booking.preSave (with_totalAmount Samples.bookingAB (Some 0%float)))
     = Some (Meaning.lines_sum (Booking.products Samples.bookingAB))
  /\ Booking.save (with_totalAmount Samples.bookingAB (Some 0%float)) []
     = Booking.save (with_totalAmount Samples.bookingAB None) [].
Proof.
  assert (H : Booking.products Samples.bookingAB <> []) by (vm_compute; discriminate).
  split; [exact H |].
  pose proof (save_recomputes_totalAmount Samples.bookingAB (Some 0%float) [] H)
    as (Hhook & _ & Hsame & _).
  split; [exact Hhook |].
  apply Hsame. split; reflexivity.
Defined.

(** C3, as worded, fails on the booking of the model's test when the
    caller supplies a total of -1: with a supplied total of 0 the booking is
    saved with total 35.50, with -1 nothing is saved, so the supplied value
    is not ignored. *)
Lemma save_rejects_negative_supplied_total :
  Booking.products Samples.bookingAB <> []
  /\ Booking.save (with_totalAmount Samples.bookingAB (Some 0%float)) []
     = Some (with_totalAmount Samples.bookingAB (Some 35.5%float),
             [with_totalAmount Samples.bookingAB (Some 35.5%float)])
  /\ Meaning.lines_sum (Booking.products Samples.bookingAB) = 35.5%float
  /\ Booking.save (with_totalAmount Samples.bookingAB (Some (-1)%float)) [] = None
  /\ Booking.save (with_totalAmount Samples.bookingAB (Some infinity)) [] = None.
Proof.
  split; [vm_compute; discriminate |]. repeat split.
Qed.

(** The model's test: quantities 2 and 1 at 10.00 and 15.50 are saved with
    a total of 35.50 although 0 was supplied. *)
Example booking_scenario :
  Booking.save Samples.bookingAB []
  = Some (with_totalAmount Samples.bookingAB (Some 35.5%float),
          [with_totalAmount Samples.bookingAB (Some 35.5%float)]).
Proof. reflexivity. Qed.

Lemma nodup_length_le (l : list string) :
  (List.length (nodup string_dec l) <= List.length l)%nat.
Proof.
  induction l as [| x t IH]; simpl; [lia |].
  destruct (in_dec string_dec x t); simpl; lia.
Qed.

(** The half of the availability rule that the handler implements: fewer
    in-stock matches than distinct requested ids means rejection, and
    nothing is written. *)
Lemma createBooking_rejects_unavailable (userId : string) (req : BookingRequest.t) db :
  validationPasses req = true ->
  forallb ObjectId.isHex24 (map BookingRequest.productId (BookingRequest.products req))
    = true ->
  (List.length (Product_find_inStock
                  (map BookingRequest.productId (BookingRequest.products req)) (catalog db))
   < List.length (distinct_ids (map BookingRequest.productId (BookingRequest.products req))))%nat ->
  createBooking userId req db = (notAvailable, db).
Proof.
  intros Hv Hc Hlt. rewrite (@createBooking_steps userId req db Hv Hc). cbv zeta.
  set (ids := map BookingRequest.productId (BookingRequest.products req)) in *.
  assert (Hle : (List.length (distinct_ids ids) <= List.length ids)%nat).
  { unfold distinct_ids. etransitivity; [apply nodup_length_le |]. now rewrite length_map. }
  destruct (Nat.eqb_spec (List.length (Product_find_inStock ids (catalog db)))
                         (List.length ids)); [lia | reflexivity].
Qed.

Lemma cast_lowercase (id : string) (o : ObjectId.t) :
  ObjectId.cast id = Some o -> o = ObjectId.lowercase id.
Proof. unfold ObjectId.cast. destruct (ObjectId.isHex24 id); congruence. Qed.

Lemma found_ids_NoDup ids catalog :
  unique_catalog catalog -> NoDup (map ProductDoc._id (Product_find_inStock ids catalog)).
Proof.
  unfold unique_catalog, Product_find_inStock.
  induction catalog as [| p t IH]; simpl; intros H; [constructor |].
  inversion H as [| ? ? Hnotin Hnodup]; subst.
  destruct (_ && ProductDoc.inStock p); simpl; [| auto].
  constructor; [| auto].
  intros Hin. apply Hnotin. apply in_map_iff in Hin. destruct Hin as (q & Hq & Hin).
  apply filter_In in Hin. apply in_map_iff. exists q. tauto.
Qed.

Lemma found_ids_incl ids catalog :
  incl (map ProductDoc._id (Product_find_inStock ids catalog)) (distinct_ids ids).
Proof.
  intros o Hin. apply in_map_iff in Hin. destruct Hin as (p & <- & Hin).
  unfold Product_find_inStock in Hin. apply filter_In in Hin. destruct Hin as [_ H].
  apply andb_true_iff in H. destruct H as [H _].
  apply existsb_exists in H. destruct H as (id & Hid & H).
  destruct (ObjectId.cast id) as [o |] eqn:Ec; [| discriminate].
  apply cast_lowercase in Ec. apply String.eqb_eq in H. subst o. rewrite <- H.
  unfold distinct_ids. apply nodup_In. now apply in_map.
Qed.

(** With unique document ids, the query finds at most one product per
    distinct requested id. *)
Lemma found_le_distinct ids catalog :
  unique_catalog catalog ->
  (List.length (Product_find_inStock ids catalog) <= List.length (distinct_ids ids))%nat.
Proof.
  intros Hu. rewrite <- (length_map ProductDoc._id).
  apply NoDup_incl_length; [now apply found_ids_NoDup | apply found_ids_incl].
Qed.

(** Every request that names some product twice is answered
    PRODUCTS_NOT_AVAILABLE, whatever is in stock. *)
Lemma createBooking_rejects_repeated (userId : string) (req : BookingRequest.t) db :
  validationPasses req = true ->
  forallb ObjectId.isHex24 (map BookingRequest.productId (BookingRequest.products req))
    = true ->
  unique_catalog (catalog db) ->
  (List.length (distinct_ids (map BookingRequest.productId (BookingRequest.products req)))
   < List.length (BookingRequest.products req))%nat ->
  createBooking userId req db = (notAvailable, db).
Proof.
  intros Hv Hc Hu Hlt. rewrite (@createBooking_steps userId req db Hv Hc). cbv zeta.
  set (ids := map BookingRequest.productId (BookingRequest.products req)) in *.
  pose proof (found_le_distinct ids Hu) as Hle.
  assert (Hlen : List.length ids = List.length (BookingRequest.products req))
    by (unfold ids; apply length_map).
  destruct (Nat.eqb_spec (List.length (Product_find_inStock ids (catalog db)))
                         (List.length ids)); [lia | reflexivity].
Qed.

(** The check lets a request through when each line names a different
    product and all of them are available. *)
Lemma availability_check_passes (req : BookingRequest.t) db :
  unique_catalog (catalog db) ->
  NoDup (map ObjectId.lowercase (map BookingRequest.productId (BookingRequest.products req))) ->
  forallb (available (catalog db)) (map BookingRequest.productId (BookingRequest.products req))
    = true ->
  List.length (Product_find_inStock
                 (map BookingRequest.productId (BookingRequest.products req)) (catalog db))
  = List.length (map BookingRequest.productId (BookingRequest.products req)).
Proof.
  set (ids := map BookingRequest.productId (BookingRequest.products req)).
  intros Hu Hnd Hav. apply Nat.le_antisymm.
  - etransitivity; [now apply found_le_distinct |].
    unfold distinct_ids. etransitivity; [apply nodup_length_le |]. now rewrite length_map.
  - rewrite <- (length_map ObjectId.lowercase ids).
    rewrite <- (length_map ProductDoc._id (Product_find_inStock ids (catalog db))).
    apply NoDup_incl_length; [exact Hnd |].
    intros o Hin. apply in_map_iff in Hin. destruct Hin as (id & <- & Hid).
    rewrite forallb_forall in Hav. specialize (Hav id Hid).
    unfold available in Hav. apply existsb_exists in Hav. destruct Hav as (p & Hp & H).
    destruct (ObjectId.cast id) as [o |] eqn:Ec; [| discriminate].
    apply andb_true_iff in H. destruct H as [Heq Hstock].
    apply in_map_iff. exists p. split.
    + apply cast_lowercase in Ec. apply String.eqb_eq in Heq. congruence.
    + unfold Product_find_inStock. apply filter_In. split; [exact Hp |].
      apply andb_true_iff. split; [| exact Hstock].
      apply existsb_exists. exists id. split; [exact Hid |]. now rewrite Ec.
Qed.

(** C1 (as the handler behaves): a request naming the in-stock product A
    on two lines passes validation, and each distinct id it names is
    available, one catalog product matching the one distinct id; the handler
    compares the number of matches with the number of lines, and answers
    PRODUCTS_NOT_AVAILABLE, writing nothing. *)
Theorem createBooking_rejects_repeated_product :
  validationPasses Samples.repeatedRequest = true
  /\ forallb (available (catalog Samples.db))
       (distinct_ids
          (map BookingRequest.productId (BookingRequest.products Samples.repeatedRequest)))
     = true
  /\ List.length
       (Product_find_inStock
          (map BookingRequest.productId (BookingRequest.products Samples.repeatedRequest))
          (catalog Samples.db))
     = List.length
         (distinct_ids
            (map BookingRequest.productId (BookingRequest.products Samples.repeatedRequest)))
  /\ createBooking Samples.userId Samples.repeatedRequest Samples.db
     = (notAvailable, Samples.db).
Proof. vm_compute. repeat split. Qed.

(** A request that names the out-of-stock product C is rejected as a
    whole. *)
Example out_of_stock_scenario :
  createBooking Samples.userId Samples.outOfStockRequest Samples.db
  = (notAvailable, Samples.db).
Proof. reflexivity. Qed.

(** An id written with capital hexadecimal digits passes validation and
    the catalog query, but is not found again by the text comparison of
    the price lookup: the handler ends in its catch block. *)
Example capital_id_scenario :
  createBooking Samples.userId
    {| BookingRequest.products := [Samples.order "507F1F77BCF86CD799439011" 1%float None];
       BookingRequest.totalAmount := None |} Samples.db
  = serverError Samples.db.
Proof. reflexivity. Qed.

End RouteFacts.

(** ** Order on numbers *)

Module FloatOrder.

Lemma SFcompare_antisym (a b : spec_float) :
  SFcompare b a = option_map CompOpp (SFcompare a b).
Proof.
  destruct a as [sa | sa | | sa ma ea], b as [sb | sb | | sb mb eb];
    try reflexivity;
    try (destruct sa; reflexivity);
    try (destruct sb; reflexivity);
    try (destruct sa, sb; reflexivity).
  cbn [SFcompare option_map].
  destruct sa, sb; try reflexivity.
  - rewrite (Z.compare_antisym ea eb).
    destruct (ea ?= eb)%Z; cbn [CompOpp]; try reflexivity.
    f_equal. change (Pos.compare_cont Eq mb ma) with (Pos.compare mb ma).
    change (Pos.compare_cont Eq ma mb) with (Pos.compare ma mb).
    now rewrite (Pos.compare_antisym ma mb).
  - rewrite (Z.compare_antisym ea eb).
    destruct (ea ?= eb)%Z; cbn [CompOpp]; try reflexivity.
    f_equal. change (Pos.compare_cont Eq mb ma) with (Pos.compare mb ma).
    change (Pos.compare_cont Eq ma mb) with (Pos.compare ma mb).
    now rewrite (Pos.compare_antisym ma mb).
Qed.

Lemma is_nan_false (x : float) : PrimFloat.is_nan x = false -> Prim2SF x <> S754_nan.
Proof.
  unfold PrimFloat.is_nan. rewrite eqb_spec. intros H E. rewrite E in H. discriminate H.
Qed.

(** Between two numbers, neither of them NaN, [a < b] failing means
    [b <= a]. *)
Lemma not_lt_ge (a b : float) :
  PrimFloat.is_nan a = false -> PrimFloat.is_nan b = false ->
  PrimFloat.ltb a b = false -> PrimFloat.leb b a = true.
Proof.
  intros Ha Hb. apply is_nan_false in Ha. apply is_nan_false in Hb.
  rewrite ltb_spec, leb_spec. unfold SFltb, SFleb.
  rewrite (SFcompare_antisym (Prim2SF a) (Prim2SF b)).
  destruct (SFcompare (Prim2SF a) (Prim2SF b)) as [[| |] |] eqn:E;
    cbn; try reflexivity; try discriminate.
  intros _. exfalso.
  destruct (Prim2SF a) as [sa | sa | | sa ma ea], (Prim2SF b) as [sb | sb | | sb mb eb];
    try discriminate E; congruence.
Qed.

End FloatOrder.

(** ** More on the cart store and the Cart panel *)

Module CartMore.
Import Cart CartSpec CartInvariant CartFacts.

Lemma step_keeps_unique_lines state action :
  is_load action = false ->
  unique_lines (items state) = true ->
  unique_lines (items (cartReducer state action)) = true.
Proof.
  intros Hl Hu.
  destruct action as [product quantity | productId | productId quantity | | b | msg | | data];
    try exact Hu; try reflexivity; try discriminate Hl.
  - exact (op_keeps_unique_lines state (OpAdd product (Some quantity)) Hu).
  - exact (op_keeps_unique_lines state (OpRemove productId) Hu).
  - exact (op_keeps_unique_lines state (OpUpdate productId quantity) Hu).
Qed.

(** X1: whatever actions are dispatched, as long as none of them is
    LOAD_CART, a cart with at most one line per product id stays one. *)
Theorem actions_keep_one_line_per_product (actions : list Action) (state : CartState) :
  forallb (fun a => negb (is_load a)) actions = true ->
  unique_lines (items state) = true ->
  unique_lines (items (fold_left cartReducer actions state)) = true.
Proof.
  revert state. induction actions as [| a rest IH]; intros state Hl Hu; simpl in *.
  - exact Hu.
  - apply andb_true_iff in Hl. destruct Hl as [Ha Hrest].
    apply IH; [exact Hrest |].
    apply step_keeps_unique_lines; [now apply negb_true_iff | exact Hu].
Qed.

Lemma actions_keep_one_line_per_product_witness :
  unique_lines
    (items (fold_left cartReducer
              [addToCart Samples.productA None; SET_ERROR "x"; clearCart;
               addToCart Samples.productB None; updateQuantity "2" 4%float]
              Samples.cartAB)) = true.
Proof.
  apply (@actions_keep_one_line_per_product
           [addToCart Samples.productA None; SET_ERROR "x"; clearCart;
            addToCart Samples.productB None; updateQuantity "2" 4%float]
           Samples.cartAB); reflexivity.
Defined.

Lemma step_keeps_totals state action :
  is_load action = false -> totals_agree state -> totals_agree (cartReducer state action).
Proof.
  intros Hl Ht.
  destruct action as [product quantity | productId | productId quantity | | b | msg | | data];
    try exact Ht; try (split; reflexivity); try discriminate Hl.
Qed.

Lemma step_keeps_totals_recomputed state action :
  is_load action = false ->
  Meaning.totals_recomputed state -> Meaning.totals_recomputed (cartReducer state action).
Proof.
  intros Hl Ht.
  destruct action as [product quantity | productId | productId quantity | | b | msg | | data];
    try exact Ht; try discriminate Hl;
    apply CartFacts.recomputed_totals_meaning; reflexivity.
Qed.

(** X2: whatever actions are dispatched, as long as none of them is
    LOAD_CART, cached totals that are right for the items stay right:
    [totalItems] is the sum of the lines' quantities and [totalAmount] is
    the sum of price times quantity over the lines, rounded to two
    decimals. *)
Theorem actions_keep_totals (actions : list Action) (state : CartState) :
  forallb (fun a => negb (is_load a)) actions = true ->
  Meaning.totals_recomputed state ->
  Meaning.totals_recomputed (fold_left cartReducer actions state).
Proof.
  revert state. induction actions as [| a rest IH]; intros state Hl Ht; simpl in *.
  - exact Ht.
  - apply andb_true_iff in Hl. destruct Hl as [Ha Hrest].
    apply IH; [exact Hrest |].
    apply step_keeps_totals_recomputed; [now apply negb_true_iff | exact Ht].
Qed.

Lemma actions_keep_totals_witness :
  Meaning.totals_recomputed
    (fold_left cartReducer
       [CLEAR_ERROR; SET_LOADING true; removeFromCart "1"; updateQuantity "2" 3%float]
       Samples.cartAB).
Proof.
  apply (@actions_keep_totals
           [CLEAR_ERROR; SET_LOADING true; removeFromCart "1"; updateQuantity "2" 3%float]
           Samples.cartAB).
  - reflexivity.
  - apply CartFacts.recomputed_totals_meaning; reflexivity.
Defined.

Lemma lines_for_besides productId l :
  lines_for productId (lines_besides productId l) = [].
Proof.
  unfold lines_for, lines_besides. induction l as [| x t IH]; simpl; [reflexivity |].
  destruct (has_id productId x) eqn:E; simpl; [exact IH | now rewrite E].
Qed.

Lemma lines_besides_idem productId l :
  lines_besides productId (lines_besides productId l) = lines_besides productId l.
Proof.
  unfold lines_besides. induction l as [| x t IH]; simpl; [reflexivity |].
  destruct (has_id productId x) eqn:E; simpl; [exact IH | rewrite E; simpl; now f_equal].
Qed.

Lemma lines_besides_absent productId l :
  lines_for productId l = [] -> lines_besides productId l = l.
Proof.
  unfold lines_for, lines_besides. induction l as [| x t IH]; simpl; [reflexivity |].
  destruct (has_id productId x); simpl; [discriminate | intros H; f_equal; auto].
Qed.

Lemma lines_besides_update_first productId g l :
  (forall item, CartLine.product (g item) = CartLine.product item) ->
  lines_besides productId (update_first (has_id productId) g l) = lines_besides productId l.
Proof.
  intros Hg. unfold lines_besides. induction l as [| x t IH]; simpl; [reflexivity |].
  destruct (has_id productId x) eqn:E; simpl.
  - now rewrite (has_id_same_product productId (g x) x (Hg x)), E.
  - rewrite E. simpl. now f_equal.
Qed.

Lemma REMOVE_ITEM_items state productId :
  items (cartReducer state (REMOVE_ITEM productId)) = lines_besides productId (items state).
Proof. reflexivity. Qed.

(** X3: removeFromCart drops every line of the product and keeps the
    others as they are and in order; a second removal changes nothing at
    all; for a product that has no line, the items are left as they were;
    and removing a product right after adding it leaves the lines of the
    other products, whatever was in the cart. *)
Theorem removeFromCart_drops_only_that_product
    (state : CartState) (productId : string) (product : Product.t)
    (quantity : option JS.number) :
  let state' := cartReducer state (removeFromCart productId) in
  lines_for productId (items state') = []
  /\ lines_besides productId (items state') = lines_besides productId (items state)
  /\ cartReducer state' (removeFromCart productId) = state'
  /\ (lines_for productId (items state) = [] -> items state' = items state)
  /\ items (cartReducer (cartReducer state (addToCart product quantity))
                        (removeFromCart (Product._id product)))
     = lines_besides (Product._id product) (items state).
Proof.
  intros state'. subst state'. unfold removeFromCart, addToCart.
  rewrite !REMOVE_ITEM_items.
  split; [apply lines_for_besides |].
  split; [apply lines_besides_idem |].
  split.
  { cbn [cartReducer items loading error].
    fold (lines_besides productId (items state)).
    fold (lines_besides productId (lines_besides productId (items state))).
    rewrite lines_besides_idem. reflexivity. }
  split; [apply lines_besides_absent |].
  rewrite ADD_ITEM_items.
  destruct (existsb _ (items state)) eqn:E.
  - now apply lines_besides_update_first.
  - unfold lines_besides. rewrite filter_app. simpl.
    unfold has_id at 2. cbn [newLine CartLine.product]. rewrite String.eqb_refl. simpl.
    apply app_nil_r.
Qed.

Lemma removeFromCart_drops_only_that_product_witness :
  lines_for "3" (items Samples.cartAB) = []
  /\ items (cartReducer Samples.cartAB (removeFromCart "3")) = items Samples.cartAB.
Proof.
  split; [reflexivity |].
  apply (proj1 (proj2 (proj2 (proj2
           (removeFromCart_drops_only_that_product Samples.cartAB "3" Samples.productA None))))).
  reflexivity.
Defined.

Lemma forallb_filter_same {X : Type} (p : X -> bool) (l : list X) :
  forallb p (filter p l) = true.
Proof.
  induction l as [| x t IH]; simpl; [reflexivity |].
  destruct (p x) eqn:E; simpl; [rewrite E |]; exact IH.
Qed.

Lemma lines_besides_after_update productId m l :
  lines_besides productId
    (filter (fun item => JS.gt (CartLine.quantity item) 0%float)
       (map (fun item =>
               if has_id productId item then CartLine.with_quantity item m else item) l))
  = filter (fun item => JS.gt (CartLine.quantity item) 0%float) (lines_besides productId l).
Proof.
  unfold lines_besides. induction l as [| x t IH]; simpl; [reflexivity |].
  destruct (has_id productId x) eqn:Ex; simpl.
  - destruct (JS.gt m 0%float); simpl; [| exact IH].
    rewrite (has_id_same_product productId (CartLine.with_quantity x m) x eq_refl), Ex.
    exact IH.
  - destruct (JS.gt (CartLine.quantity x) 0%float); simpl; [rewrite Ex; simpl |];
      now rewrite IH.
Qed.

(** X4: updateQuantity sweeps the whole cart: afterwards every line,
    of whatever product, has a quantity above 0, and the lines of the other
    products are the ones that had a quantity above 0 before, unchanged and
    in order. *)
Theorem updateQuantity_sweeps_nonpositive_lines
    (state : CartState) (productId : string) (q : JS.number) :
  let state' := cartReducer state (updateQuantity productId q) in
  forallb (fun item => JS.gt (CartLine.quantity item) 0%float) (items state') = true
  /\ lines_besides productId (items state')
     = filter (fun item => JS.gt (CartLine.quantity item) 0%float)
              (lines_besides productId (items state)).
Proof.
  intros state'. subst state'. cbn [updateQuantity cartReducer items]. split.
  - apply forallb_filter_same.
  - apply lines_besides_after_update.
Qed.

Lemma ge_one_gt_zero q : JS.ge q 1%float = true -> JS.gt q 0%float = true.
Proof.
  unfold JS.ge, JS.gt. rewrite leb_spec, ltb_spec.
  replace (Prim2SF 1%float) with (S754_finite false 4503599627370496 (-52)) by reflexivity.
  rewrite JSFacts.Prim2SF_zero.
  destruct (Prim2SF q) as [s | s | | s m e]; try discriminate.
  - destruct s; [discriminate | reflexivity].
  - destruct s; [discriminate | reflexivity].
Qed.

Lemma ge_one_not_lt_one q : JS.ge q 1%float = true -> JS.lt q 1%float = false.
Proof.
  unfold JS.ge, JS.lt. rewrite leb_spec, ltb_spec. unfold SFleb, SFltb.
  rewrite (FloatOrder.SFcompare_antisym (Prim2SF 1%float) (Prim2SF q)).
  destruct (SFcompare (Prim2SF 1%float) (Prim2SF q)) as [[| |] |]; cbn; congruence.
Qed.

Lemma not_lt_one_gt_zero_ge_one q :
  JS.lt q 1%float = false -> JS.gt q 0%float = true -> JS.ge q 1%float = true.
Proof.
  intros Hlt Hgt. unfold JS.ge. apply FloatOrder.not_lt_ge.
  - now apply JSFacts.gt_zero_not_nan.
  - reflexivity.
  - exact Hlt.
Qed.

Lemma lt_one_not_ge_one q : JS.lt q 1%float = true -> JS.ge q 1%float = false.
Proof.
  unfold JS.ge, JS.lt. rewrite leb_spec, ltb_spec. unfold SFleb, SFltb.
  rewrite (FloatOrder.SFcompare_antisym (Prim2SF 1%float) (Prim2SF q)).
  destruct (SFcompare (Prim2SF 1%float) (Prim2SF q)) as [[| |] |]; cbn; congruence.
Qed.

Lemma nan_compares_false q :
  PrimFloat.is_nan q = true ->
  JS.lt q 1%float = false /\ JS.ge q 1%float = false /\ JS.gt q 0%float = false.
Proof.
  unfold PrimFloat.is_nan, JS.lt, JS.ge, JS.gt.
  rewrite eqb_spec, !ltb_spec, leb_spec.
  destruct (Prim2SF q) as [s | s | | s m e]; intros H.
  - destruct s; discriminate H.
  - destruct s; discriminate H.
  - repeat split.
  - rewrite JSFacts.SFeqb_finite_refl in H. discriminate H.
Qed.

Lemma not_lt_not_ge_not_gt q :
  JS.lt q 1%float = false -> JS.ge q 1%float = false -> JS.gt q 0%float = false.
Proof.
  intros Hlt Hge. destruct (JS.gt q 0%float) eqn:Hgt; [| reflexivity].
  rewrite (not_lt_one_gt_zero_ge_one Hlt Hgt) in Hge. discriminate Hge.
Qed.

(** X5: the Cart panel's quantity handler never leaves a line of the
    product with a quantity below 1: for a new quantity of at least 1 the
    product's lines take that quantity, and for every other new quantity
    the product has no line afterwards.  A new quantity below 1 removes the
    product and leaves every other line as it is; a new quantity that is NaN
    is neither below 1 nor at least 1, goes to updateQuantity, and removes
    the product's lines there. *)
Theorem handleQuantityChange_keeps_quantity_at_least_one
    (state : CartState) (productId : string) (newQuantity : JS.number) :
  let state' := cartReducer state (CartPanel.handleQuantityChange productId newQuantity) in
  forallb (fun item => JS.ge (CartLine.quantity item) 1%float)
          (lines_for productId (items state')) = true
  /\ lines_for productId (items state')
     = (if JS.ge newQuantity 1%float
        then map (fun item => CartLine.with_quantity item newQuantity)
                 (lines_for productId (items state))
        else [])
  /\ (JS.lt newQuantity 1%float = true ->
      lines_for productId (items state') = []
      /\ lines_besides productId (items state') = lines_besides productId (items state))
  /\ (JS.ge newQuantity 1%float = true ->
      lines_for productId (items state')
      = map (fun item => CartLine.with_quantity item newQuantity)
            (lines_for productId (items state)))
  /\ (PrimFloat.is_nan newQuantity = true ->
      CartPanel.handleQuantityChange productId newQuantity
      = updateQuantity productId newQuantity
      /\ lines_for productId (items state') = []).
Proof.
  intros state'. subst state'. unfold CartPanel.handleQuantityChange.
  assert (Hge : JS.ge newQuantity 1%float = true ->
                lines_for productId
                  (items (cartReducer state
                            (if JS.lt newQuantity 1%float
                             then removeFromCart productId
                             else updateQuantity productId newQuantity)))
                = map (fun item => CartLine.with_quantity item newQuantity)
                      (lines_for productId (items state))).
  { intros Hge. rewrite (ge_one_not_lt_one Hge).
    cbn [updateQuantity cartReducer items]. rewrite lines_for_after_update.
    pose proof (ge_one_gt_zero Hge) as Hgt.
    rewrite JSFacts.Math_max_gt_zero, Hgt, (JSFacts.Math_max_pos Hgt). reflexivity. }
  assert (Hnot : JS.lt newQuantity 1%float = false -> JS.ge newQuantity 1%float = false ->
                 lines_for productId
                   (items (cartReducer state (updateQuantity productId newQuantity))) = []).
  { intros Hlt Hnge. cbn [updateQuantity cartReducer items].
    rewrite lines_for_after_update, JSFacts.Math_max_gt_zero.
    now rewrite (not_lt_not_ge_not_gt Hlt Hnge). }
  split; [| split; [| split; [| split]]].
  - destruct (JS.lt newQuantity 1%float) eqn:Hlt.
    + unfold removeFromCart. rewrite REMOVE_ITEM_items, lines_for_besides. reflexivity.
    + cbn [updateQuantity cartReducer items]. rewrite lines_for_after_update.
      rewrite JSFacts.Math_max_gt_zero.
      destruct (JS.gt newQuantity 0%float) eqn:Hgt; [| reflexivity].
      rewrite (JSFacts.Math_max_pos Hgt).
      rewrite forallb_forall. intros item Hin. apply in_map_iff in Hin.
      destruct Hin as (old & <- & _). cbn [CartLine.with_quantity CartLine.quantity].
      now apply not_lt_one_gt_zero_ge_one.
  - destruct (JS.ge newQuantity 1%float) eqn:Ege; [now apply Hge |].
    destruct (JS.lt newQuantity 1%float) eqn:Hlt.
    + unfold removeFromCart. rewrite REMOVE_ITEM_items. apply lines_for_besides.
    + now apply Hnot.
  - intros Hlt. rewrite Hlt. unfold removeFromCart. rewrite REMOVE_ITEM_items.
    split; [apply lines_for_besides | apply lines_besides_idem].
  - exact Hge.
  - intros Hnan. destruct (nan_compares_false newQuantity Hnan) as (Hlt & Hnge & _).
    rewrite Hlt. split; [reflexivity |]. now apply Hnot.
Qed.

Lemma handleQuantityChange_keeps_quantity_at_least_one_witness :
  (JS.lt 0%float 1%float = true
   /\ lines_for "1"
        (items (cartReducer Samples.cartAB (CartPanel.handleQuantityChange "1" 0%float))) = []
   /\ lines_besides "1"
        (items (cartReducer Samples.cartAB (CartPanel.handleQuantityChange "1" 0%float)))
      = lines_besides "1" (items Samples.cartAB))
  /\ (PrimFloat.is_nan nan = true
      /\ lines_for "1"
           (items (cartReducer Samples.cartAB (CartPanel.handleQuantityChange "1" nan))) = []).
Proof.
  split.
  - split; [reflexivity |].
    apply (proj1 (proj2 (proj2 (handleQuantityChange_keeps_quantity_at_least_one
                                  Samples.cartAB "1" 0%float)))).
    reflexivity.
  - split; [reflexivity |].
    apply (proj2 (proj2 (proj2 (proj2 (handleQuantityChange_keeps_quantity_at_least_one
                                         Samples.cartAB "1" nan))))).
    reflexivity.
Defined.

End CartMore.

(** ** More on checkout *)

Module CheckoutMore.
Import Cart CartSpec CartInvariant Checkout.

(** X6: checkout keeps the cart well formed whatever happens: if the cart
    has at most one line per product id and totals that agree with its
    items, so it has after createBooking, whether that was refused on an
    empty cart, succeeded or failed. *)
Theorem createBooking_keeps_cart_invariants
    (D : Type) (api : BookingRequest.t -> ApiResult D) (w : World) :
  unique_lines (items (store w)) = true ->
  totals_agree (store w) ->
  unique_lines (items (store (fst (createBooking api w)))) = true
  /\ totals_agree (store (fst (createBooking api w))).
Proof.
  intros Hu Ht. unfold createBooking.
  destruct (List.length (items (store w)) =? 0)%nat; [now split |].
  destruct (api (bookingData (store w))) as [data | error]; cbn.
  - split; [reflexivity | split; reflexivity].
  - split; [exact Hu | exact Ht].
Qed.

Lemma createBooking_keeps_cart_invariants_witness :
  unique_lines (items (store (fst (createBooking Samples.noApi Samples.worldAB)))) = true
  /\ totals_agree (store (fst (createBooking Samples.noApi Samples.worldAB))).
Proof.
  apply (createBooking_keeps_cart_invariants Samples.noApi Samples.worldAB).
  - reflexivity.
  - split; reflexivity.
Defined.

Lemma unique_lines_NoDup (l : list CartLine.t) :
  unique_lines l = true ->
  NoDup (map (fun item => Product._id (CartLine.product item)) l).
Proof.
  induction l as [| x t IH]; simpl; intros H; [constructor |].
  apply andb_true_iff in H. destruct H as [Hx Ht]. apply negb_true_iff in Hx.
  constructor; [| auto].
  intros Hin. apply in_map_iff in Hin. destruct Hin as (y & Hy & Hin).
  assert (existsb (has_id (Product._id (CartLine.product x))) t = true).
  { apply existsb_exists. exists y. split; [exact Hin |]. unfold has_id.
    rewrite Hy. apply String.eqb_refl. }
  congruence.
Qed.

(** X7: the request the store sends has one entry per cart line, in the
    cart's order, and, for a cart with at most one line per product id, no
    product id twice. *)
Theorem bookingData_names_each_product_once (state : CartState) :
  unique_lines (items state) = true ->
  List.length (BookingRequest.products (bookingData state)) = List.length (items state)
  /\ map BookingRequest.productId (BookingRequest.products (bookingData state))
     = map (fun item => Product._id (CartLine.product item)) (items state)
  /\ NoDup (map BookingRequest.productId (BookingRequest.products (bookingData state))).
Proof.
  intros Hu. cbn [bookingData BookingRequest.products].
  split; [apply length_map |].
  rewrite map_map. cbn [BookingRequest.productId].
  split; [reflexivity | now apply unique_lines_NoDup].
Qed.

Lemma bookingData_names_each_product_once_witness :
  NoDup (map BookingRequest.productId (BookingRequest.products (bookingData Samples.cartAB))).
Proof.
  apply (bookingData_names_each_product_once Samples.cartAB). reflexivity.
Defined.

(** X8: the Cart panel's checkout sends nothing and leaves the store and
    its success flag alone when the user is not authenticated or the cart
    has no items; otherwise it sends exactly the store's request, ends with
    [isCreatingBooking] false, and raises [bookingSuccess] exactly when the
    service call resolved. *)
Theorem handleCreateBooking_guards
    (D : Type) (isAuthenticated : bool) (api : BookingRequest.t -> ApiResult D)
    (w : World) (panel : CartPanel.PanelState) :
  let w' := fst (CartPanel.handleCreateBooking isAuthenticated api w panel) in
  let panel' := snd (CartPanel.handleCreateBooking isAuthenticated api w panel) in
  (isAuthenticated = false \/ items (store w) = [] ->
   w' = w /\ CartPanel.bookingSuccess panel' = CartPanel.bookingSuccess panel)
  /\ (isAuthenticated = true -> items (store w) <> [] ->
      network w' = network w ++ [bookingData (store w)]
      /\ CartPanel.isCreatingBooking panel' = false
      /\ CartPanel.bookingSuccess panel'
         = match api (bookingData (store w)) with
           | Resolved _ => true
           | Rejected _ => CartPanel.bookingSuccess panel
           end).
Proof.
  intros w' panel'. subst w' panel'. unfold CartPanel.handleCreateBooking, createBooking.
  split.
  - intros [-> | Hempty]; [split; reflexivity |].
    rewrite Hempty. destruct isAuthenticated; split; reflexivity.
  - intros -> Hne. cbn [negb].
    destruct (items (store w)) as [| x t] eqn:Hitems; [congruence |].
    cbn [List.length Nat.eqb].
    destruct (api (bookingData (store w))) as [data | error]; cbn; repeat split.
Qed.

Lemma handleCreateBooking_guards_witness :
  fst (CartPanel.handleCreateBooking false Samples.noApi Samples.worldAB
         (CartPanel.mkPanel false false)) = Samples.worldAB
  /\ CartPanel.bookingSuccess
       (snd (CartPanel.handleCreateBooking false Samples.noApi Samples.worldAB
               (CartPanel.mkPanel false false))) = false.
Proof.
  apply (proj1 (handleCreateBooking_guards false Samples.noApi Samples.worldAB
                  (CartPanel.mkPanel false false))).
  left; reflexivity.
Defined.

End CheckoutMore.

(** ** More on the booking route *)

Module RouteMore.
Import UserRoutes BookingSpec RouteFacts.

(** X9: what the handler writes, whichever of the store operations it
    awaits fail.  The catalog is never touched.  A success reply carries
    status 201, the booking it shows is the one appended to the collection,
    and no store operation failed.  A failure reply carries status 400, or
    500 for BOOKING_CREATE_ERROR; after it the database is as it was, except
    when it was the populate step after the save that failed: then the reply
    is 500 although the booking, the one a run without failures returns,
    has been written. *)
Theorem createBooking_writes_once_or_nothing
    (faults : StoreFaults) (userId : string) (req : BookingRequest.t) (db : Database) :
  let response := fst (createBookingWith faults userId req db) in
  let db' := snd (createBookingWith faults userId req db) in
  catalog db' = catalog db
  /\ match body response with
     | Success saved _ =>
         http_status response = 201%Z
         /\ bookings db' = bookings db ++ [saved]
         /\ faults = noFaults
     | Failure _ code =>
         http_status response
         = match code with BOOKING_CREATE_ERROR => 500%Z | _ => 400%Z end
         /\ (populate_rejects faults = false -> db' = db)
         /\ (db' = db
             \/ (code = BOOKING_CREATE_ERROR
                 /\ populate_rejects faults = true
                 /\ exists saved,
                      bookings db' = bookings db ++ [saved]
                      /\ createBooking userId req db
                         = (json 201 (Success saved "Booking created successfully"), db')))
     end.
Proof.
  intros response db'. subst response db'.
  unfold createBooking, createBookingWith, serverError.
  destruct (validationPasses req); cbn [negb]; [| now repeat split; auto].
  destruct (castIds _); [| now repeat split; auto].
  destruct faults as [fr sr pr]. cbn [find_rejects save_rejects populate_rejects noFaults].
  destruct fr; [now repeat split; auto |].
  destruct (List.length _ =? List.length _)%nat; cbn [negb]; [| now repeat split; auto].
  destruct (bookingProducts _ _) as [lines |]; [| now repeat split; auto].
  destruct sr; [now repeat split; auto |].
  destruct (Booking.save _ _) as [[saved stored] |] eqn:Es; [| now repeat split; auto].
  apply BookingFacts.save_inv in Es. destruct Es as (_ & _ & ->).
  destruct pr; cbn.
  - split; [reflexivity |]. split; [reflexivity |]. split; [discriminate |].
    right. split; [reflexivity |]. split; [reflexivity |].
    exists saved. split; reflexivity.
  - repeat split.
Qed.

(** The forged request of the scenarios, when populating the saved booking
    fails: the reply is the 500 error, and the booking is in the
    collection. *)
Example populate_failure_scenario :
  createBookingWith {| find_rejects := false; save_rejects := false; populate_rejects := true |}
    Samples.userId Samples.forgedRequest Samples.db
  = (json 500 (Failure "Failed to create booking" BOOKING_CREATE_ERROR),
     {| catalog := catalog Samples.db; bookings := [Samples.savedForged] |}).
Proof. reflexivity. Qed.

Lemma isInt_min1_false (q : JS.number) :
  JS.ge q 1%float = false \/ JS.Number_isInteger q = false -> isInt_min1 q = false.
Proof.
  unfold isInt_min1. intros [-> | ->].
  - now rewrite andb_false_r.
  - reflexivity.
Qed.

Lemma malformed_fails_validation (req : BookingRequest.t) :
  BookingRequest.products req = []
  \/ (exists line, In line (BookingRequest.products req)
        /\ (Validator.isMongoId (BookingRequest.productId line) = false
            \/ JS.ge (BookingRequest.quantity line) 1%float = false
            \/ JS.Number_isInteger (BookingRequest.quantity line) = false)) ->
  validationPasses req = false.
Proof.
  intros H. unfold validationPasses. destruct H as [-> | (line & Hin & H)]; [reflexivity |].
  destruct H as [Hid | Hq].
  - assert (E : forallb (fun p => Validator.isMongoId (BookingRequest.productId p))
                        (BookingRequest.products req) = false).
    { apply not_true_is_false. intros Hall. rewrite forallb_forall in Hall.
      specialize (Hall line Hin). congruence. }
    rewrite E. now rewrite andb_false_r.
  - assert (E : forallb (fun p => isInt_min1 (BookingRequest.quantity p))
                        (BookingRequest.products req) = false).
    { apply not_true_is_false. intros Hall. rewrite forallb_forall in Hall.
      specialize (Hall line Hin). rewrite (isInt_min1_false Hq) in Hall. discriminate. }
    rewrite E. now rewrite andb_false_r.
Qed.

(** X10: a malformed request is answered 400 VALIDATION_ERROR whatever the
    catalog holds and whichever store operations would fail, and nothing is
    written: so it is for an empty product list, for a line whose product id
    the validator's isMongoId refuses (it accepts 24 characters that are
    hexadecimal digits, or 0x or 0h followed by 22 of them), and for a line
    whose quantity is below 1 or not a whole number. *)
Theorem createBooking_rejects_malformed
    (faults : StoreFaults) (userId : string) (req : BookingRequest.t) (db : Database) :
  BookingRequest.products req = []
  \/ (exists line, In line (BookingRequest.products req)
        /\ (Validator.isMongoId (BookingRequest.productId line) = false
            \/ JS.ge (BookingRequest.quantity line) 1%float = false
            \/ JS.Number_isInteger (BookingRequest.quantity line) = false)) ->
  createBookingWith faults userId req db
  = (json 400 (Failure "Validation failed" VALIDATION_ERROR), db).
Proof.
  intros H. unfold createBookingWith. now rewrite (malformed_fails_validation _ H).
Qed.

Lemma createBooking_rejects_malformed_witness :
  createBooking Samples.userId
    {| BookingRequest.products := [Samples.order Samples.idA 0%float None];
       BookingRequest.totalAmount := None |} Samples.db
  = (json 400 (Failure "Validation failed" VALIDATION_ERROR), Samples.db)
  /\ createBooking Samples.userId
       {| BookingRequest.products := [Samples.order "507f1f77bcf86cd79943901" 1%float None];
          BookingRequest.totalAmount := None |} Samples.db
     = (json 400 (Failure "Validation failed" VALIDATION_ERROR), Samples.db).
Proof.
  split.
  - apply (createBooking_rejects_malformed noFaults Samples.userId
             {| BookingRequest.products := [Samples.order Samples.idA 0%float None];
                BookingRequest.totalAmount := None |} Samples.db).
    right. exists (Samples.order Samples.idA 0%float None).
    split; [left; reflexivity |]. right; left; reflexivity.
  - apply (createBooking_rejects_malformed noFaults Samples.userId
             {| BookingRequest.products :=
                  [Samples.order "507f1f77bcf86cd79943901" 1%float None];
                BookingRequest.totalAmount := None |} Samples.db).
    right. exists (Samples.order "507f1f77bcf86cd79943901" 1%float None).
    split; [left; reflexivity |]. left; reflexivity.
Defined.

(** An id made of 0x and 22 hexadecimal digits passes the validator, and
    the catalog query then fails to cast it: the reply is the 500 error, not
    a validation error. *)
Example prefixed_id_scenario :
  validationPasses
    {| BookingRequest.products := [Samples.order "0x7f1f77bcf86cd799439011" 1%float None];
       BookingRequest.totalAmount := None |} = true
  /\ createBooking Samples.userId
       {| BookingRequest.products := [Samples.order "0x7f1f77bcf86cd799439011" 1%float None];
          BookingRequest.totalAmount := None |} Samples.db
     = serverError Samples.db.
Proof. split; reflexivity. Qed.

Lemma bookingProducts_total products existing :
  (forall r, In r products ->
     exists p, In p existing
               /\ ObjectId.toString (ProductDoc._id p) = BookingRequest.productId r) ->
  exists lines, bookingProducts products existing = Some lines.
Proof.
  induction products as [| r rest IH]; intros H; simpl.
  - now exists [].
  - destruct (find_first _ existing) as [product |] eqn:Ef.
    + destruct IH as [lines ->]; [intros r' Hr'; apply H; now right |].
      eexists. reflexivity.
    + exfalso. destruct (H r (or_introl eq_refl)) as (p & Hp & Hid).
      pose proof (find_none _ _ Ef p Hp) as Hf. cbn beta in Hf.
      rewrite Hid, String.eqb_refl in Hf. discriminate.
Qed.

Lemma found_of_available (ids : list string) catalog id :
  In id ids -> RouteSpec.canonical_id id = true -> available catalog id = true ->
  exists p, In p (Product_find_inStock ids catalog)
            /\ ObjectId.toString (ProductDoc._id p) = id.
Proof.
  intros Hin Hc Hav. unfold RouteSpec.canonical_id in Hc.
  apply andb_true_iff in Hc. destruct Hc as [Hm Hl]. apply String.eqb_eq in Hl.
  unfold available in Hav. apply existsb_exists in Hav. destruct Hav as (p & Hp & H).
  destruct (ObjectId.cast id) as [o |] eqn:Ec; [| discriminate].
  apply andb_true_iff in H. destruct H as [Heq Hstock].
  exists p. split.
  - unfold Product_find_inStock. apply filter_In. split; [exact Hp |].
    apply andb_true_iff. split; [| exact Hstock].
    apply existsb_exists. exists id. split; [exact Hin |]. now rewrite Ec.
  - apply cast_lowercase in Ec. apply String.eqb_eq in Heq.
    unfold ObjectId.toString. congruence.
Qed.

Lemma isInt_min1_valid_quantity q : isInt_min1 q = true -> Booking.valid_quantity q = true.
Proof.
  unfold isInt_min1, Booking.valid_quantity. intros H.
  apply andb_true_iff in H. destruct H as [H _].
  apply andb_true_iff in H. destruct H as [Hi Hg]. now rewrite Hi, Hg.
Qed.

Lemma snapshot_lines_valid catalog ids products lines :
  RouteSpec.priced_catalog catalog = true ->
  forallb (fun p => ObjectId.isHex24 (BookingRequest.productId p)) products = true ->
  forallb (fun p => isInt_min1 (BookingRequest.quantity p)) products = true ->
  Forall2 (snapshot_of (Product_find_inStock ids catalog)) products lines ->
  forallb Booking.valid_line
    (map (fun p => {| Booking.productId := ObjectId.cast (Booking.in_productId p);
                      Booking.quantity := Booking.in_quantity p;
                      Booking.price := Booking.in_price p |}) lines) = true.
Proof.
  intros Hpc Hid Hq HF. induction HF as [| r l rs ls Hrl HF IH]; simpl in *.
  - reflexivity.
  - apply andb_true_iff in Hid. destruct Hid as [Hid Hids].
    apply andb_true_iff in Hq. destruct Hq as [Hq Hqs].
    rewrite (IH Hids Hqs), andb_true_r.
    destruct Hrl as (Ei & Eq & product & Hfind & Eprice).
    unfold Booking.valid_line. cbn [Booking.productId Booking.quantity Booking.price].
    rewrite Ei, Eq, Eprice. unfold ObjectId.cast. rewrite Hid.
    rewrite (isInt_min1_valid_quantity _ Hq). cbn [andb].
    pose proof (find_some _ _ Hfind) as [Hin _].
    apply Product_find_inStock_In in Hin. destruct Hin as [Hin Hstock].
    unfold RouteSpec.priced_catalog in Hpc. rewrite forallb_forall in Hpc.
    specialize (Hpc product Hin). rewrite Hstock in Hpc. exact Hpc.
Qed.

Lemma canonical_castable (products : list BookingRequest.line) :
  forallb (fun r => RouteSpec.canonical_id (BookingRequest.productId r)) products = true ->
  forallb (fun p => ObjectId.isHex24 (BookingRequest.productId p)) products = true.
Proof.
  rewrite !forallb_forall. intros H r Hr. specialize (H r Hr).
  unfold RouteSpec.canonical_id in H. apply andb_true_iff in H. tauto.
Qed.

Lemma forallb_map_ids (f : string -> bool) (products : list BookingRequest.line) :
  forallb f (map BookingRequest.productId products)
  = forallb (fun p => f (BookingRequest.productId p)) products.
Proof. induction products as [| r t IH]; simpl; congruence. Qed.

Lemma well_formed_steps
    (userId : string) (req : BookingRequest.t) (db : Database) :
  validationPasses req = true ->
  forallb (fun r => RouteSpec.canonical_id (BookingRequest.productId r))
          (BookingRequest.products req) = true ->
  NoDup (map BookingRequest.productId (BookingRequest.products req)) ->
  forallb (available (catalog db))
          (map BookingRequest.productId (BookingRequest.products req)) = true ->
  unique_catalog (catalog db) ->
  RouteSpec.priced_catalog (catalog db) = true ->
  ObjectId.isHex24 userId = true ->
  List.length (Product_find_inStock
                 (map BookingRequest.productId (BookingRequest.products req)) (catalog db))
  = List.length (map BookingRequest.productId (BookingRequest.products req))
  /\ exists lines,
       bookingProducts (BookingRequest.products req)
         (Product_find_inStock
            (map BookingRequest.productId (BookingRequest.products req)) (catalog db))
       = Some lines
       /\ Booking.validate (Booking.new (Some userId) lines None) = true.
Proof.
  intros Hv Hc Hnd Hav Hu Hpc Huser.
  set (products := BookingRequest.products req) in *.
  set (ids := map BookingRequest.productId products) in *.
  assert (Hlow : map ObjectId.lowercase ids = ids).
  { unfold ids. clear - Hc. induction products as [| r t IH]; simpl in *; [reflexivity |].
    apply andb_true_iff in Hc. destruct Hc as [Hr Ht].
    unfold RouteSpec.canonical_id in Hr. apply andb_true_iff in Hr. destruct Hr as [_ Hr].
    apply String.eqb_eq in Hr. now rewrite Hr, (IH Ht). }
  split.
  { apply availability_check_passes; fold products; fold ids; [exact Hu | | exact Hav].
    now rewrite Hlow. }
  assert (Hlines : exists lines,
             bookingProducts products (Product_find_inStock ids (catalog db)) = Some lines).
  { apply bookingProducts_total. intros r Hr.
    apply found_of_available.
    - unfold ids. now apply in_map.
    - rewrite forallb_forall in Hc. now apply Hc.
    - rewrite forallb_forall in Hav. apply Hav. unfold ids. now apply in_map. }
  destruct Hlines as [lines Hlines]. exists lines. split; [exact Hlines |].
  pose proof (bookingProducts_snapshot _ _ Hlines) as HF.
  unfold validationPasses in Hv. fold products in Hv.
  apply andb_true_iff in Hv. destruct Hv as [Hv Hqs].
  apply andb_true_iff in Hv. destruct Hv as [Hne _].
  pose proof (canonical_castable _ Hc) as Hids.
  unfold Booking.validate, Booking.new.
  cbn [Booking.userId Booking.products Booking.totalAmount].
  unfold ObjectId.cast at 1. rewrite Huser.
  rewrite (snapshot_lines_valid _ _ Hpc Hids Hqs HF). cbn [andb].
  rewrite length_map, <- (Forall2_length HF).
  destruct products; [discriminate Hne | reflexivity].
Qed.

(** X11: a well-formed request is accepted.  If the request passes
    validation, names each product once, by its id as the server prints it,
    every named product is in stock in a catalog with unique ids and
    schema-conforming prices, and the user id is a valid ObjectId, then the
    reply is 201 and the booking returned is the one appended to the
    collection. *)
Theorem createBooking_accepts_well_formed
    (userId : string) (req : BookingRequest.t) (db : Database) :
  validationPasses req = true ->
  forallb (fun r => RouteSpec.canonical_id (BookingRequest.productId r))
          (BookingRequest.products req) = true ->
  NoDup (map BookingRequest.productId (BookingRequest.products req)) ->
  forallb (available (catalog db))
          (map BookingRequest.productId (BookingRequest.products req)) = true ->
  unique_catalog (catalog db) ->
  RouteSpec.priced_catalog (catalog db) = true ->
  ObjectId.isHex24 userId = true ->
  exists saved,
    createBooking userId req db
    = (json 201 (Success saved "Booking created successfully"),
       {| catalog := catalog db; bookings := bookings db ++ [saved] |}).
Proof.
  intros Hv Hc Hnd Hav Hu Hpc Huser.
  destruct (well_formed_steps userId req db Hv Hc Hnd Hav Hu Hpc Huser)
    as (Hlen & lines & Hlines & Hvalid).
  exists (Booking.preSave (Booking.new (Some userId) lines None)).
  assert (Hids : forallb ObjectId.isHex24
                   (map BookingRequest.productId (BookingRequest.products req)) = true)
    by (rewrite forallb_map_ids; now apply canonical_castable).
  rewrite (@createBooking_steps userId req db Hv Hids). cbv zeta.
  rewrite Hlen, Nat.eqb_refl. cbn [negb]. rewrite Hlines.
  unfold Booking.save. rewrite Hvalid. reflexivity.
Qed.

Lemma createBooking_accepts_well_formed_witness :
  exists saved,
    createBooking Samples.userId Samples.forgedRequest Samples.db
    = (json 201 (Success saved "Booking created successfully"),
       {| catalog := catalog Samples.db; bookings := bookings Samples.db ++ [saved] |}).
Proof.
  apply (createBooking_accepts_well_formed Samples.userId Samples.forgedRequest Samples.db).
  - reflexivity.
  - reflexivity.
  - repeat constructor; simpl; intuition discriminate.
  - reflexivity.
  - repeat constructor; simpl; intuition discriminate.
  - reflexivity.
  - reflexivity.
Defined.

Lemma created_lines userId lines :
  Booking.products (Booking.preSave (Booking.new (Some userId) lines None))
  = map (fun p => {| Booking.productId := ObjectId.cast (Booking.in_productId p);
                     Booking.quantity := Booking.in_quantity p;
                     Booking.price := Booking.in_price p |}) lines.
Proof. now rewrite BookingFacts.preSave_products. Qed.

Lemma snapshot_quantities existing products lines :
  Forall2 (snapshot_of existing) products lines ->
  map Booking.in_quantity lines = map BookingRequest.quantity products.
Proof.
  induction 1 as [| r l rs ls (_ & Hq & _) _ IH]; simpl; [reflexivity | now rewrite Hq, IH].
Qed.

Lemma created_user_id userId req db saved message db' :
  createBooking userId req db = (json 201 (Success saved message), db') ->
  Booking.userId saved = Some (ObjectId.lowercase userId)
  /\ bookings db' = bookings db ++ [saved].
Proof.
  intros H. apply createBooking_created in H.
  destruct H as (lines & _ & -> & Hvalid & ->). split; [| reflexivity].
  unfold Booking.validate in Hvalid.
  apply andb_true_iff in Hvalid. destruct Hvalid as [Hvalid _].
  apply andb_true_iff in Hvalid. destruct Hvalid as [Hvalid _].
  apply andb_true_iff in Hvalid. destruct Hvalid as [Huser _].
  assert (E : Booking.userId (Booking.preSave (Booking.new (Some userId) lines None))
              = ObjectId.cast userId).
  { unfold Booking.preSave. destruct (0 <? List.length _)%nat; reflexivity. }
  rewrite E. cbn [Booking.new Booking.userId] in Huser.
  destruct (ObjectId.cast userId) as [o |] eqn:Ec; [| discriminate].
  now rewrite (cast_lowercase _ Ec).
Qed.

(** X12: every booking the route writes is pending, belongs to the user
    the handler was given, has one line per requested line with the
    requested quantities in order, carries as total the sum over its lines
    of price times quantity, and each of its lines passes the schema's line
    validators. *)
Theorem created_booking_shape
    (userId : string) (req : BookingRequest.t) (db db' : Database)
    (saved : Booking.t) (message : string) :
  createBooking userId req db = (json 201 (Success saved message), db') ->
  Booking.status saved = Booking.pending
  /\ Booking.userId saved = Some (ObjectId.lowercase userId)
  /\ List.length (Booking.products saved) = List.length (BookingRequest.products req)
  /\ map Booking.quantity (Booking.products saved)
     = map BookingRequest.quantity (BookingRequest.products req)
  /\ Booking.totalAmount saved = Some (Meaning.lines_sum (Booking.products saved))
  /\ forallb Booking.valid_line (Booking.products saved) = true.
Proof.
  intros H. pose proof H as H0. apply createBooking_created in H.
  destruct H as (lines & Hl & -> & Hvalid & _).
  apply bookingProducts_snapshot in Hl.
  pose proof (BookingFacts.validate_nonempty _ Hvalid) as Hne.
  unfold Booking.validate in Hvalid.
  apply andb_true_iff in Hvalid. destruct Hvalid as [Hvalid _].
  apply andb_true_iff in Hvalid. destruct Hvalid as [Hvalid _].
  apply andb_true_iff in Hvalid. destruct Hvalid as [Huser Hlines].
  split; [| split; [| split; [| split; [| split]]]].
  - unfold Booking.preSave.
    destruct (0 <? List.length _)%nat; reflexivity.
  - exact (proj1 (created_user_id _ _ _ H0)).
  - rewrite created_lines, length_map. symmetry. exact (Forall2_length Hl).
  - rewrite created_lines, map_map. cbn [Booking.quantity].
    exact (snapshot_quantities Hl).
  - rewrite BookingFacts.preSave_products, <- MeaningFacts.linesTotal_is_lines_sum.
    now apply BookingFacts.preSave_total.
  - rewrite BookingFacts.preSave_products. exact Hlines.
Qed.

Lemma created_booking_shape_witness :
  Booking.status Samples.savedForged = Booking.pending
  /\ Booking.userId Samples.savedForged = Some (ObjectId.lowercase Samples.userId)
  /\ List.length (Booking.products Samples.savedForged)
     = List.length (BookingRequest.products Samples.forgedRequest)
  /\ map Booking.quantity (Booking.products Samples.savedForged)
     = map BookingRequest.quantity (BookingRequest.products Samples.forgedRequest)
  /\ Booking.totalAmount Samples.savedForged
     = Some (Meaning.lines_sum (Booking.products Samples.savedForged))
  /\ forallb Booking.valid_line (Booking.products Samples.savedForged) = true.
Proof.
  assert (H : createBooking Samples.userId Samples.forgedRequest Samples.db
              = (json 201 (Success Samples.savedForged "Booking created successfully"),
                 {| catalog := catalog Samples.db; bookings := [Samples.savedForged] |}))
    by (vm_compute; reflexivity).
  exact (created_booking_shape _ _ _ H).
Defined.

Lemma fold_left_map_quantities {X Y : Type} (f : X -> JS.number) (g : Y -> JS.number)
    (l : list X) (l' : list Y) (acc : JS.number) :
  map f l = map g l' ->
  fold_left (fun total x => JS.add total (f x)) l acc
  = fold_left (fun total y => JS.add total (g y)) l' acc.
Proof.
  revert l' acc. induction l as [| x t IH]; intros [| y t'] acc H; try discriminate.
  - reflexivity.
  - simpl in H. injection H as Hx Ht. simpl. rewrite Hx. now apply IH.
Qed.

(** X13: when the service accepts the request the cart store builds, the
    booking's [totalItems] virtual is the cart's sum of quantities, and the
    booking has one line per cart line. *)
Theorem booking_totalItems_matches_cart
    (userId : string) (state : Cart.CartState) (db db' : Database)
    (saved : Booking.t) (message : string) :
  createBooking userId (Checkout.bookingData state) db
    = (json 201 (Success saved message), db') ->
  Booking.totalItems saved = Cart.sumQuantity (Cart.items state)
  /\ List.length (Booking.products saved) = List.length (Cart.items state).
Proof.
  intros H. apply createBooking_created in H.
  destruct H as (lines & Hl & -> & _ & _).
  apply bookingProducts_snapshot in Hl.
  pose proof (snapshot_quantities Hl) as Hq.
  cbn [Checkout.bookingData BookingRequest.products] in Hq, Hl.
  rewrite map_map in Hq. cbn [BookingRequest.quantity] in Hq.
  split.
  - unfold Booking.totalItems, Cart.sumQuantity, reduce. rewrite created_lines.
    apply fold_left_map_quantities.
    rewrite map_map. cbn [Booking.quantity]. exact Hq.
  - rewrite created_lines, length_map, <- (Forall2_length Hl). apply length_map.
Qed.

Lemma booking_totalItems_matches_cart_witness :
  Booking.totalItems Samples2.savedA3 = Cart.sumQuantity (Cart.items Samples2.cartA3)
  /\ List.length (Booking.products Samples2.savedA3) = List.length (Cart.items Samples2.cartA3).
Proof.
  assert (H : createBooking Samples.userId (Checkout.bookingData Samples2.cartA3) Samples.db
              = (json 201 (Success Samples2.savedA3 "Booking created successfully"),
                 {| catalog := catalog Samples.db; bookings := [Samples2.savedA3] |}))
    by (vm_compute; reflexivity).
  exact (booking_totalItems_matches_cart _ _ _ H).
Defined.

End RouteMore.

(** ** Authentication: the middleware and the client's interceptors *)

Module AuthFacts.
Import Auth.

Lemma startsWith_split (s p : string) :
  JSString.startsWith s p = true ->
  s = String.append p (JSString.slice_from (String.length p) s).
Proof.
  revert s. induction p as [| c p IH]; intros s H; simpl in *.
  - reflexivity.
  - destruct s as [| d r]; [discriminate |].
    apply andb_true_iff in H. destruct H as [Hc Hr].
    apply Ascii.eqb_eq in Hc. subst d. simpl. f_equal. now apply IH.
Qed.

Lemma replace_prefix (s p r : string) :
  JSString.startsWith s p = true ->
  JSString.replace s p r = String.append r (JSString.slice_from (String.length p) s).
Proof. intros H. destruct s; cbn [JSString.replace]; now rewrite H. Qed.

Lemma startsWith_append (p t : string) : JSString.startsWith (String.append p t) p = true.
Proof.
  induction p as [| c p IH]; simpl; [now destruct t |].
  now rewrite Ascii.eqb_refl, IH.
Qed.

Lemma slice_from_append (p t : string) :
  JSString.slice_from (String.length p) (String.append p t) = t.
Proof. induction p as [| c p IH]; simpl; [reflexivity | exact IH]. Qed.

(** The token the middleware reads off a header that starts with
    'Bearer ' is the rest of the header. *)
Lemma token_of_header (token : string) :
  JSString.replace (String.append "Bearer " token) "Bearer " "" = token.
Proof.
  rewrite replace_prefix by apply startsWith_append.
  apply (slice_from_append "Bearer " token).
Qed.

Lemma auth_next_inv
    (verify : string -> VerifyResult) (tokenBlacklist : list string)
    (authHeader : option string) (user : TokenPayload) :
  auth verify tokenBlacklist authHeader = Next user ->
  exists token,
    authHeader = Some (String.append "Bearer " token)
    /\ existsb (String.eqb token) tokenBlacklist = false
    /\ verify token = Decoded user.
Proof.
  unfold auth. intros H. destruct authHeader as [h |]; [| discriminate].
  destruct (JSString.truthy h); cbn [negb orb] in H; [| discriminate].
  destruct (JSString.startsWith h "Bearer ") eqn:Hs; cbn [negb] in H; [| discriminate].
  rewrite (@replace_prefix h "Bearer " "" Hs) in H. cbn [String.append] in H.
  set (token := JSString.slice_from (String.length "Bearer ") h) in *.
  destruct (existsb (String.eqb token) tokenBlacklist) eqn:Hb; [discriminate |].
  destruct (verify token) as [decoded | name] eqn:Hv.
  - injection H as <-. exists token. split; [| split; [exact Hb | exact Hv]].
    f_equal. exact (@startsWith_split h "Bearer " Hs).
  - destruct (String.eqb name "JsonWebTokenError"); [discriminate |].
    destruct (String.eqb name "TokenExpiredError"); discriminate.
Qed.

(** X14: the middleware lets a request through only when its
    Authorization header is 'Bearer ' followed by a token that is not
    blacklisted and that verification decodes, and then hands on exactly the
    decoded payload; any other request is answered with status 401, or 500
    with AUTH_ERROR. *)
Theorem auth_passes_only_verified_tokens
    (verify : string -> VerifyResult) (tokenBlacklist : list string)
    (authHeader : option string) :
  (forall user,
      auth verify tokenBlacklist authHeader = Next user ->
      exists token,
        authHeader = Some (String.append "Bearer " token)
        /\ existsb (String.eqb token) tokenBlacklist = false
        /\ verify token = Decoded user)
  /\ (forall status message code,
        auth verify tokenBlacklist authHeader = Reply (deny status message code) ->
        (status = 401%Z /\ code <> AUTH_ERROR) \/ (status = 500%Z /\ code = AUTH_ERROR)).
Proof.
  split.
  - intros user. apply auth_next_inv.
  - unfold auth. intros status message code H. destruct authHeader as [h |].
    + destruct (negb (JSString.truthy h) || negb (JSString.startsWith h "Bearer ")).
      { injection H as <- _ <-. left. split; [reflexivity | discriminate]. }
      destruct (existsb _ tokenBlacklist).
      { injection H as <- _ <-. left. split; [reflexivity | discriminate]. }
      destruct (verify _) as [decoded | name]; [discriminate |].
      destruct (String.eqb name "JsonWebTokenError").
      { injection H as <- _ <-. left. split; [reflexivity | discriminate]. }
      destruct (String.eqb name "TokenExpiredError").
      { injection H as <- _ <-. left. split; [reflexivity | discriminate]. }
      injection H as <- _ <-. right. split; reflexivity.
    + injection H as <- _ <-. left. split; [reflexivity | discriminate].
Qed.

Lemma auth_passes_only_verified_tokens_witness :
  exists token,
    Some "Bearer good"%string = Some (String.append "Bearer " token)
    /\ existsb (String.eqb token) ["revoked"%string] = false
    /\ Samples2.verify token = Decoded Samples2.payload.
Proof.
  apply (proj1 (auth_passes_only_verified_tokens Samples2.verify ["revoked"%string]
                  (Some "Bearer good"%string)) Samples2.payload).
  reflexivity.
Defined.

(** X15: the server reads back the token the client stored.  With a
    non-empty token in local storage, the header the request interceptor
    sets is answered TOKEN_BLACKLISTED if that very token is blacklisted,
    and otherwise passes with the payload whenever verification decodes that
    token; with no token, or an empty one, no header is set and the answer
    is NO_TOKEN. *)
Theorem stored_token_reaches_verification
    (verify : string -> VerifyResult) (tokenBlacklist : list string)
    (storage : ApiClient.LocalStorage) :
  (forall t, ApiClient.token storage = Some t -> t <> EmptyString ->
     ApiClient.authorizationHeader storage = Some (String.append "Bearer " t)
     /\ (existsb (String.eqb t) tokenBlacklist = true ->
         auth verify tokenBlacklist (ApiClient.authorizationHeader storage)
         = Reply (deny 401 "Token has been invalidated" TOKEN_BLACKLISTED))
     /\ (forall user,
           existsb (String.eqb t) tokenBlacklist = false ->
           verify t = Decoded user ->
           auth verify tokenBlacklist (ApiClient.authorizationHeader storage) = Next user))
  /\ (ApiClient.token storage = None \/ ApiClient.token storage = Some EmptyString ->
      ApiClient.authorizationHeader storage = None
      /\ auth verify tokenBlacklist (ApiClient.authorizationHeader storage)
         = Reply (deny 401 "Access denied. No token provided." NO_TOKEN)).
Proof.
  split.
  - intros t Ht Hne. unfold ApiClient.authorizationHeader. rewrite Ht.
    destruct t as [| c r]; [congruence |]. cbn [JSString.truthy].
    split; [reflexivity |].
    unfold auth.
    replace (JSString.truthy (String.append "Bearer " (String c r))) with true by reflexivity.
    rewrite startsWith_append. cbn [negb orb]. rewrite token_of_header.
    split.
    + intros Hb. now rewrite Hb.
    + intros user Hb Hv. now rewrite Hb, Hv.
  - intros H. unfold ApiClient.authorizationHeader.
    destruct H as [-> | ->]; split; reflexivity.
Qed.

Lemma stored_token_reaches_verification_witness :
  auth Samples2.verify ["revoked"%string] (ApiClient.authorizationHeader Samples2.storage)
  = Next Samples2.payload.
Proof.
  apply (proj2 (proj2 (proj1 (stored_token_reaches_verification
                                Samples2.verify ["revoked"%string] Samples2.storage)
                             "good"%string eq_refl ltac:(discriminate)))).
  - reflexivity.
  - reflexivity.
Defined.

Lemma not_401 (X : Type) (status : option Z) (a b : X) :
  status <> Some 401%Z ->
  match status with Some 401%Z => a | _ => b end = b.
Proof.
  intros Hne. destruct status as [[| p | p] |]; try reflexivity.
  destruct (Pos.eq_dec p 401) as [-> | Hp]; [congruence |].
  do 9 (destruct p as [p | p |]; try reflexivity). congruence.
Qed.

(** X16: a 401 reply logs the client out: the response interceptor
    removes the token and the user entry, keeps the saved cart, and sends
    the page to the login screen, so that the next request carries no
    Authorization header and the middleware answers it NO_TOKEN; any other
    failure leaves local storage as it is. *)
Theorem unauthorized_reply_logs_out
    (verify : string -> VerifyResult) (tokenBlacklist : list string)
    (status : option Z) (storage : ApiClient.LocalStorage) :
  let storage' := fst (ApiClient.onResponseError status storage) in
  let redirected := snd (ApiClient.onResponseError status storage) in
  (status = Some 401%Z ->
   ApiClient.authorizationHeader storage' = None
   /\ auth verify tokenBlacklist (ApiClient.authorizationHeader storage')
      = Reply (deny 401 "Access denied. No token provided." NO_TOKEN)
   /\ ApiClient.user storage' = None
   /\ ApiClient.cart storage' = ApiClient.cart storage
   /\ redirected = true)
  /\ (status <> Some 401%Z -> storage' = storage /\ redirected = false).
Proof.
  intros storage' redirected. subst storage' redirected. split.
  - intros ->. repeat split.
  - intros Hne. unfold ApiClient.onResponseError.
    rewrite (not_401 _ _ Hne). split; reflexivity.
Qed.

Lemma unauthorized_reply_logs_out_witness :
  auth Samples2.verify []
    (ApiClient.authorizationHeader
       (fst (ApiClient.onResponseError (Some 401%Z) Samples2.storage)))
  = Reply (deny 401 "Access denied. No token provided." NO_TOKEN).
Proof.
  apply (proj1 (unauthorized_reply_logs_out Samples2.verify [] (Some 401%Z) Samples2.storage)).
  reflexivity.
Defined.

End AuthFacts.

(** ** The whole path: cart, client, middleware, route, model *)

Module EndToEnd.
Import UserRoutes BookingSpec RouteFacts RouteMore.

(** X17: behind the middleware, the database changes only for a request
    whose header carries a token that is not blacklisted and that
    verification decodes; a denied request leaves it as it was; and every
    booking written belongs to the user named in the decoded token. *)
Theorem postBookings_writes_only_for_verified_user
    (verify : string -> Auth.VerifyResult) (tokenBlacklist : list string)
    (authHeader : option string) (body : BookingRequest.t) (db : Database) :
  let reply := fst (UserRouter.postBookings verify tokenBlacklist authHeader body db) in
  let db' := snd (UserRouter.postBookings verify tokenBlacklist authHeader body db) in
  (forall denial, reply = inl denial -> db' = db)
  /\ (db' <> db ->
      exists token user,
        authHeader = Some (String.append "Bearer " token)
        /\ existsb (String.eqb token) tokenBlacklist = false
        /\ verify token = Auth.Decoded user)
  /\ (forall saved message,
        reply = inr (json 201 (Success saved message)) ->
        exists token user,
          authHeader = Some (String.append "Bearer " token)
          /\ verify token = Auth.Decoded user
          /\ Booking.userId saved = Some (ObjectId.lowercase (Auth.userId user))
          /\ bookings db' = bookings db ++ [saved]).
Proof.
  intros reply db'. subst reply db'. unfold UserRouter.postBookings.
  destruct (Auth.auth verify tokenBlacklist authHeader) as [user | denial] eqn:Ha.
  - apply AuthFacts.auth_next_inv in Ha. destruct Ha as (token & Hh & Hb & Hv).
    destruct (createBooking (Auth.userId user) body db) as [response db1] eqn:Ec.
    cbn [fst snd]. split; [discriminate |]. split.
    + intros _. now exists token, user.
    + intros saved message [= ->].
      destruct (created_user_id _ _ _ Ec) as [Hu Hd].
      now exists token, user.
  - cbn [fst snd]. split; [reflexivity |]. split; [congruence | discriminate].
Qed.

Lemma postBookings_writes_only_for_verified_user_witness :
  exists token user,
    Some "Bearer good"%string = Some (String.append "Bearer " token)
    /\ Samples2.verify token = Auth.Decoded user
    /\ Booking.userId Samples.savedForged = Some (ObjectId.lowercase (Auth.userId user))
    /\ bookings (snd (UserRouter.postBookings Samples2.verify [] (Some "Bearer good"%string)
                        Samples.forgedRequest Samples.db))
       = bookings Samples.db ++ [Samples.savedForged].
Proof.
  apply (proj2 (proj2 (postBookings_writes_only_for_verified_user
                         Samples2.verify [] (Some "Bearer good"%string)
                         Samples.forgedRequest Samples.db))
           Samples.savedForged "Booking created successfully"%string).
  vm_compute. reflexivity.
Defined.

Lemma bookable_cart_validates (state : Cart.CartState) :
  Cart.items state <> [] ->
  forallb Wire.bookable_line (Cart.items state) = true ->
  validationPasses (Checkout.bookingData state) = true
  /\ forallb (fun r => RouteSpec.canonical_id (BookingRequest.productId r))
             (BookingRequest.products (Checkout.bookingData state)) = true.
Proof.
  intros Hne Hb. unfold validationPasses.
  cbn [Checkout.bookingData BookingRequest.products]. rewrite length_map.
  assert (Hlen : (1 <=? List.length (Cart.items state))%nat = true)
    by (destruct (Cart.items state); [congruence | reflexivity]).
  rewrite Hlen. clear Hlen Hne.
  assert (H : forallb (fun p => Validator.isMongoId (BookingRequest.productId p))
                (map (fun item =>
                        {| BookingRequest.productId := Product._id (CartLine.product item);
                           BookingRequest.quantity := CartLine.quantity item;
                           BookingRequest.price := Some (CartLine.price item) |})
                     (Cart.items state)) = true
              /\ forallb (fun p => isInt_min1 (BookingRequest.quantity p))
                   (map (fun item =>
                           {| BookingRequest.productId := Product._id (CartLine.product item);
                              BookingRequest.quantity := CartLine.quantity item;
                              BookingRequest.price := Some (CartLine.price item) |})
                        (Cart.items state)) = true
              /\ forallb (fun r => RouteSpec.canonical_id (BookingRequest.productId r))
                   (map (fun item =>
                           {| BookingRequest.productId := Product._id (CartLine.product item);
                              BookingRequest.quantity := CartLine.quantity item;
                              BookingRequest.price := Some (CartLine.price item) |})
                        (Cart.items state)) = true).
  { induction (Cart.items state) as [| y u IH]; simpl in *; [auto |].
    apply andb_true_iff in Hb. destruct Hb as [Hy Hu].
    destruct (IH Hu) as (I1 & I2 & I3). rewrite I1, I2, I3.
    unfold Wire.bookable_line in Hy. apply andb_true_iff in Hy. destruct Hy as [Hc Hq].
    rewrite Hc, Hq. unfold RouteSpec.canonical_id in Hc.
    apply andb_true_iff in Hc. destruct Hc as [Hc _].
    rewrite (isHex24_isMongoId _ Hc). auto. }
  destruct H as (H1 & H2 & H3). rewrite H1, H2, H3. split; reflexivity.
Qed.

Lemma forallb_available_ids catalog (l : list CartLine.t) :
  forallb (available catalog)
    (map BookingRequest.productId
       (map (fun item =>
               {| BookingRequest.productId := Product._id (CartLine.product item);
                  BookingRequest.quantity := CartLine.quantity item;
                  BookingRequest.price := Some (CartLine.price item) |}) l))
  = forallb (fun item => available catalog (Product._id (CartLine.product item))) l.
Proof. induction l as [| x t IH]; simpl; congruence. Qed.

(** X18: a well-formed cart is booked for a valid user.  If the cart is
    not empty, has at most one line per product, every line names its
    product by the id the server prints (24 hexadecimal digits, letters in
    lower case) and has a whole quantity of at least 1 and below 1e21, every
    product is in stock in a catalog with unique ids and schema-conforming
    prices, and the user id is 24 hexadecimal digits, then the service
    answers the store's request with 201 and appends one booking, with one
    line per cart line. *)
Theorem well_formed_cart_is_booked
    (userId : string) (state : Cart.CartState) (db : Database) :
  Cart.items state <> [] ->
  CartSpec.unique_lines (Cart.items state) = true ->
  forallb Wire.bookable_line (Cart.items state) = true ->
  forallb (fun item => available (catalog db) (Product._id (CartLine.product item)))
          (Cart.items state) = true ->
  unique_catalog (catalog db) ->
  RouteSpec.priced_catalog (catalog db) = true ->
  ObjectId.isHex24 userId = true ->
  exists saved,
    createBooking userId (Checkout.bookingData state) db
    = (json 201 (Success saved "Booking created successfully"),
       {| catalog := catalog db; bookings := bookings db ++ [saved] |})
    /\ List.length (Booking.products saved) = List.length (Cart.items state).
Proof.
  intros Hne Hu Hb Hav Hcat Hpc Huser.
  destruct (bookable_cart_validates state Hne Hb) as [Hv Hc].
  assert (Hnd : NoDup (map BookingRequest.productId
                         (BookingRequest.products (Checkout.bookingData state)))).
  { cbn [Checkout.bookingData BookingRequest.products]. rewrite map_map.
    cbn [BookingRequest.productId]. now apply CheckoutMore.unique_lines_NoDup. }
  assert (Hav' : forallb (available (catalog db))
                   (map BookingRequest.productId
                      (BookingRequest.products (Checkout.bookingData state))) = true).
  { cbn [Checkout.bookingData BookingRequest.products].
    now rewrite forallb_available_ids. }
  destruct (well_formed_steps userId (Checkout.bookingData state) db
              Hv Hc Hnd Hav' Hcat Hpc Huser) as (Hlen & lines & Hlines & Hvalid).
  exists (Booking.preSave (Booking.new (Some userId) lines None)). split.
  - assert (Hids : forallb ObjectId.isHex24
                     (map BookingRequest.productId
                        (BookingRequest.products (Checkout.bookingData state))) = true)
      by (rewrite forallb_map_ids; now apply canonical_castable).
    rewrite (@createBooking_steps userId (Checkout.bookingData state) db Hv Hids). cbv zeta.
    rewrite Hlen, Nat.eqb_refl. cbn [negb]. rewrite Hlines.
    unfold Booking.save. rewrite Hvalid. reflexivity.
  - apply bookingProducts_snapshot in Hlines.
    rewrite created_lines, length_map, <- (Forall2_length Hlines).
    cbn [Checkout.bookingData BookingRequest.products]. apply length_map.
Qed.

Lemma well_formed_cart_is_booked_witness :
  exists saved,
    createBooking Samples.userId (Checkout.bookingData Samples2.cartA3) Samples.db
    = (json 201 (Success saved "Booking created successfully"),
       {| catalog := catalog Samples.db; bookings := bookings Samples.db ++ [saved] |})
    /\ List.length (Booking.products saved) = List.length (Cart.items Samples2.cartA3).
Proof.
  apply (well_formed_cart_is_booked Samples.userId Samples2.cartA3 Samples.db).
  - vm_compute. discriminate.
  - reflexivity.
  - reflexivity.
  - reflexivity.
  - repeat constructor; simpl; intuition discriminate.
  - reflexivity.
  - reflexivity.
Defined.

(** X19: a cart with a line the validators refuse is refused as a whole:
    if some line's product id fails the validator's isMongoId (it is neither
    24 hexadecimal digits nor 0x or 0h followed by 22 of them), or its
    quantity is below 1 or not a whole number, the store's request is
    answered 400 VALIDATION_ERROR and nothing is written, whatever else is
    in the cart. *)
Theorem cart_with_unbookable_line_is_refused
    (userId : string) (state : Cart.CartState) (db : Database) (item : CartLine.t) :
  In item (Cart.items state) ->
  Validator.isMongoId (Product._id (CartLine.product item)) = false
  \/ JS.ge (CartLine.quantity item) 1%float = false
  \/ JS.Number_isInteger (CartLine.quantity item) = false ->
  createBooking userId (Checkout.bookingData state) db
  = (json 400 (Failure "Validation failed" VALIDATION_ERROR), db).
Proof.
  intros Hin Hbad. unfold createBooking, createBookingWith.
  rewrite (@malformed_fails_validation (Checkout.bookingData state)); [reflexivity |].
  right.
  exists {| BookingRequest.productId := Product._id (CartLine.product item);
            BookingRequest.quantity := CartLine.quantity item;
            BookingRequest.price := Some (CartLine.price item) |}.
  split; [| exact Hbad].
  cbn [Checkout.bookingData BookingRequest.products].
  apply in_map_iff. exists item. split; [reflexivity | exact Hin].
Qed.

Lemma cart_with_unbookable_line_is_refused_witness :
  createBooking Samples.userId (Checkout.bookingData Samples.cartAB) Samples.db
  = (json 400 (Failure "Validation failed" VALIDATION_ERROR), Samples.db).
Proof.
  apply (cart_with_unbookable_line_is_refused Samples.userId Samples.cartAB Samples.db
           Samples.lineB).
  - right; left; reflexivity.
  - left; reflexivity.
Defined.

Lemma createBooking_reply_cases (userId : string) (req : BookingRequest.t) db :
  (exists saved,
      fst (createBooking userId req db)
      = json 201 (Success saved "Booking created successfully"))
  \/ fst (createBooking userId req db) = json 400 (Failure "Validation failed" VALIDATION_ERROR)
  \/ fst (createBooking userId req db) = notAvailable
  \/ fst (createBooking userId req db)
     = json 500 (Failure "Failed to create booking" BOOKING_CREATE_ERROR).
Proof.
  unfold createBooking, createBookingWith, serverError.
  destruct (validationPasses req); cbn [negb]; [| now right; left].
  destruct (castIds _); [| now right; right; right].
  cbn [find_rejects save_rejects populate_rejects noFaults].
  destruct (List.length _ =? List.length _)%nat; cbn [negb]; [| now right; right; left].
  destruct (bookingProducts _ _) as [lines |]; [| now right; right; right].
  destruct (Booking.save _ _) as [[saved stored] |]; [| now right; right; right].
  left. now exists saved.
Qed.

Lemma auth_denial_cases verify tokenBlacklist authHeader denial :
  Auth.auth verify tokenBlacklist authHeader = Auth.Reply denial ->
  In denial
    [ Auth.deny 401 "Access denied. No token provided." Auth.NO_TOKEN;
      Auth.deny 401 "Token has been invalidated" Auth.TOKEN_BLACKLISTED;
      Auth.deny 401 "Invalid token" Auth.INVALID_TOKEN;
      Auth.deny 401 "Token has expired" Auth.TOKEN_EXPIRED;
      Auth.deny 500 "Authentication failed" Auth.AUTH_ERROR ].
Proof.
  unfold Auth.auth. intros H. destruct authHeader as [h |].
  - destruct (negb (JSString.truthy h) || negb (JSString.startsWith h "Bearer ")).
    { injection H as <-. simpl; auto. }
    destruct (existsb _ tokenBlacklist).
    { injection H as <-. simpl; auto. }
    destruct (verify _) as [decoded | name]; [discriminate |].
    destruct (String.eqb name "JsonWebTokenError").
    { injection H as <-. simpl; auto. }
    destruct (String.eqb name "TokenExpiredError"); injection H as <-; simpl; auto 6.
  - injection H as <-. simpl; auto.
Qed.

(** X20: checkout against this server.  For a cart with items, the store
    empties the cart when the server's reply is a success, and the promise
    is fulfilled with that reply; on any other reply, from the middleware or
    from the handler, the cart keeps its items and [error] holds the message
    of that reply. *)
Theorem checkout_against_server
    (verify : string -> Auth.VerifyResult) (tokenBlacklist : list string)
    (storage : ApiClient.LocalStorage) (db : Database) (w : Checkout.World) :
  Cart.items (Checkout.store w) <> [] ->
  let reply :=
    fst (UserRouter.postBookings verify tokenBlacklist
           (ApiClient.authorizationHeader storage)
           (Checkout.bookingData (Checkout.store w)) db) in
  let run :=
    Checkout.createBooking (Wire.userAPI_createBooking verify tokenBlacklist storage db) w in
  match reply with
  | inl denial =>
      Cart.items (Checkout.store (fst run)) = Cart.items (Checkout.store w)
      /\ Cart.error (Checkout.store (fst run)) = Some (Auth.message denial)
  | inr response =>
      match body response with
      | Success _ _ =>
          Cart.items (Checkout.store (fst run)) = []
          /\ snd run = Checkout.ReturnsPromise (Checkout.FulfilledWith reply)
      | Failure message _ =>
          Cart.items (Checkout.store (fst run)) = Cart.items (Checkout.store w)
          /\ Cart.error (Checkout.store (fst run)) = Some message
      end
  end.
Proof.
  intros Hne reply run. subst run. unfold Checkout.createBooking.
  destruct (Cart.items (Checkout.store w)) as [| x t] eqn:Hitems; [congruence |].
  cbn [List.length Nat.eqb]. unfold Wire.userAPI_createBooking. fold reply.
  subst reply. unfold UserRouter.postBookings.
  destruct (Auth.auth verify tokenBlacklist (ApiClient.authorizationHeader storage))
    as [user | denial] eqn:Ha.
  - pose proof (createBooking_reply_cases (Auth.userId user)
                  (Checkout.bookingData (Checkout.store w)) db) as Hcases.
    destruct (createBooking (Auth.userId user) (Checkout.bookingData (Checkout.store w)) db)
      as [response db1].
    cbn [fst] in *.
    destruct Hcases as [[saved ->] | [-> | [-> | ->]]]; cbn; rewrite ?Hitems; split; reflexivity.
  - cbn [fst]. apply auth_denial_cases in Ha. cbn [In] in Ha.
    destruct Ha as [<- | [<- | [<- | [<- | [<- | []]]]]]; cbn; rewrite ?Hitems; split; reflexivity.
Qed.

Lemma checkout_against_server_witness :
  Cart.items (Checkout.store Samples.worldAB) <> []
  /\ Cart.items
       (Checkout.store
          (fst (Checkout.createBooking
                  (Wire.userAPI_createBooking Samples2.verify [] Samples2.storage Samples.db)
                  Samples.worldAB)))
     = Cart.items Samples.cartAB
  /\ Cart.error
       (Checkout.store
          (fst (Checkout.createBooking
                  (Wire.userAPI_createBooking Samples2.verify [] Samples2.storage Samples.db)
                  Samples.worldAB)))
     = Some "Validation failed"%string.
Proof.
  assert (H : Cart.items (Checkout.store Samples.worldAB) <> []) by (vm_compute; discriminate).
  split; [exact H |].
  exact (checkout_against_server Samples2.verify [] Samples2.storage Samples.db
           Samples.worldAB H).
Defined.

End EndToEnd.

(** ** More on the Booking model *)

Module BookingMore.
Import Booking.




End BookingMore.

(** ** The availability check, exactly *)

Module AvailabilityFacts.
Import UserRoutes BookingSpec RouteFacts.

Lemma nodup_shorter (l : list string) :
  ~ NoDup l -> (List.length (nodup string_dec l) < List.length l)%nat.
Proof.
  induction l as [| x t IH]; intros H.
  - exfalso. apply H. constructor.
  - simpl. destruct (in_dec string_dec x t) as [Hin | Hnin].
    + pose proof (nodup_length_le t). lia.
    + simpl. apply -> Nat.succ_lt_mono. apply IH.
      intros Hnd. apply H. now constructor.
Qed.

Lemma available_of_found (ids : list string) catalog id :
  ObjectId.isHex24 id = true ->
  In (ObjectId.lowercase id) (map ProductDoc._id (Product_find_inStock ids catalog)) ->
  available catalog id = true.
Proof.
  intros Hm Hin. apply in_map_iff in Hin. destruct Hin as (p & Hid & Hp).
  apply Product_find_inStock_In in Hp. destruct Hp as [Hp Hstock].
  unfold available. apply existsb_exists. exists p. split; [exact Hp |].
  unfold ObjectId.cast. rewrite Hm, Hstock, andb_true_r.
  unfold ObjectId.eqb. rewrite Hid. apply String.eqb_refl.
Qed.

Lemma unavailable_found_fewer (ids : list string) catalog id :
  unique_catalog catalog ->
  In id ids -> ObjectId.isHex24 id = true -> available catalog id = false ->
  (List.length (Product_find_inStock ids catalog) < List.length (distinct_ids ids))%nat.
Proof.
  intros Hu Hin Hm Hav.
  rewrite <- (length_map ProductDoc._id).
  destruct (Nat.lt_ge_cases
              (List.length (map ProductDoc._id (Product_find_inStock ids catalog)))
              (List.length (distinct_ids ids))) as [Hlt | Hge]; [exact Hlt |].
  exfalso.
  assert (Hincl : incl (distinct_ids ids)
                       (map ProductDoc._id (Product_find_inStock ids catalog))).
  { apply NoDup_length_incl.
    - now apply found_ids_NoDup.
    - exact Hge.
    - apply found_ids_incl. }
  assert (Hid : In (ObjectId.lowercase id) (distinct_ids ids)).
  { unfold distinct_ids. apply nodup_In. now apply in_map. }
  apply Hincl in Hid. rewrite (@available_of_found ids catalog id Hm Hid) in Hav.
  discriminate.
Qed.

Lemma available_castable catalog id :
  available catalog id = true -> ObjectId.isHex24 id = true.
Proof.
  unfold available, ObjectId.cast. intros H. apply existsb_exists in H.
  destruct H as (p & _ & H). destruct (ObjectId.isHex24 id); [reflexivity | discriminate].
Qed.

Lemma all_available_castable catalog (ids : list string) :
  forallb (available catalog) ids = true -> forallb ObjectId.isHex24 ids = true.
Proof.
  rewrite !forallb_forall. intros H id Hin. eapply available_castable. now apply H.
Qed.

(** X22: what the availability check decides.  For a request that passes
    validation, against a catalog with unique ids: if every requested id is
    24 hexadecimal digits, the reply is PRODUCTS_NOT_AVAILABLE exactly when
    some requested product is missing or out of stock, or some product is
    named on more than one line; if some id is not (the validator also lets
    through 0x or 0h followed by 22 hexadecimal digits), the catalog query
    cannot cast it and the reply is 500 BOOKING_CREATE_ERROR.  Nothing is
    written in either case. *)
Theorem availability_check_exactly
    (userId : string) (req : BookingRequest.t) (db : Database) :
  validationPasses req = true ->
  unique_catalog (catalog db) ->
  let ids := map BookingRequest.productId (BookingRequest.products req) in
  (createBooking userId req db = (notAvailable, db)
   <-> forallb ObjectId.isHex24 ids = true
       /\ (forallb (available (catalog db)) ids = false
           \/ ~ NoDup (map ObjectId.lowercase ids)))
  /\ (forallb ObjectId.isHex24 ids = false ->
      createBooking userId req db
      = (json 500 (Failure "Failed to create booking" BOOKING_CREATE_ERROR), db)).
Proof.
  intros Hv Hu ids. split; [split |].
  - intros Hreply.
    destruct (forallb ObjectId.isHex24 ids) eqn:Hc.
    2:{ unfold createBooking in Hreply.
        rewrite (@createBooking_cast_error noFaults userId req db Hv Hc) in Hreply.
        discriminate Hreply. }
    split; [reflexivity |].
    destruct (forallb (available (catalog db)) ids) eqn:Hav; [| now left].
    right. intros Hnd.
    pose proof (@availability_check_passes req db Hu Hnd Hav) as Hlen. fold ids in Hlen.
    revert Hreply. rewrite (@createBooking_steps userId req db Hv Hc). cbv zeta.
    unfold serverError, notAvailable.
    fold ids. rewrite Hlen, Nat.eqb_refl. cbn [negb].
    destruct (bookingProducts _ _) as [lines |]; [| discriminate].
    destruct (Booking.save _ _) as [[saved stored] |]; discriminate.
  - intros [Hc [Hav | Hdup]].
    + apply createBooking_rejects_unavailable; [exact Hv | exact Hc |]. fold ids.
      assert (Hex : exists id, In id ids /\ available (catalog db) id = false).
      { clear - Hav. induction ids as [| id t IH]; simpl in Hav; [discriminate |].
        destruct (available (catalog db) id) eqn:E.
        - destruct (IH Hav) as (id' & Hin & Hid'). exists id'. split; [now right | exact Hid'].
        - exists id. split; [now left | exact E]. }
      destruct Hex as (id & Hin & Hid).
      apply (@unavailable_found_fewer ids (catalog db) id Hu Hin); [| exact Hid].
      rewrite forallb_forall in Hc. now apply Hc.
    + apply createBooking_rejects_repeated; [exact Hv | exact Hc | exact Hu |]. fold ids.
      rewrite <- (length_map BookingRequest.productId). fold ids.
      rewrite <- (length_map ObjectId.lowercase ids).
      unfold distinct_ids. now apply nodup_shorter.
  - intros Hc. unfold createBooking.
    exact (@createBooking_cast_error noFaults userId req db Hv Hc).
Qed.

Lemma availability_check_exactly_witness :
  createBooking Samples.userId Samples.outOfStockRequest Samples.db
  = (notAvailable, Samples.db)
  /\ createBooking Samples.userId
       {| BookingRequest.products := [Samples.order "0x7f1f77bcf86cd799439011" 1%float None];
          BookingRequest.totalAmount := None |} Samples.db
     = (json 500 (Failure "Failed to create booking" BOOKING_CREATE_ERROR), Samples.db).
Proof.
  split.
  - apply (proj2 (proj1 (availability_check_exactly Samples.userId Samples.outOfStockRequest
                           Samples.db eq_refl
                           ltac:(repeat constructor; simpl; intuition discriminate)))).
    split; [reflexivity |]. left. reflexivity.
  - apply (proj2 (availability_check_exactly Samples.userId
                    {| BookingRequest.products :=
                         [Samples.order "0x7f1f77bcf86cd799439011" 1%float None];
                       BookingRequest.totalAmount := None |}
                    Samples.db eq_refl
                    ltac:(repeat constructor; simpl; intuition discriminate))).
    reflexivity.
Defined.

Lemma bookingProducts_fails products existing r :
  In r products ->
  find_first (fun p => String.eqb (ObjectId.toString (ProductDoc._id p))
                                  (BookingRequest.productId r)) existing = None ->
  bookingProducts products existing = None.
Proof.
  induction products as [| x t IH]; intros Hin Hf; [contradiction |].
  simpl. destruct Hin as [-> | Hin].
  - now rewrite Hf.
  - rewrite (IH Hin Hf).
    destruct (find_first
                (fun p => String.eqb (ObjectId.toString (ProductDoc._id p))
                                     (BookingRequest.productId x)) existing);
      reflexivity.
Qed.

(** X23: a product id written with capital hexadecimal digits defeats the
    price lookup.  If a request passes validation and the availability
    check (every product available, none repeated) but names some product
    by an id that is not in the printed lower-case form, while the catalog's
    ids are, then the handler ends in its catch block: the reply is 500
    BOOKING_CREATE_ERROR and nothing is written. *)
Theorem capital_id_ends_in_server_error
    (userId : string) (req : BookingRequest.t) (db : Database) (r : BookingRequest.line) :
  validationPasses req = true ->
  unique_catalog (catalog db) ->
  CatalogSpec.canonical_catalog (catalog db) = true ->
  NoDup (map ObjectId.lowercase
           (map BookingRequest.productId (BookingRequest.products req))) ->
  forallb (available (catalog db))
          (map BookingRequest.productId (BookingRequest.products req)) = true ->
  In r (BookingRequest.products req) ->
  ObjectId.lowercase (BookingRequest.productId r) <> BookingRequest.productId r ->
  createBooking userId req db
  = (json 500 (Failure "Failed to create booking" BOOKING_CREATE_ERROR), db).
Proof.
  intros Hv Hu Hcc Hnd Hav Hr Hcap.
  pose proof (@availability_check_passes req db Hu Hnd Hav) as Hlen.
  rewrite (@createBooking_steps userId req db Hv (all_available_castable _ _ Hav)).
  cbv zeta. unfold serverError.
  rewrite Hlen, Nat.eqb_refl. cbn [negb].
  rewrite (@bookingProducts_fails (BookingRequest.products req) _ r Hr); [reflexivity |].
  destruct (find_first _ _) as [p |] eqn:Ef; [| reflexivity].
  exfalso. pose proof (find_some _ _ Ef) as [Hin Heq].
  apply Product_find_inStock_In in Hin. destruct Hin as [Hin _].
  unfold CatalogSpec.canonical_catalog in Hcc. rewrite forallb_forall in Hcc.
  specialize (Hcc p Hin). apply String.eqb_eq in Hcc. apply String.eqb_eq in Heq.
  unfold ObjectId.toString in Heq. apply Hcap. now rewrite <- Heq.
Qed.

Lemma capital_id_ends_in_server_error_witness :
  createBooking Samples.userId
    {| BookingRequest.products := [Samples.order "507F1F77BCF86CD799439011" 1%float None];
       BookingRequest.totalAmount := None |} Samples.db
  = (json 500 (Failure "Failed to create booking" BOOKING_CREATE_ERROR), Samples.db).
Proof.
  apply (capital_id_ends_in_server_error Samples.userId
           {| BookingRequest.products := [Samples.order "507F1F77BCF86CD799439011" 1%float None];
              BookingRequest.totalAmount := None |} Samples.db
           (Samples.order "507F1F77BCF86CD799439011" 1%float None)).
  - reflexivity.
  - repeat constructor; simpl; intuition discriminate.
  - reflexivity.
  - repeat constructor; simpl; intuition discriminate.
  - reflexivity.
  - left; reflexivity.
  - vm_compute. discriminate.
Defined.

End AvailabilityFacts.

(** ** Totals on both sides *)

Module TotalsFacts.
Import UserRoutes BookingSpec RouteFacts RouteMore.

Lemma fold_left_amounts {X Y : Type} (f : X -> JS.number * JS.number)
    (g : Y -> JS.number * JS.number) (l : list X) (l' : list Y) (acc : JS.number) :
  map f l = map g l' ->
  fold_left (fun total x => JS.add total (JS.mul (fst (f x)) (snd (f x)))) l acc
  = fold_left (fun total y => JS.add total (JS.mul (fst (g y)) (snd (g y)))) l' acc.
Proof.
  revert l' acc. induction l as [| x t IH]; intros [| y t'] acc H; try discriminate.
  - reflexivity.
  - simpl in H. injection H as Hx Ht. simpl. rewrite Hx. now apply IH.
Qed.

Lemma snapshot_amounts catalog ids (cartItems : list CartLine.t) lines :
  (forall item p, In item cartItems -> In p catalog ->
     ProductDoc._id p = Product._id (CartLine.product item) ->
     ProductDoc.price p = CartLine.price item) ->
  Forall2 (snapshot_of (Product_find_inStock ids catalog))
    (map (fun item =>
            {| BookingRequest.productId := Product._id (CartLine.product item);
               BookingRequest.quantity := CartLine.quantity item;
               BookingRequest.price := Some (CartLine.price item) |}) cartItems)
    lines ->
  map (fun l => (Booking.in_price l, Booking.in_quantity l)) lines
  = map (fun item => (CartLine.price item, CartLine.quantity item)) cartItems.
Proof.
  revert lines. induction cartItems as [| item rest IH]; intros lines Hcur HF;
    inversion HF as [| r l rs ls Hrl HF' E1 E2]; subst; simpl; [reflexivity |].
  destruct Hrl as (_ & Hq & p & Hfind & Hprice). cbn in Hq, Hfind.
  pose proof (find_some _ _ Hfind) as [Hin Heq].
  apply Product_find_inStock_In in Hin. destruct Hin as [Hin _].
  apply String.eqb_eq in Heq. unfold ObjectId.toString in Heq.
  rewrite Hprice, Hq, (Hcur item p (or_introl eq_refl) Hin Heq).
  f_equal. apply IH; [| exact HF'].
  intros item' p' Hi. apply Hcur. now right.
Qed.

(** X24: cart and booking agree on the money when the cart's prices are
    current.  If every cart line carries the catalog's present price for
    its product and the service accepts the store's request, the booking's
    total is the cart's sum of price times quantity, so that a cart whose
    cached total agrees with its items shows that total rounded to two
    decimals. *)
Theorem booking_total_matches_current_cart
    (userId : string) (state : Cart.CartState) (db db' : Database)
    (saved : Booking.t) (message : string) :
  (forall item p, In item (Cart.items state) -> In p (catalog db) ->
     ProductDoc._id p = Product._id (CartLine.product item) ->
     ProductDoc.price p = CartLine.price item) ->
  createBooking userId (Checkout.bookingData state) db
    = (json 201 (Success saved message), db') ->
  Booking.totalAmount saved = Some (Cart.sumAmount (Cart.items state))
  /\ (CartInvariant.totals_agree state ->
      Some (Cart.totalAmount state) = option_map Cart.round2 (Booking.totalAmount saved)).
Proof.
  intros Hcur H. apply createBooking_created in H.
  destruct H as (lines & Hl & -> & Hvalid & _).
  apply bookingProducts_snapshot in Hl.
  cbn [Checkout.bookingData BookingRequest.products] in Hl.
  pose proof (snapshot_amounts _ _ _ Hcur Hl) as Ha.
  assert (E : Booking.totalAmount (Booking.preSave (Booking.new (Some userId) lines None))
              = Some (Cart.sumAmount (Cart.items state))).
  { rewrite (BookingFacts.preSave_total _ (BookingFacts.validate_nonempty _ Hvalid)).
    f_equal. unfold Booking.linesTotal, Cart.sumAmount, reduce.
    cbn [Booking.new Booking.products].
    transitivity
      (fold_left (fun total l =>
                    JS.add total
                      (JS.mul (fst (Booking.in_price l, Booking.in_quantity l))
                              (snd (Booking.in_price l, Booking.in_quantity l))))
                 lines 0%float).
    - clear. generalize 0%float. induction lines as [| l t IH]; intros acc; simpl;
        [reflexivity | apply IH].
    - rewrite (fold_left_amounts
                 (fun l => (Booking.in_price l, Booking.in_quantity l))
                 (fun item => (CartLine.price item, CartLine.quantity item))
                 lines (Cart.items state) 0%float Ha).
      reflexivity. }
  split; [exact E |].
  intros [_ Ht]. rewrite E. cbn [option_map]. now rewrite Ht.
Qed.

Lemma booking_total_matches_current_cart_witness :
  Booking.totalAmount Samples2.savedA3 = Some (Cart.sumAmount (Cart.items Samples2.cartA3)).
Proof.
  assert (H : createBooking Samples.userId (Checkout.bookingData Samples2.cartA3) Samples.db
              = (json 201 (Success Samples2.savedA3 "Booking created successfully"),
                 {| catalog := catalog Samples.db; bookings := [Samples2.savedA3] |}))
    by (vm_compute; reflexivity).
  refine (proj1 (booking_total_matches_current_cart _ _ _ _ H)).
  intros item p [<- | []] Hp Hid.
  destruct Hp as [<- | [<- | [<- | []]]]; [reflexivity | discriminate Hid | discriminate Hid].
Defined.

End TotalsFacts.
